(** * The AWS actuator of the DNSZone controller

    A shallow embedding of [pkg/controller/dnszone/awsactuator.go]: the
    Route53 provider is an interface of blocking calls, modelled as a record
    of transition functions over an abstract provider state; the actuator's
    methods are written in a state-and-error monad that threads the
    actuator's fields, the provider state and the log of provider calls. *)

From Stdlib Require Import String Ascii List Bool Arith ZArith Lia DecimalString Permutation.
Import ListNotations.
Open Scope string_scope.

(** ** Go values *)

(** [aws.StringValue] and [aws.BoolValue]: the value behind a pointer, the
    zero value behind a nil pointer. *)
Definition StringValue (p : option string) : string :=
  match p with Some s => s | None => "" end.

Definition BoolValue (p : option bool) : bool :=
  match p with Some b => b | None => false end.

(** A Go [error] value: either a structured provider error (it answers the
    type assertion [err.(awserr.Error)] and carries a code and a message) or
    any other error ([errors.New], [fmt.Errorf], a transport failure). *)
Inductive error : Type :=
| AwsError (code message : string)
| PlainError (msg : string).

(** [awsErr, ok := err.(awserr.Error); ok && awsErr.Code() == code] *)
Definition isAwsCode (code : string) (e : error) : bool :=
  match e with AwsError c _ => String.eqb c code | PlainError _ => false end.

(** A call's [(value, err)] pair. *)
Definition result (A : Type) : Type := (A + error)%type.

(** Constants of the Route53 SDK. *)
Definition ErrCodeNoSuchHostedZone : string := "NoSuchHostedZone".
Definition ErrCodeHostedZoneAlreadyExists : string := "HostedZoneAlreadyExists".
Definition ErrCodeHostedZoneNotEmpty : string := "HostedZoneNotEmpty".
Definition RRTypeNs : string := "NS".
Definition RRTypeSoa : string := "SOA".
Definition ChangeActionDelete : string := "DELETE".

Definition hiveDNSZoneAWSTag : string := "hive.openshift.io/dnszone".

(** ** Route53 data *)

(** [route53.Tag]. The slices of tags the actuator handles never hold a nil
    pointer: [existingTags] and [syncTags] print every tag they receive with
    [tagString] before anything else, which dereferences it. *)
Record Tag : Type := mkTag { tag_Key : option string; tag_Value : option string }.

Record HostedZone : Type := mkHostedZone {
  hz_Id : option string;
  hz_Name : option string;
  hz_CallerReference : option string
}.

Record ResourceRecord : Type := mkResourceRecord { rr_Value : option string }.

Record ResourceRecordSet : Type := mkResourceRecordSet {
  rrs_Name : option string;
  rrs_Type : option string;
  rrs_ResourceRecords : list ResourceRecord
}.

Record Change : Type := mkChange {
  chg_Action : option string;
  chg_ResourceRecordSet : ResourceRecordSet
}.

Record ListHostedZonesByNameInput : Type := mkListHostedZonesByNameInput {
  lz_DNSName : option string;
  lz_HostedZoneId : option string;
  lz_MaxItems : option string
}.

Record ListHostedZonesByNameOutput : Type := mkListHostedZonesByNameOutput {
  lzo_HostedZones : list HostedZone;
  lzo_IsTruncated : option bool;
  lzo_NextDNSName : option string;
  lzo_NextHostedZoneId : option string
}.

Record ListResourceRecordSetsInput : Type := mkListResourceRecordSetsInput {
  lr_HostedZoneId : option string;
  lr_MaxItems : option string;
  lr_StartRecordIdentifier : option string;
  lr_StartRecordName : option string;
  lr_StartRecordType : option string
}.

Record ListResourceRecordSetsOutput : Type := mkListResourceRecordSetsOutput {
  lro_ResourceRecordSets : list ResourceRecordSet;
  lro_IsTruncated : option bool;
  lro_NextRecordIdentifier : option string;
  lro_NextRecordName : option string;
  lro_NextRecordType : option string
}.

Record ChangeTagsForResourceInput : Type := mkChangeTagsForResourceInput {
  ct_AddTags : list Tag;
  ct_RemoveTagKeys : list (option string);
  ct_ResourceId : option string;
  ct_ResourceType : option string
}.

Record CreateHostedZoneInput : Type := mkCreateHostedZoneInput {
  cz_Name : option string;
  cz_CallerReference : option string
}.

(** [resourcegroupstaggingapi.GetResourcesInput] with its single tag filter,
    and one page of its output. *)
Record GetResourcesInput : Type := mkGetResourcesInput {
  gr_ResourceTypeFilters : list (option string);
  gr_TagFilterKey : option string;
  gr_TagFilterValues : list (option string)
}.

Record GetResourcesOutput : Type := mkGetResourcesOutput {
  gro_ResourceTagMappingList : list (option string)   (* the ResourceARN of each mapping *)
}.

(** ** The DNSZone resource *)

Inductive ConditionStatus : Type := ConditionTrue | ConditionFalse | ConditionUnknown.

Inductive DNSZoneConditionType : Type :=
| InsufficientCredentialsCondition
| AuthenticationFailureCondition
| OtherCondition (name : string).

Record DNSZoneCondition : Type := mkCondition {
  cond_Type : DNSZoneConditionType;
  cond_Status : ConditionStatus;
  cond_Reason : string;
  cond_Message : string
}.

Inductive UpdateConditionCheck : Type :=
| UpdateConditionAlways
| UpdateConditionNever
| UpdateConditionIfReasonOrMessageChange.

Record AWSDNSZoneSpec : Type := mkAWSDNSZoneSpec {
  AdditionalTags : list (string * string);
  Region : string
}.

Record AWSDNSZoneStatus : Type := mkAWSDNSZoneStatus { ZoneID : option string }.

Record DNSZone : Type := mkDNSZone {
  Namespace : string;
  Name : string;
  UID : string;
  Spec_Zone : string;
  Spec_AWS : option AWSDNSZoneSpec;
  Status_AWS : option AWSDNSZoneStatus;
  Status_Conditions : list DNSZoneCondition
}.

Definition set_Status_AWS (st : option AWSDNSZoneStatus) (z : DNSZone) : DNSZone :=
  mkDNSZone (Namespace z) (Name z) (UID z) (Spec_Zone z) (Spec_AWS z) st (Status_Conditions z).

Definition set_Status_Conditions (cs : list DNSZoneCondition) (z : DNSZone) : DNSZone :=
  mkDNSZone (Namespace z) (Name z) (UID z) (Spec_Zone z) (Spec_AWS z) (Status_AWS z) cs.

(** ** The actuator *)

(** [AWSActuator], without its logger and its client (the client is the
    provider interface below). *)
Record AWSActuator : Type := mkAWSActuator {
  hostedZone : option HostedZone;
  currentHostedZoneTags : list Tag;
  dnsZone : DNSZone
}.

(** ** The provider *)

(** Levels of the logger. *)
Inductive Level : Type := ErrorLevel | InfoLevel.

(** One provider call with the answer it got. Logging has no part in the
    control flow and is left out, but for the one entry whose level the code
    computes: the failure of [DeleteHostedZone] in [Delete]. *)
Inductive Event : Type :=
| EvCreateHostedZone (i : CreateHostedZoneInput) (r : result HostedZone)
| EvGetHostedZone (id : option string) (r : result HostedZone)
| EvListHostedZonesByName (i : ListHostedZonesByNameInput) (r : result ListHostedZonesByNameOutput)
| EvListResourceRecordSets (i : ListResourceRecordSetsInput) (r : result ListResourceRecordSetsOutput)
| EvChangeResourceRecordSets (zoneId : option string) (changes : list Change) (r : result unit)
| EvListTagsForResource (id : option string) (r : result (list Tag))
| EvChangeTagsForResource (i : ChangeTagsForResourceInput) (r : result unit)
| EvDeleteHostedZone (id : option string) (r : result unit)
| EvGetResourcesPages (i : GetResourcesInput) (pages : list GetResourcesOutput) (err : option error)
| EvLog (level : Level) (message : string) (err : error).

(** [awsclient.Client], restricted to the calls the actuator makes. [W] is the
    provider's state; every call may change it. [GetResourcesPages] is the
    SDK's paginator: it hands each page to the callback as long as the callback
    answers true and returns the error of the request that failed, if any; the
    model gives the pages delivered before that. *)
Record Client (W : Type) : Type := mkClient {
  CreateHostedZone : CreateHostedZoneInput -> W -> result HostedZone * W;
  GetHostedZone : option string -> W -> result HostedZone * W;
  ListHostedZonesByName : ListHostedZonesByNameInput -> W -> result ListHostedZonesByNameOutput * W;
  ListResourceRecordSets : ListResourceRecordSetsInput -> W -> result ListResourceRecordSetsOutput * W;
  ChangeResourceRecordSets : option string -> list Change -> W -> result unit * W;
  ListTagsForResource : option string -> W -> result (list Tag) * W;
  ChangeTagsForResource : ChangeTagsForResourceInput -> W -> result unit * W;
  DeleteHostedZone : option string -> W -> result unit * W;
  GetResourcesPages : GetResourcesInput -> W -> (list GetResourcesOutput * option error) * W
}.

Arguments CreateHostedZone {W}.
Arguments GetHostedZone {W}.
Arguments ListHostedZonesByName {W}.
Arguments ListResourceRecordSets {W}.
Arguments ChangeResourceRecordSets {W}.
Arguments ListTagsForResource {W}.
Arguments ChangeTagsForResource {W}.
Arguments DeleteHostedZone {W}.
Arguments GetResourcesPages {W}.

(** ** The monad *)

(** What a method call comes to: a value, a returned error, a run-time panic
    (a nil pointer dereference), or the bound on the iterations of an
    unbounded loop reached. *)
Inductive outcome (A : Type) : Type :=
| Ok (a : A)
| Fail (e : error)
| Panic
| OutOfFuel.

Arguments Ok {A}.
Arguments Fail {A}.
Arguments Panic {A}.
Arguments OutOfFuel {A}.

Record Sys (W : Type) : Type := mkSys {
  actuator : AWSActuator;
  world : W;
  trace : list Event
}.

Arguments mkSys {W}.
Arguments actuator {W}.
Arguments world {W}.
Arguments trace {W}.

Definition M (W A : Type) : Type := Sys W -> outcome A * Sys W.

Definition ret {W A} (a : A) : M W A := fun s => (Ok a, s).

Definition fail {W A} (e : error) : M W A := fun s => (Fail e, s).

Definition panic {W A} : M W A := fun s => (Panic, s).

Definition outOfFuel {W A} : M W A := fun s => (OutOfFuel, s).

Definition bind {W A B} (m : M W A) (k : A -> M W B) : M W B :=
  fun s =>
    match m s with
    | (Ok a, s') => k a s'
    | (Fail e, s') => (Fail e, s')
    | (Panic, s') => (Panic, s')
    | (OutOfFuel, s') => (OutOfFuel, s')
    end.

Declare Scope act_scope.
Delimit Scope act_scope with act.
Notation "x <- c1 ;; c2" := (bind c1 (fun x => c2))
  (at level 61, c1 at next level, right associativity) : act_scope.
Notation "c1 ;;; c2" := (bind c1 (fun _ => c2))
  (at level 61, right associativity) : act_scope.
Open Scope act_scope.

Definition getActuator {W} : M W AWSActuator := fun s => (Ok (actuator s), s).

Definition modifyActuator {W} (f : AWSActuator -> AWSActuator) : M W unit :=
  fun s => (Ok tt, mkSys (f (actuator s)) (world s) (trace s)).

(** A provider call: the provider moves to its next state and the call is
    logged with its answer. *)
Definition call {W A} (op : W -> A * W) (ev : A -> Event) : M W A :=
  fun s =>
    let (r, w') := op (world s) in
    (Ok r, mkSys (actuator s) w' (trace s ++ [ev r])).

(** An entry of the logger at a computed level. *)
Definition logAt {W} (level : Level) (message : string) (err : error) : M W unit :=
  fun s => (Ok tt, mkSys (actuator s) (world s) (trace s ++ [EvLog level message err])).

(** Field updates of the actuator. *)
Definition set_hostedZone (hz : option HostedZone) (a : AWSActuator) : AWSActuator :=
  mkAWSActuator hz (currentHostedZoneTags a) (dnsZone a).

Definition set_currentHostedZoneTags (tags : list Tag) (a : AWSActuator) : AWSActuator :=
  mkAWSActuator (hostedZone a) tags (dnsZone a).

Definition set_dnsZone (z : DNSZone) (a : AWSActuator) : AWSActuator :=
  mkAWSActuator (hostedZone a) (currentHostedZoneTags a) z.

(** ** Strings *)

(** [strings.Split(s, sep)] for a separator of one character. *)
Fixpoint Split (s : string) (sep : ascii) : list string :=
  match s with
  | EmptyString => [EmptyString]
  | String c rest =>
      if Ascii.eqb c sep then EmptyString :: Split rest sep
      else match Split rest sep with
           | h :: t => String c h :: t
           | [] => [String c EmptyString]
           end
  end.

(** [strings.SplitN(s, sep, n)] for a separator of one character and [n >= 0]:
    at most [n] pieces, the last one the unsplit rest. *)
Fixpoint SplitN (n : nat) (sep : ascii) (s : string) {struct s} : list string :=
  match n with
  | 0 => []
  | 1 => [s]
  | S (S _ as n') =>
      match s with
      | EmptyString => [EmptyString]
      | String c rest =>
          if Ascii.eqb c sep then EmptyString :: SplitN n' sep rest
          else match SplitN n sep rest with
               | h :: t => String c h :: t
               | [] => [String c EmptyString]
               end
      end
  end.

(** [arn.Parse] of the SDK: the prefix [arn:], then six sections separated by
    colons, the sixth being the resource (it may hold colons itself). *)
Record ARN : Type := mkARN {
  arn_Partition : string;
  arn_Service : string;
  arn_Region : string;
  arn_AccountID : string;
  arn_Resource : string
}.

Definition arnParse (arn : string) : option ARN :=
  if negb (String.prefix "arn:" arn) then None
  else match SplitN 6 ":"%char arn with
       | [_; p; s; r; a; res] => Some (mkARN p s r a res)
       | _ => None
       end.

(** [%d] of a length. *)
Definition itoa (n : nat) : string :=
  NilZero.string_of_uint (Nat.to_uint n).

(** Go's [s[i:j]] for [i <= j <= len(s)]. *)
Definition slice {A} (s : list A) (i j : nat) : list A := firstn (j - i) (skipn i s).

Definition min (a b : nat) : nat := if (a <=? b)%nat then a else b.

(** ** Tags *)

Definition tagEquals (a b : Tag) : bool :=
  String.eqb (StringValue (tag_Key a)) (StringValue (tag_Key b)) &&
  String.eqb (StringValue (tag_Value a)) (StringValue (tag_Value b)).

(** The inner loop of [syncTags]: the first tag of [toDelete] equal to [tag]
    is cut out of it ([append(toDelete[:i], toDelete[i+1:]...)], then [break]);
    [None] when no tag is ([found] stays false). *)
Fixpoint removeFound (tag : Tag) (toDelete : list Tag) : option (list Tag) :=
  match toDelete with
  | [] => None
  | actualTag :: rest =>
      if tagEquals tag actualTag then Some rest
      else match removeFound tag rest with
           | Some rest' => Some (actualTag :: rest')
           | None => None
           end
  end.

(** The outer loop of [syncTags] over [expected]; the result is
    [(toAdd, toDelete)]. *)
Fixpoint diffTags (expected toAdd toDelete : list Tag) : list Tag * list Tag :=
  match expected with
  | [] => (toAdd, toDelete)
  | tag :: rest =>
      match removeFound tag toDelete with
      | Some toDelete' => diffTags rest toAdd toDelete'
      | None => diffTags rest (toAdd ++ [tag]) toDelete
      end
  end.

Definition expectedTags (a : AWSActuator) : list Tag :=
  let z := dnsZone a in
  mkTag (Some hiveDNSZoneAWSTag) (Some (Namespace z ++ "/" ++ Name z))
  :: match Spec_AWS z with
     | Some aws => map (fun tag => mkTag (Some (fst tag)) (Some (snd tag))) (AdditionalTags aws)
     | None => []
     end.

(** The two additions and removals of one [ChangeTagsForResource] call of the
    batching loop, at [index]. *)
Definition toAddSegment (toAdd : list Tag) (index : nat) : list Tag :=
  if (index <? length toAdd)%nat then slice toAdd index (min (index + 10) (length toAdd)) else [].

Definition keysToDeleteSegment (keysToDelete : list (option string)) (index : nat) : list (option string) :=
  if (index <? length keysToDelete)%nat
  then slice keysToDelete index (min (index + 10) (length keysToDelete)) else [].

(** ** Zone search *)

(** The identifier in a resource ARN of the tag search, as the callback of
    [findZoneIDsByTag] reads it; [None] where the callback logs and skips. *)
Definition zoneIDOfARN (resourceARN : option string) : option string :=
  match arnParse (StringValue resourceARN) with
  | None => None
  | Some zoneARN =>
      match Split (arn_Resource zoneARN) "/"%char with
      | [e0; e1] => if String.eqb e0 "hostedzone" then Some e1 else None
      | _ => None
      end
  end.

Definition collectIDs (pages : list GetResourcesOutput) : list string :=
  flat_map (fun resp =>
    flat_map (fun zone => match zoneIDOfARN zone with Some id => [id] | None => [] end)
             (gro_ResourceTagMappingList resp)) pages.

(** The scan of one page of [ListHostedZonesByName] in
    [findZoneByCallerReference]: a zone with the caller reference ends the
    search with that zone, a zone of another name ends it with an error,
    [None] when the page is passed without either. *)
Fixpoint scanZones (domain callerRef : string) (zones : list HostedZone) : option (result HostedZone) :=
  match zones with
  | [] => None
  | zone :: rest =>
      if String.eqb (StringValue (hz_CallerReference zone)) callerRef then Some (inl zone)
      else if negb (String.eqb (StringValue (hz_Name zone)) domain)
           then Some (inr (PlainError "Hosted zone not found"))
           else scanZones domain callerRef rest
  end.

(** ** Record sweep *)

(** The condition under which [DeleteAWSRecordSets] leaves a record set alone. *)
Definition isProtected (dotted : string) (recordSet : ResourceRecordSet) : bool :=
  let n := StringValue (rrs_Name recordSet) in
  let t := StringValue (rrs_Type recordSet) in
  String.eqb n dotted && (String.eqb t RRTypeNs || String.eqb t RRTypeSoa).

Fixpoint recordSetChanges (dotted : string) (recordSets : list ResourceRecordSet) : list Change :=
  match recordSets with
  | [] => []
  | recordSet :: rest =>
      if isProtected dotted recordSet then recordSetChanges dotted rest
      else mkChange (Some ChangeActionDelete) recordSet :: recordSetChanges dotted rest
  end.

(** The level of the log entry of [Delete] when [DeleteHostedZone] fails. *)
Definition deleteLogLevel (err : error) : Level :=
  if isAwsCode ErrCodeHostedZoneNotEmpty err then InfoLevel else ErrorLevel.

(** ** The methods of the actuator *)

Section Actuator.

Context {W : Type}.

(** The client of the pass. *)
Variable awsClient : Client W.

(** [controllerutils.Dotted], of another package of the repository: the
    domain in the form Route53 reports names in. *)
Variable Dotted : string -> string.

(** [modifyStatus] *)
Definition modifyStatus : M W unit :=
  a <- getActuator ;;
  match hostedZone a with
  | None => fail (PlainError "zoneID is unpopulated")
  | Some hz =>
      modifyActuator
        (set_dnsZone (set_Status_AWS (Some (mkAWSDNSZoneStatus (hz_Id hz))) (dnsZone a)))
  end.

(** The batching loop of [syncTags]. Its index grows by 10 each round, so it
    ends; [fuel] bounds the rounds, and [syncTags] gives it enough. *)
Fixpoint changeTagsLoop (fuel : nat) (id : option string) (toAdd : list Tag)
    (keysToDelete : list (option string)) (index : nat) : M W unit :=
  if (index <? length toAdd)%nat || (index <? length keysToDelete)%nat then
    match fuel with
    | 0 => outOfFuel
    | S fuel' =>
        let input := mkChangeTagsForResourceInput
                       (toAddSegment toAdd index)
                       (keysToDeleteSegment keysToDelete index)
                       id (Some "hostedzone") in
        r <- call (ChangeTagsForResource awsClient input) (EvChangeTagsForResource input) ;;
        match r with
        | inr err => fail err
        | inl _ => changeTagsLoop fuel' id toAdd keysToDelete (index + 10)
        end
    end
  else ret tt.

(** [syncTags] *)
Definition syncTags : M W unit :=
  a <- getActuator ;;
  let existingTags := currentHostedZoneTags a in
  let expected := expectedTags a in
  match hostedZone a with
  | None => panic
  | Some hz =>
      let (toAdd, toDelete) := diffTags expected [] existingTags in
      if (length toDelete =? 0)%nat && (length toAdd =? 0)%nat then ret tt
      else
        let keysToDelete := map tag_Key toDelete in
        changeTagsLoop (Nat.max (length toAdd) (length keysToDelete))
                       (hz_Id hz) toAdd keysToDelete 0
  end.

(** [UpdateMetadata] *)
Definition UpdateMetadata : M W unit :=
  a <- getActuator ;;
  match hostedZone a with
  | None => fail (PlainError "hostedZone is unpopulated")
  | Some _ => syncTags
  end.

(** [existingTags] *)
Definition existingTags (zoneID : option string) : M W (list Tag) :=
  r <- call (ListTagsForResource awsClient zoneID) (EvListTagsForResource zoneID) ;;
  match r with
  | inr err => fail err
  | inl tags => ret tags
  end.

(** [findZoneIDsByTag], as [Refresh] uses its two results: an error of the
    search is returned, whatever was collected. *)
Definition findZoneIDsByTag : M W (list string) :=
  a <- getActuator ;;
  let input := mkGetResourcesInput
                 [Some "route53:hostedzone"]
                 (Some hiveDNSZoneAWSTag)
                 [Some (Namespace (dnsZone a) ++ "/" ++ Name (dnsZone a))] in
  r <- call (GetResourcesPages awsClient input)
            (fun r => EvGetResourcesPages input (fst r) (snd r)) ;;
  match snd r with
  | Some err => fail err
  | None => ret (collectIDs (fst r))
  end.

(** The loop of [Refresh] over the collected identifiers. *)
Fixpoint refreshLoop (zoneIDs : list string) : M W unit :=
  match zoneIDs with
  | [] => ret tt
  | zoneID :: rest =>
      r <- call (GetHostedZone awsClient (Some zoneID)) (EvGetHostedZone (Some zoneID)) ;;
      match r with
      | inr err =>
          if isAwsCode ErrCodeNoSuchHostedZone err then refreshLoop rest else fail err
      | inl resp =>
          match hz_Name resp with
          | None => panic
          | Some name =>
              a <- getActuator ;;
              if negb (String.eqb name (Dotted (Spec_Zone (dnsZone a)))) then refreshLoop rest
              else
                modifyActuator (set_hostedZone (Some resp)) ;;;
                modifyStatus ;;;
                refreshLoop rest
          end
      end
  end.

(** The first part of [Refresh]: the identifiers to fetch, the one of the
    status if it has one, else those of the tag search. *)
Definition lookupZoneIDs : M W (list string) :=
  a <- getActuator ;;
  let zoneIDs :=
    match Status_AWS (dnsZone a) with
    | Some st => match ZoneID st with Some id => [id] | None => [] end
    | None => []
    end in
  if (length zoneIDs =? 0)%nat then findZoneIDsByTag else ret zoneIDs.

(** [Refresh] *)
Definition Refresh : M W unit :=
  zoneIDs <- lookupZoneIDs ;;
  if (length zoneIDs =? 0)%nat then ret tt
  else
    modifyActuator (set_hostedZone None) ;;;
    refreshLoop zoneIDs ;;;
    a <- getActuator ;;
    match hostedZone a with
    | None => ret tt
    | Some hz =>
        tags <- existingTags (hz_Id hz) ;;
        modifyActuator (set_currentHostedZoneTags tags)
    end.

(** The loop of [findZoneByCallerReference]; nothing bounds its rounds but
    the provider's answers, so the model takes a bound. *)
Fixpoint findZoneLoop (fuel : nat) (domain callerRef : string)
    (nextName nextZoneID : option string) : M W HostedZone :=
  match fuel with
  | 0 => outOfFuel
  | S fuel' =>
      let input := mkListHostedZonesByNameInput nextName nextZoneID (Some "50") in
      r <- call (ListHostedZonesByName awsClient input) (EvListHostedZonesByName input) ;;
      match r with
      | inr err => fail err
      | inl resp =>
          match scanZones domain callerRef (lzo_HostedZones resp) with
          | Some (inl zone) => ret zone
          | Some (inr e) => fail e
          | None =>
              if negb (BoolValue (lzo_IsTruncated resp))
              then fail (PlainError "Hosted zone not found")
              else findZoneLoop fuel' domain callerRef
                     (lzo_NextDNSName resp) (lzo_NextHostedZoneId resp)
          end
      end
  end.

(** [findZoneByCallerReference] *)
Definition findZoneByCallerReference (fuel : nat) (domain callerRef : string) : M W HostedZone :=
  findZoneLoop fuel domain callerRef (Some domain) None.

(** [Create] *)
Definition Create (fuel : nat) : M W unit :=
  a <- getActuator ;;
  let input := mkCreateHostedZoneInput (Some (Spec_Zone (dnsZone a))) (Some (UID (dnsZone a))) in
  r <- call (CreateHostedZone awsClient input) (EvCreateHostedZone input) ;;
  hostedZone <-
    match r with
    | inr err =>
        if isAwsCode ErrCodeHostedZoneAlreadyExists err
        then findZoneByCallerReference fuel (Spec_Zone (dnsZone a)) (UID (dnsZone a))
        else fail err
    | inl zone => ret zone
    end ;;
  tags <- existingTags (hz_Id hostedZone) ;;
  modifyActuator (set_hostedZone (Some hostedZone)) ;;;
  modifyStatus ;;;
  modifyActuator (set_currentHostedZoneTags tags) ;;;
  syncTags.

(** What [Create] does once it has the zone, created or found. *)
Definition finishCreate (zone : HostedZone) : M W unit :=
  tags <- existingTags (hz_Id zone) ;;
  modifyActuator (set_hostedZone (Some zone)) ;;;
  modifyStatus ;;;
  modifyActuator (set_currentHostedZoneTags tags) ;;;
  syncTags.

(** The loop of [DeleteAWSRecordSets], bounded like [findZoneLoop]. *)
Fixpoint deleteRecordSetsLoop (fuel : nat) (dnsZone : DNSZone) (zoneID : option string)
    (listInput : ListResourceRecordSetsInput) : M W unit :=
  match fuel with
  | 0 => outOfFuel
  | S fuel' =>
      r <- call (ListResourceRecordSets awsClient listInput) (EvListResourceRecordSets listInput) ;;
      match r with
      | inr err => fail err
      | inl listOutput =>
          let changes :=
            recordSetChanges (Dotted (Spec_Zone dnsZone)) (lro_ResourceRecordSets listOutput) in
          (if (0 <? length changes)%nat then
             r' <- call (ChangeResourceRecordSets awsClient zoneID changes)
                        (EvChangeResourceRecordSets zoneID changes) ;;
             match r' with
             | inr err => fail err
             | inl _ => ret tt
             end
           else ret tt) ;;;
          if negb (BoolValue (lro_IsTruncated listOutput)) then ret tt
          else deleteRecordSetsLoop fuel' dnsZone zoneID
                 (mkListResourceRecordSetsInput
                    (lr_HostedZoneId listInput) (lr_MaxItems listInput)
                    (lro_NextRecordIdentifier listOutput)
                    (lro_NextRecordName listOutput)
                    (lro_NextRecordType listOutput))
      end
  end.

(** [DeleteAWSRecordSets] *)
Definition DeleteAWSRecordSets (fuel : nat) (dnsZone : DNSZone) : M W unit :=
  match Status_AWS dnsZone with
  | None => panic
  | Some st =>
      deleteRecordSetsLoop fuel dnsZone (ZoneID st)
        (mkListResourceRecordSetsInput (ZoneID st) (Some "100") None None None)
  end.

(** [Delete] *)
Definition Delete (fuel : nat) : M W unit :=
  a <- getActuator ;;
  match hostedZone a with
  | None => fail (PlainError "hostedZone is unpopulated")
  | Some hz =>
      DeleteAWSRecordSets fuel (dnsZone a) ;;;
      r <- call (DeleteHostedZone awsClient (hz_Id hz)) (EvDeleteHostedZone (hz_Id hz)) ;;
      match r with
      | inr err =>
          logAt (deleteLogLevel err) "Cannot delete hosted zone" err ;;;
          fail err
      | inl _ => ret tt
      end
  end.

(** [GetNameServers] *)
Definition GetNameServers : M W (list string) :=
  a <- getActuator ;;
  match hostedZone a with
  | None => fail (PlainError "hostedZone is unpopulated")
  | Some hz =>
      match hz_Id hz with
      | None => panic
      | Some id =>
          let zone := Spec_Zone (dnsZone a) in
          let input := mkListResourceRecordSetsInput (Some id) (Some "1") None (Some zone) (Some "NS") in
          r <- call (ListResourceRecordSets awsClient input) (EvListResourceRecordSets input) ;;
          match r with
          | inr err => fail err
          | inl resp =>
              match lro_ResourceRecordSets resp with
              | [recordSet] =>
                  if negb (String.eqb (StringValue (rrs_Type recordSet)) "NS")
                  then fail (PlainError "name server record not found")
                  else if negb (String.eqb (StringValue (rrs_Name recordSet)) (zone ++ "."))
                  then fail (PlainError ("name server record not found for domain " ++ zone))
                  else ret (map (fun record => StringValue (rr_Value record))
                                (rrs_ResourceRecords recordSet))
              | recordSets =>
                  fail (PlainError ("unexpected number of recordsets returned: "
                                    ++ itoa (length recordSets)))
              end
          end
      end
  end.

(** [Exists] *)
Definition Exists : M W bool :=
  a <- getActuator ;;
  ret (match hostedZone a with Some _ => true | None => false end).

End Actuator.

(** ** The error classifier *)

Definition conditionType_eqb (a b : DNSZoneConditionType) : bool :=
  match a, b with
  | InsufficientCredentialsCondition, InsufficientCredentialsCondition => true
  | AuthenticationFailureCondition, AuthenticationFailureCondition => true
  | OtherCondition x, OtherCondition y => String.eqb x y
  | _, _ => false
  end.

(** The stored condition of a type: the first entry of that type. *)
Fixpoint findCondition (conditions : list DNSZoneCondition) (t : DNSZoneConditionType)
    : option DNSZoneCondition :=
  match conditions with
  | [] => None
  | c :: rest => if conditionType_eqb (cond_Type c) t then Some c else findCondition rest t
  end.

(** A condition is signalled when its stored entry has status true. *)
Definition conditionIsTrue (conditions : list DNSZoneCondition) (t : DNSZoneConditionType) : bool :=
  match findCondition conditions t with
  | Some c => match cond_Status c with ConditionTrue => true | _ => false end
  | None => false
  end.

Definition conditionsOf (a : AWSActuator) : list DNSZoneCondition :=
  Status_Conditions (dnsZone a).

Definition redactedMessage : string :=
  "AccessDenied error encountered (see controller logs for details)".

Definition isAccessDenied (code : string) : bool :=
  String.eqb code "AccessDeniedException" || String.eqb code "AccessDenied".

Definition isAuthenticationFailure (code : string) : bool :=
  String.eqb code "InvalidSignatureException" || String.eqb code "UnrecognizedClientException".

Section Conditions.

(** [controllerutils.SetDNSZoneConditionWithChangeCheck], of another package
    of the repository: the conditions with one of them set, and whether that
    changed them. *)
Variable SetDNSZoneConditionWithChangeCheck :
  list DNSZoneCondition -> DNSZoneConditionType -> ConditionStatus -> string -> string ->
  UpdateConditionCheck -> list DNSZoneCondition * bool.

(** The reasons, constants of another file of the package. *)
Variables accessGrantedReason accessDeniedReason : string.
Variables authenticationSucceededReason authenticationFailedReason : string.

(** What the four setters do with the answer of the helper: the conditions
    are stored in the status when the helper says they changed. *)
Definition storeConditions (answer : list DNSZoneCondition * bool) (a : AWSActuator)
    : bool * AWSActuator :=
  let (conds, changed) := answer in
  (changed, if changed then set_dnsZone (set_Status_Conditions conds (dnsZone a)) a else a).

Definition setInsufficientCredentialsConditionToFalse (a : AWSActuator) : bool * AWSActuator :=
  storeConditions
    (SetDNSZoneConditionWithChangeCheck
       (Status_Conditions (dnsZone a))
       InsufficientCredentialsCondition
       ConditionFalse
       accessGrantedReason
       "credentials are valid"
       UpdateConditionNever) a.

Definition setInsufficientCredentialsConditionToTrue (message : string) (a : AWSActuator)
    : bool * AWSActuator :=
  storeConditions
    (SetDNSZoneConditionWithChangeCheck
       (Status_Conditions (dnsZone a))
       InsufficientCredentialsCondition
       ConditionTrue
       accessDeniedReason
       "AccessDenied error encountered (see controller logs for details)"
       UpdateConditionIfReasonOrMessageChange) a.

Definition setAuthenticationFailureConditionToFalse (a : AWSActuator) : bool * AWSActuator :=
  storeConditions
    (SetDNSZoneConditionWithChangeCheck
       (Status_Conditions (dnsZone a))
       AuthenticationFailureCondition
       ConditionFalse
       authenticationSucceededReason
       "credentials authenticated"
       UpdateConditionNever) a.

Definition setAuthenticationFailureConditionToTrue (message : string) (a : AWSActuator)
    : bool * AWSActuator :=
  storeConditions
    (SetDNSZoneConditionWithChangeCheck
       (Status_Conditions (dnsZone a))
       AuthenticationFailureCondition
       ConditionTrue
       authenticationFailedReason
       message
       UpdateConditionIfReasonOrMessageChange) a.

(** [SetConditionsForError]; [None] is the nil error. *)
Definition SetConditionsForError (err : option error) (a : AWSActuator) : bool * AWSActuator :=
  match err with
  | Some (AwsError code message) =>
      let (accessDeniedCondsChanged, a1) :=
        if String.eqb code "AccessDeniedException" || String.eqb code "AccessDenied"
        then setInsufficientCredentialsConditionToTrue message a
        else setInsufficientCredentialsConditionToFalse a in
      let (authenticationFailureCondsChanged, a2) :=
        if String.eqb code "InvalidSignatureException" || String.eqb code "UnrecognizedClientException"
        then setAuthenticationFailureConditionToTrue message a1
        else setAuthenticationFailureConditionToFalse a1 in
      (accessDeniedCondsChanged || authenticationFailureCondsChanged, a2)
  | _ =>
      let (accessDeniedCondsChanged, a1) := setInsufficientCredentialsConditionToFalse a in
      let (authenticationFailureCondsChanged, a2) := setAuthenticationFailureConditionToFalse a1 in
      (accessDeniedCondsChanged || authenticationFailureCondsChanged, a2)
  end.

(** The two setters [SetConditionsForError] runs, one after the other. *)
Definition twoSetters (st1 : ConditionStatus) (r1 m1 : string) (p1 : UpdateConditionCheck)
    (st2 : ConditionStatus) (r2 m2 : string) (p2 : UpdateConditionCheck)
    (a : AWSActuator) : bool * AWSActuator :=
  let step1 :=
    storeConditions (SetDNSZoneConditionWithChangeCheck (conditionsOf a) InsufficientCredentialsCondition st1 r1 m1 p1) a in
  let step2 :=
    storeConditions
      (SetDNSZoneConditionWithChangeCheck (conditionsOf (snd step1)) AuthenticationFailureCondition st2 r2 m2 p2) (snd step1) in
  (fst step1 || fst step2, snd step2).

End Conditions.

(** ** What a run shows *)

(** What [tagEquals] compares of a tag. *)
Definition tagContent (t : Tag) : string * string :=
  (StringValue (tag_Key t), StringValue (tag_Value t)).

(** The input of the call the batching loop makes at [index]. *)
Definition changeTagsInput (id : option string) (toAdd : list Tag)
    (keysToDelete : list (option string)) (index : nat) : ChangeTagsForResourceInput :=
  mkChangeTagsForResourceInput
    (toAddSegment toAdd index) (keysToDeleteSegment keysToDelete index) id (Some "hostedzone").

(** The values the index takes in [n] rounds from [index] on. *)
Fixpoint strides (index n : nat) : list nat :=
  match n with
  | 0 => []
  | S n' => index :: strides (index + 10) n'
  end.

(** The tag changes with these inputs, answered in order. *)
Definition tagEvents (inputs : list ChangeTagsForResourceInput) (answers : list (result unit))
    : list Event :=
  map (fun p => EvChangeTagsForResource (fst p) (snd p)) (combine inputs answers).

(** The actuator once the loop of [Refresh] has retained a zone: the zone is
    cached and its identifier written to the status. *)
Definition resolve (a : AWSActuator) (hz : HostedZone) : AWSActuator :=
  mkAWSActuator (Some hz) (currentHostedZoneTags a)
    (set_Status_AWS (Some (mkAWSDNSZoneStatus (hz_Id hz))) (dnsZone a)).

(** The comparison of [Refresh]: the name of the fetched zone is the dotted
    domain. *)
Definition nameMatches (dotted : string) (hz : HostedZone) : bool :=
  match hz_Name hz with
  | Some name => String.eqb name dotted
  | None => false
  end.

(** The fetched zones of the expected name, in the order they were fetched. *)
Definition matchingZones (dotted : string) (answers : list (result HostedZone)) : list HostedZone :=
  flat_map (fun r => match r with
                     | inl hz => if nameMatches dotted hz then [hz] else []
                     | inr _ => []
                     end) answers.

(** An answer the loop goes on after: a zone (Route53 gives it a name), or the
    error that the zone does not exist. *)
Definition benign (r : result HostedZone) : Prop :=
  match r with
  | inl hz => hz_Name hz <> None
  | inr err => isAwsCode ErrCodeNoSuchHostedZone err = true
  end.

(** The fetches of the first identifiers, answered in order. *)
Definition fetchEvents (ids : list string) (answers : list (result HostedZone)) : list Event :=
  map (fun p => EvGetHostedZone (Some (fst p)) (snd p)) (combine ids answers).

(** The request for the page after [listOutput]. *)
Definition nextListInput (listInput : ListResourceRecordSetsInput)
    (listOutput : ListResourceRecordSetsOutput) : ListResourceRecordSetsInput :=
  mkListResourceRecordSetsInput
    (lr_HostedZoneId listInput) (lr_MaxItems listInput)
    (lro_NextRecordIdentifier listOutput)
    (lro_NextRecordName listOutput)
    (lro_NextRecordType listOutput).

(** The calls of a round of the sweep that lists [listOutput]: the listing,
    then one change with all the deletions of the page, if there are any. *)
Definition roundEvents (zoneID : option string) (dotted : string)
    (listInput : ListResourceRecordSetsInput) (listOutput : ListResourceRecordSetsOutput)
    (changeAnswer : result unit) : list Event :=
  EvListResourceRecordSets listInput (inl listOutput)
  :: match recordSetChanges dotted (lro_ResourceRecordSets listOutput) with
     | [] => []
     | changes => [EvChangeResourceRecordSets zoneID changes changeAnswer]
     end.

(** The calls of the rounds that list [pages] one after the other, each from
    the cursor of the page before, and whose changes succeed. *)
Fixpoint sweepEvents (zoneID : option string) (dotted : string)
    (listInput : ListResourceRecordSetsInput) (pages : list ListResourceRecordSetsOutput)
    : list Event :=
  match pages with
  | [] => []
  | listOutput :: rest =>
      (roundEvents zoneID dotted listInput listOutput (inl tt)
       ++ sweepEvents zoneID dotted (nextListInput listInput listOutput) rest)%list
  end.

(** The request after the rounds that list [pages]. *)
Definition cursorAfter (listInput : ListResourceRecordSetsInput)
    (pages : list ListResourceRecordSetsOutput) : ListResourceRecordSetsInput :=
  fold_left nextListInput pages listInput.

Definition truncated (listOutput : ListResourceRecordSetsOutput) : Prop :=
  BoolValue (lro_IsTruncated listOutput) = true.

(** The deletion batches among events. *)
Definition deletionBatches (events : list Event) : list (list Change) :=
  flat_map (fun e => match e with
                     | EvChangeResourceRecordSets _ changes _ => [changes]
                     | _ => []
                     end) events.

Definition notFound : error := PlainError "Hosted zone not found".

(** An entry the scan of [findZoneByCallerReference] passes: of the domain,
    with another caller reference. *)
Definition passedZone (domain callerRef : string) (zone : HostedZone) : Prop :=
  StringValue (hz_CallerReference zone) <> callerRef /\ StringValue (hz_Name zone) = domain.

Definition firstZonesInput (domain : string) : ListHostedZonesByNameInput :=
  mkListHostedZonesByNameInput (Some domain) None (Some "50").

(** The request for the page after [resp]. *)
Definition nextZonesInput (resp : ListHostedZonesByNameOutput) : ListHostedZonesByNameInput :=
  mkListHostedZonesByNameInput (lzo_NextDNSName resp) (lzo_NextHostedZoneId resp) (Some "50").

(** The listings that answer [pages] one after the other, each from the
    cursor of the page before. *)
Fixpoint listingEvents (input : ListHostedZonesByNameInput)
    (pages : list ListHostedZonesByNameOutput) : list Event :=
  match pages with
  | [] => []
  | resp :: rest =>
      EvListHostedZonesByName input (inl resp) :: listingEvents (nextZonesInput resp) rest
  end.

Definition zonesCursorAfter (input : ListHostedZonesByNameInput)
    (pages : list ListHostedZonesByNameOutput) : ListHostedZonesByNameInput :=
  fold_left (fun _ resp => nextZonesInput resp) pages input.

(** A page the search goes on after: truncated, and passed by the scan. *)
Definition passedPage (domain callerRef : string) (resp : ListHostedZonesByNameOutput) : Prop :=
  scanZones domain callerRef (lzo_HostedZones resp) = None /\
  BoolValue (lzo_IsTruncated resp) = true.

(** The [CreateHostedZone] calls among events. *)
Definition createCalls (events : list Event) : list CreateHostedZoneInput :=
  flat_map (fun e => match e with EvCreateHostedZone i _ => [i] | _ => [] end) events.

(** What the classifier relies on of [SetDNSZoneConditionWithChangeCheck], in
    the words of the spec: a write replaces or appends the entry of its type
    and no other; the flag is raised only for a write that changes the stored
    entry; clearing is skipped only when the condition is not signalled;
    setting true is skipped only when the stored entry is that very signal. *)
Record SetterContract
    (set : list DNSZoneCondition -> DNSZoneConditionType -> ConditionStatus -> string -> string ->
           UpdateConditionCheck -> list DNSZoneCondition * bool) : Prop := {
  set_frame :
    forall cs t st r m p t',
      snd (set cs t st r m p) = true -> conditionType_eqb t' t = false ->
      findCondition (fst (set cs t st r m p)) t' = findCondition cs t';
  set_written :
    forall cs t st r m p,
      snd (set cs t st r m p) = true ->
      findCondition (fst (set cs t st r m p)) t = Some (mkCondition t st r m);
  set_sound :
    forall cs t st r m p,
      snd (set cs t st r m p) = true ->
      findCondition cs t <> Some (mkCondition t st r m);
  clear_kept :
    forall cs t r m,
      snd (set cs t ConditionFalse r m UpdateConditionNever) = false ->
      conditionIsTrue cs t = false;
  true_kept :
    forall cs t r m,
      snd (set cs t ConditionTrue r m UpdateConditionIfReasonOrMessageChange) = false ->
      findCondition cs t = Some (mkCondition t ConditionTrue r m)
}.

(** ** Parts of the repository outside this file's sources *)

(** Modelled from the spec: [controllerutils.Dotted] is not among the sources;
    the spec speaks of the dotted domain as the domain plus its trailing
    separator. *)
Definition Dotted_model (domain : string) : string := domain ++ ".".

Definition status_eqb (a b : ConditionStatus) : bool :=
  match a, b with
  | ConditionTrue, ConditionTrue => true
  | ConditionFalse, ConditionFalse => true
  | ConditionUnknown, ConditionUnknown => true
  | _, _ => false
  end.

Definition condition_eqb (a b : DNSZoneCondition) : bool :=
  conditionType_eqb (cond_Type a) (cond_Type b) && status_eqb (cond_Status a) (cond_Status b)
  && String.eqb (cond_Reason a) (cond_Reason b) && String.eqb (cond_Message a) (cond_Message b).

Fixpoint replaceCondition (conditions : list DNSZoneCondition) (new : DNSZoneCondition)
    : list DNSZoneCondition :=
  match conditions with
  | [] => []
  | c :: rest =>
      if conditionType_eqb (cond_Type c) (cond_Type new) then new :: rest
      else c :: replaceCondition rest new
  end.

(** Modelled from the spec: [controllerutils.SetDNSZoneConditionWithChangeCheck]
    is not among the sources. By the spec a condition is type, status, reason
    and message; a write replaces the entry of the type in place or appends
    one, never a second entry of a type; the always-overwrite policy (the
    setters that clear pass [UpdateConditionNever]) writes whatever is stored,
    the other policy writes when status, reason or message differ from the
    stored entry; the flag tells whether the stored conditions changed. *)
Definition SetDNSZoneConditionWithChangeCheck_model
    (conditions : list DNSZoneCondition) (conditionType : DNSZoneConditionType)
    (status : ConditionStatus) (reason message : string)
    (updateConditionCheck : UpdateConditionCheck) : list DNSZoneCondition * bool :=
  let new := mkCondition conditionType status reason message in
  match findCondition conditions conditionType with
  | None => ((conditions ++ [new])%list, true)
  | Some existing =>
      match updateConditionCheck with
      | UpdateConditionIfReasonOrMessageChange =>
          if condition_eqb existing new then (conditions, false)
          else (replaceCondition conditions new, true)
      | _ => (replaceCondition conditions new, negb (condition_eqb existing new))
      end
  end.

(** ** A provider that answers from a script *)

(** The answers each call will get, in order; a call whose answers are used
    up fails like a broken transport. *)
Record Script : Type := mkScript {
  onCreateHostedZone : list (result HostedZone);
  onGetHostedZone : list (result HostedZone);
  onListHostedZonesByName : list (result ListHostedZonesByNameOutput);
  onListResourceRecordSets : list (result ListResourceRecordSetsOutput);
  onChangeResourceRecordSets : list (result unit);
  onListTagsForResource : list (result (list Tag));
  onChangeTagsForResource : list (result unit);
  onDeleteHostedZone : list (result unit);
  onGetResourcesPages : list (list GetResourcesOutput * option error)
}.

Definition noAnswer : error := PlainError "connection refused".

Definition nextAnswer {A} (answers : list (result A)) : result A * list (result A) :=
  match answers with
  | [] => (inr noAnswer, [])
  | r :: rest => (r, rest)
  end.

Definition scriptedClient : Client Script :=
  mkClient Script
    (fun _ w => let (r, q) := nextAnswer (onCreateHostedZone w) in
       (r, mkScript q (onGetHostedZone w) (onListHostedZonesByName w) (onListResourceRecordSets w)
             (onChangeResourceRecordSets w) (onListTagsForResource w) (onChangeTagsForResource w)
             (onDeleteHostedZone w) (onGetResourcesPages w)))
    (fun _ w => let (r, q) := nextAnswer (onGetHostedZone w) in
       (r, mkScript (onCreateHostedZone w) q (onListHostedZonesByName w) (onListResourceRecordSets w)
             (onChangeResourceRecordSets w) (onListTagsForResource w) (onChangeTagsForResource w)
             (onDeleteHostedZone w) (onGetResourcesPages w)))
    (fun _ w => let (r, q) := nextAnswer (onListHostedZonesByName w) in
       (r, mkScript (onCreateHostedZone w) (onGetHostedZone w) q (onListResourceRecordSets w)
             (onChangeResourceRecordSets w) (onListTagsForResource w) (onChangeTagsForResource w)
             (onDeleteHostedZone w) (onGetResourcesPages w)))
    (fun _ w => let (r, q) := nextAnswer (onListResourceRecordSets w) in
       (r, mkScript (onCreateHostedZone w) (onGetHostedZone w) (onListHostedZonesByName w) q
             (onChangeResourceRecordSets w) (onListTagsForResource w) (onChangeTagsForResource w)
             (onDeleteHostedZone w) (onGetResourcesPages w)))
    (fun _ _ w => let (r, q) := nextAnswer (onChangeResourceRecordSets w) in
       (r, mkScript (onCreateHostedZone w) (onGetHostedZone w) (onListHostedZonesByName w)
             (onListResourceRecordSets w) q (onListTagsForResource w) (onChangeTagsForResource w)
             (onDeleteHostedZone w) (onGetResourcesPages w)))
    (fun _ w => let (r, q) := nextAnswer (onListTagsForResource w) in
       (r, mkScript (onCreateHostedZone w) (onGetHostedZone w) (onListHostedZonesByName w)
             (onListResourceRecordSets w) (onChangeResourceRecordSets w) q (onChangeTagsForResource w)
             (onDeleteHostedZone w) (onGetResourcesPages w)))
    (fun _ w => let (r, q) := nextAnswer (onChangeTagsForResource w) in
       (r, mkScript (onCreateHostedZone w) (onGetHostedZone w) (onListHostedZonesByName w)
             (onListResourceRecordSets w) (onChangeResourceRecordSets w) (onListTagsForResource w) q
             (onDeleteHostedZone w) (onGetResourcesPages w)))
    (fun _ w => let (r, q) := nextAnswer (onDeleteHostedZone w) in
       (r, mkScript (onCreateHostedZone w) (onGetHostedZone w) (onListHostedZonesByName w)
             (onListResourceRecordSets w) (onChangeResourceRecordSets w) (onListTagsForResource w)
             (onChangeTagsForResource w) q (onGetResourcesPages w)))
    (fun _ w => match onGetResourcesPages w with
       | [] => (([], Some noAnswer), w)
       | r :: q =>
           (r, mkScript (onCreateHostedZone w) (onGetHostedZone w) (onListHostedZonesByName w)
                 (onListResourceRecordSets w) (onChangeResourceRecordSets w) (onListTagsForResource w)
                 (onChangeTagsForResource w) (onDeleteHostedZone w) q)
       end).

Definition emptyScript : Script := mkScript [] [] [] [] [] [] [] [] [].

(** A DNSZone and actuators for the examples. *)
Definition exampleZone : DNSZone :=
  mkDNSZone "a" "b" "token-123" "z.example.com"
    (Some (mkAWSDNSZoneSpec [("team", "x")] "")) None [].

Definition freshActuator : AWSActuator := mkAWSActuator None [] exampleZone.

Definition exampleHostedZone : HostedZone :=
  mkHostedZone (Some "Z1") (Some "z.example.com.") (Some "token-123").

Definition resolvedActuator : AWSActuator :=
  mkAWSActuator (Some exampleHostedZone) []
    (set_Status_AWS (Some (mkAWSDNSZoneStatus (Some "Z1"))) exampleZone).

(** ** Example passes *)

Definition ownerTag : Tag := mkTag (Some hiveDNSZoneAWSTag) (Some "a/b").

Definition teamTag : Tag := mkTag (Some "team") (Some "x").

Definition resolvedZone : DNSZone :=
  set_Status_AWS (Some (mkAWSDNSZoneStatus (Some "Z1"))) exampleZone.

(** No zone known, nothing scripted. *)
Definition freshPass : Sys Script := mkSys freshActuator emptyScript [].

(** The apex NS record set, its values not in alphabetical order. *)
Definition nsRecordSet : ResourceRecordSet :=
  mkResourceRecordSet (Some "z.example.com.") (Some "NS")
    [mkResourceRecord (Some "ns-2.example.org."); mkResourceRecord (Some "ns-1.example.org.")].

Definition nsPass : Sys Script :=
  mkSys resolvedActuator
    (mkScript [] [] []
       [inl (mkListResourceRecordSetsOutput [nsRecordSet] (Some false) None None None)]
       [] [] [] [] [])
    [].

(** The tags of the provider are the expected ones, in another order. *)
Definition inSyncPass : Sys Script :=
  mkSys (mkAWSActuator (Some exampleHostedZone) [teamTag; ownerTag] resolvedZone) emptyScript [].

(** A DNSZone that declares the ownership tag itself, as an additional tag; the
    provider holds the tag once. *)
Definition repeatedTagZone : DNSZone :=
  mkDNSZone "a" "b" "token-123" "z.example.com"
    (Some (mkAWSDNSZoneSpec [(hiveDNSZoneAWSTag, "a/b")] ""))
    (Some (mkAWSDNSZoneStatus (Some "Z1"))) [].

Definition repeatedTagPass : Sys Script :=
  mkSys (mkAWSActuator (Some exampleHostedZone) [ownerTag] repeatedTagZone)
    (mkScript [] [] [] [] [] [] [inl tt] [] [])
    [].

(** Twelve declared tags where the provider holds three others: thirteen
    additions and three removals. *)
Definition manyTagsZone : DNSZone :=
  mkDNSZone "a" "b" "token-123" "z.example.com"
    (Some (mkAWSDNSZoneSpec
             [("k01", "v"); ("k02", "v"); ("k03", "v"); ("k04", "v"); ("k05", "v"); ("k06", "v");
              ("k07", "v"); ("k08", "v"); ("k09", "v"); ("k10", "v"); ("k11", "v"); ("k12", "v")]
             ""))
    (Some (mkAWSDNSZoneStatus (Some "Z1"))) [].

Definition manyTagsPass : Sys Script :=
  mkSys (mkAWSActuator (Some exampleHostedZone)
           [mkTag (Some "old1") (Some "v"); mkTag (Some "old2") (Some "v");
            mkTag (Some "old3") (Some "v")]
           manyTagsZone)
    (mkScript [] [] [] [] [] [] [inl tt; inl tt] [] [])
    [].

(** A zone of two pages of records, with its apex NS and SOA record sets. *)
Definition sweepPage1 : ListResourceRecordSetsOutput :=
  mkListResourceRecordSetsOutput
    [nsRecordSet; mkResourceRecordSet (Some "www.z.example.com.") (Some "A") []]
    (Some true) None (Some "z.example.com.") (Some "SOA").

Definition sweepPage2 : ListResourceRecordSetsOutput :=
  mkListResourceRecordSetsOutput
    [mkResourceRecordSet (Some "z.example.com.") (Some "SOA") [];
     mkResourceRecordSet (Some "z.example.com.") (Some "TXT") []]
    (Some false) None None None.

Definition sweepPass : Sys Script :=
  mkSys resolvedActuator
    (mkScript [] [] [] [inl sweepPage1; inl sweepPage2] [inl tt; inl tt] [] [] [inl tt] [])
    [].

(** A zone that is swept, and then found not empty by the provider. *)
Definition notEmptyError : error :=
  AwsError "HostedZoneNotEmpty" "The specified hosted zone contains non-required resource record sets".

Definition notEmptyPass : Sys Script :=
  mkSys resolvedActuator
    (mkScript [] [] []
       [inl (mkListResourceRecordSetsOutput [nsRecordSet] (Some false) None None None)]
       [] [] [] [inr notEmptyError] [])
    [].

(** The tag search finds two zones: one is gone, one has another name. *)
Definition noMatchPass : Sys Script :=
  mkSys freshActuator
    (mkScript []
       [inr (AwsError "NoSuchHostedZone" "No hosted zone found with ID: ZGONE");
        inl (mkHostedZone (Some "ZOTHER") (Some "other.example.com.") (Some "ref-0"))]
       [] [] [] [] [] []
       [([mkGetResourcesOutput [Some "arn:aws:route53:::hostedzone/ZGONE";
                                Some "arn:aws:route53:::hostedzone/ZOTHER"]], None)])
    [].

(** The tag search finds two zones of the expected name. *)
Definition zoneA : HostedZone := mkHostedZone (Some "ZA") (Some "z.example.com.") (Some "ref-a").

Definition zoneB : HostedZone := mkHostedZone (Some "ZB") (Some "z.example.com.") (Some "ref-b").

Definition twoMatchesPass : Sys Script :=
  mkSys freshActuator
    (mkScript [] [inl zoneA; inl zoneB] [] [] [] [inl [ownerTag]] [] []
       [([mkGetResourcesOutput [Some "arn:aws:route53:::hostedzone/ZA"];
          mkGetResourcesOutput [Some "arn:aws:route53:::hostedzone/ZB"]], None)])
    [].

(** The zone was created by an earlier pass that did not record it: the
    provider refuses the creation and lists the zone under the token. *)
Definition alreadyExistsError : error :=
  AwsError "HostedZoneAlreadyExists" "The hosted zone has already been created with the caller reference".

Definition retryPass : Sys Script :=
  mkSys freshActuator
    (mkScript [inr alreadyExistsError] []
       [inl (mkListHostedZonesByNameOutput [exampleHostedZone] (Some false) None None)]
       [] [] [inl [ownerTag]] [inl tt] [] [])
    [].

(** * Further parts of the sources *)

(** ** Tags, as pointers and as multisets *)

(** [tagEquals] on the pointers it takes: two nil tags are equal, a nil tag
    and a tag are not, two tags are compared as [tagEquals] above does. *)
Definition tagEquals_ptr (a b : option Tag) : bool :=
  match a, b with
  | None, None => true
  | None, Some _ => false
  | Some _, None => false
  | Some a, Some b =>
      String.eqb (StringValue (tag_Key a)) (StringValue (tag_Key b)) &&
      String.eqb (StringValue (tag_Value a)) (StringValue (tag_Value b))
  end.

Definition content_eq_dec : forall c d : string * string, {c = d} + {c <> d}.
Proof. decide equality; apply string_dec. Defined.

(** How many of the tags have the key and value [c]. *)
Definition occurrences (c : string * string) (tags : list Tag) : nat :=
  count_occ content_eq_dec (map tagContent tags) c.

(** The [ChangeTagsForResource] requests among events. *)
Definition tagChanges (events : list Event) : list ChangeTagsForResourceInput :=
  flat_map (fun e => match e with EvChangeTagsForResource i _ => [i] | _ => [] end) events.

(** ** Calls and frames *)

(** The calls of the client. *)
Inductive CallKind : Type :=
| KCreateHostedZone
| KGetHostedZone
| KListHostedZonesByName
| KListResourceRecordSets
| KChangeResourceRecordSets
| KListTagsForResource
| KChangeTagsForResource
| KDeleteHostedZone
| KGetResourcesPages.

(** The calls among events, in order. *)
Definition calls (events : list Event) : list CallKind :=
  flat_map (fun e => match e with
                     | EvCreateHostedZone _ _ => [KCreateHostedZone]
                     | EvGetHostedZone _ _ => [KGetHostedZone]
                     | EvListHostedZonesByName _ _ => [KListHostedZonesByName]
                     | EvListResourceRecordSets _ _ => [KListResourceRecordSets]
                     | EvChangeResourceRecordSets _ _ _ => [KChangeResourceRecordSets]
                     | EvListTagsForResource _ _ => [KListTagsForResource]
                     | EvChangeTagsForResource _ _ => [KChangeTagsForResource]
                     | EvDeleteHostedZone _ _ => [KDeleteHostedZone]
                     | EvGetResourcesPages _ _ _ => [KGetResourcesPages]
                     | EvLog _ _ _ => []
                     end) events.

(** The cached zone is the zone of the status. *)
Definition zoneRecorded (a : AWSActuator) : Prop :=
  match hostedZone a with
  | Some hz => Status_AWS (dnsZone a) = Some (mkAWSDNSZoneStatus (hz_Id hz))
  | None => True
  end.

(** Two DNSZones that differ in the zone of the status at most. *)
Definition sameButZoneID (z z' : DNSZone) : Prop :=
  Namespace z' = Namespace z /\ Name z' = Name z /\ UID z' = UID z /\
  Spec_Zone z' = Spec_Zone z /\ Spec_AWS z' = Spec_AWS z /\
  Status_Conditions z' = Status_Conditions z.

(** The zones the calls among events address, call by call. *)
Definition zonesAddressed (events : list Event) : list (option string) :=
  flat_map (fun e => match e with
                     | EvGetHostedZone id _ => [id]
                     | EvListResourceRecordSets i _ => [lr_HostedZoneId i]
                     | EvChangeResourceRecordSets id _ _ => [id]
                     | EvListTagsForResource id _ => [id]
                     | EvChangeTagsForResource i _ => [ct_ResourceId i]
                     | EvDeleteHostedZone id _ => [id]
                     | _ => []
                     end) events.

(** Two DNSZones with the same identity and spec. *)
Definition sameSpec (z z' : DNSZone) : Prop :=
  Namespace z' = Namespace z /\ Name z' = Name z /\ UID z' = UID z /\
  Spec_Zone z' = Spec_Zone z /\ Spec_AWS z' = Spec_AWS z.

(** ** The life of an actuator *)

Section Lifecycle.

Context {W : Type}.

(** [constants.AWSRoute53Region], a constant of another package of the
    repository. *)
Variable AWSRoute53Region : string.

(** [NewAWSActuator]. Of the options it hands to [awsClientBuilder] the model
    keeps the region; the Kubernetes client and the credentials source are
    passed on as they come. A DNSZone without [Spec.AWS] is a nil pointer
    dereference. *)
Definition NewAWSActuator (dnsZone : DNSZone) (awsClientBuilder : string -> result (Client W))
    : outcome (AWSActuator * Client W) :=
  match Spec_AWS dnsZone with
  | None => Panic
  | Some aws =>
      let region := if String.eqb (Region aws) "" then AWSRoute53Region else Region aws in
      match awsClientBuilder region with
      | inr err => Fail err
      | inl awsClient => Ok (mkAWSActuator None [] dnsZone, awsClient)
      end
  end.

Variable awsClient : Client W.
Variable Dotted : string -> string.
Variable SetDNSZoneConditionWithChangeCheck :
  list DNSZoneCondition -> DNSZoneConditionType -> ConditionStatus -> string -> string ->
  UpdateConditionCheck -> list DNSZoneCondition * bool.
Variables accessGrantedReason accessDeniedReason : string.
Variables authenticationSucceededReason authenticationFailedReason : string.

(** A call of one of the exported methods of the actuator; the loops without
    a bound of their own come with the bound of the model. *)
Inductive Method : Type :=
| MRefresh
| MCreate (fuel : nat)
| MUpdateMetadata
| MDelete (fuel : nat)
| MGetNameServers
| MExists
| MSetConditionsForError (err : option error).

(** The state a method leaves, whatever it returns. *)
Definition runMethod (m : Method) (s : Sys W) : Sys W :=
  match m with
  | MRefresh => snd (Refresh awsClient Dotted s)
  | MCreate fuel => snd (Create awsClient fuel s)
  | MUpdateMetadata => snd (UpdateMetadata awsClient s)
  | MDelete fuel => snd (Delete awsClient Dotted fuel s)
  | MGetNameServers => snd (GetNameServers awsClient s)
  | MExists => snd (Exists s)
  | MSetConditionsForError err =>
      mkSys (snd (SetConditionsForError SetDNSZoneConditionWithChangeCheck
                    accessGrantedReason accessDeniedReason
                    authenticationSucceededReason authenticationFailedReason err (actuator s)))
            (world s) (trace s)
  end.

(** Methods called one after the other. *)
Definition runMethods (ms : list Method) (s : Sys W) : Sys W :=
  fold_left (fun s m => runMethod m s) ms s.

End Lifecycle.

(** ** Resource names *)

(** [c] does not occur in [s]. *)
Fixpoint noChar (c : ascii) (s : string) : bool :=
  match s with
  | EmptyString => true
  | String d rest => negb (Ascii.eqb d c) && noChar c rest
  end.

(** An ARN written out: partition, service, region, account and resource
    after the prefix. *)
Definition arnString (partition service region account resource : string) : string :=
  "arn:" ++ partition ++ ":" ++ service ++ ":" ++ region ++ ":" ++ account ++ ":" ++ resource.

(** * The ClusterDeployment test builder

    [pkg/test/clusterdeployment/clusterdeployment.go]: options are functions
    that change the object under construction; [Build] applies them in order
    to a zero object. *)

Module clusterdeployment.

(** [hivev1.ClusterDeploymentCondition]; the type and the status are string
    types, the times are instants. *)
Record ClusterDeploymentCondition : Type := mkClusterDeploymentCondition {
  cdc_Type : string;
  cdc_Status : string;
  cdc_LastProbeTime : Z;
  cdc_LastTransitionTime : Z;
  cdc_Reason : string;
  cdc_Message : string
}.

Record ClusterPoolReference : Type := mkClusterPoolReference {
  cpr_Namespace : string;
  cpr_PoolName : string;
  cpr_ClaimName : string
}.

(** [hivev1aws.Platform]; the builder stores it as it comes, of its fields
    the model keeps the region. *)
Record Platform : Type := mkPlatform { platform_Region : string }.

(** [hivev1.ClusterDeployment], the fields that the options of the package
    and of its tests write. *)
Record ClusterDeployment : Type := mkClusterDeployment {
  cd_Name : string;
  cd_Namespace : string;
  cd_Spec_ClusterPoolRef : option ClusterPoolReference;
  cd_Spec_Installed : bool;
  cd_Spec_PowerState : string;
  cd_Spec_HibernateAfter : option Z;
  cd_Spec_Platform_AWS : option Platform;
  cd_Spec_ClusterMetadata : option unit;
  cd_Spec_APIURLOverride : string;
  cd_Status_Conditions : list ClusterDeploymentCondition;
  cd_Status_InstalledTimestamp : option Z;
  cd_Status_InstallRestarts : Z
}.

(** [&hivev1.ClusterDeployment{}] *)
Definition zero : ClusterDeployment :=
  mkClusterDeployment "" "" None false "" None None None "" [] None 0%Z.

(** [Option]: a function that changes the object it is given. *)
Definition Option : Type := ClusterDeployment -> ClusterDeployment.

(** [Build] *)
Definition Build (opts : list Option) : ClusterDeployment :=
  fold_left (fun retval o => o retval) opts zero.

(** The loop of [WithCondition]: the first condition of the type is
    overwritten where it stands; without one the condition is appended. *)
Fixpoint setCondition (cond : ClusterDeploymentCondition)
    (conditions : list ClusterDeploymentCondition) : list ClusterDeploymentCondition :=
  match conditions with
  | [] => [cond]
  | c :: rest =>
      if String.eqb (cdc_Type c) (cdc_Type cond) then cond :: rest
      else c :: setCondition cond rest
  end.

Definition set_Conditions (conditions : list ClusterDeploymentCondition)
    (cd : ClusterDeployment) : ClusterDeployment :=
  mkClusterDeployment (cd_Name cd) (cd_Namespace cd) (cd_Spec_ClusterPoolRef cd)
    (cd_Spec_Installed cd) (cd_Spec_PowerState cd) (cd_Spec_HibernateAfter cd)
    (cd_Spec_Platform_AWS cd) (cd_Spec_ClusterMetadata cd) (cd_Spec_APIURLOverride cd)
    conditions (cd_Status_InstalledTimestamp cd) (cd_Status_InstallRestarts cd).

(** [WithCondition] *)
Definition WithCondition (cond : ClusterDeploymentCondition) : Option :=
  fun clusterDeployment =>
    set_Conditions (setCondition cond (cd_Status_Conditions clusterDeployment)) clusterDeployment.

(** [WithClusterPoolReference] *)
Definition WithClusterPoolReference (namespace poolName claimName : string) : Option :=
  fun cd =>
    mkClusterDeployment (cd_Name cd) (cd_Namespace cd)
      (Some (mkClusterPoolReference namespace poolName claimName))
      (cd_Spec_Installed cd) (cd_Spec_PowerState cd) (cd_Spec_HibernateAfter cd)
      (cd_Spec_Platform_AWS cd) (cd_Spec_ClusterMetadata cd) (cd_Spec_APIURLOverride cd)
      (cd_Status_Conditions cd) (cd_Status_InstalledTimestamp cd) (cd_Status_InstallRestarts cd).

(** [WithUnclaimedClusterPoolReference] *)
Definition WithUnclaimedClusterPoolReference (namespace poolName : string) : Option :=
  WithClusterPoolReference namespace poolName "".

(** [Installed] *)
Definition Installed : Option :=
  fun cd =>
    mkClusterDeployment (cd_Name cd) (cd_Namespace cd) (cd_Spec_ClusterPoolRef cd)
      true (cd_Spec_PowerState cd) (cd_Spec_HibernateAfter cd)
      (cd_Spec_Platform_AWS cd) (cd_Spec_ClusterMetadata cd) (cd_Spec_APIURLOverride cd)
      (cd_Status_Conditions cd) (cd_Status_InstalledTimestamp cd) (cd_Status_InstallRestarts cd).

(** [InstalledTimestamp] *)
Definition InstalledTimestamp (instTime : Z) : Option :=
  fun cd =>
    mkClusterDeployment (cd_Name cd) (cd_Namespace cd) (cd_Spec_ClusterPoolRef cd)
      true (cd_Spec_PowerState cd) (cd_Spec_HibernateAfter cd)
      (cd_Spec_Platform_AWS cd) (cd_Spec_ClusterMetadata cd) (cd_Spec_APIURLOverride cd)
      (cd_Status_Conditions cd) (Some instTime) (cd_Status_InstallRestarts cd).

(** [InstallRestarts] *)
Definition InstallRestarts (restarts : Z) : Option :=
  fun cd =>
    mkClusterDeployment (cd_Name cd) (cd_Namespace cd) (cd_Spec_ClusterPoolRef cd)
      (cd_Spec_Installed cd) (cd_Spec_PowerState cd) (cd_Spec_HibernateAfter cd)
      (cd_Spec_Platform_AWS cd) (cd_Spec_ClusterMetadata cd) (cd_Spec_APIURLOverride cd)
      (cd_Status_Conditions cd) (cd_Status_InstalledTimestamp cd) restarts.

(** [WithPowerState] *)
Definition WithPowerState (powerState : string) : Option :=
  fun cd =>
    mkClusterDeployment (cd_Name cd) (cd_Namespace cd) (cd_Spec_ClusterPoolRef cd)
      (cd_Spec_Installed cd) powerState (cd_Spec_HibernateAfter cd)
      (cd_Spec_Platform_AWS cd) (cd_Spec_ClusterMetadata cd) (cd_Spec_APIURLOverride cd)
      (cd_Status_Conditions cd) (cd_Status_InstalledTimestamp cd) (cd_Status_InstallRestarts cd).

(** [WithHibernateAfter] *)
Definition WithHibernateAfter (dur : Z) : Option :=
  fun cd =>
    mkClusterDeployment (cd_Name cd) (cd_Namespace cd) (cd_Spec_ClusterPoolRef cd)
      (cd_Spec_Installed cd) (cd_Spec_PowerState cd) (Some dur)
      (cd_Spec_Platform_AWS cd) (cd_Spec_ClusterMetadata cd) (cd_Spec_APIURLOverride cd)
      (cd_Status_Conditions cd) (cd_Status_InstalledTimestamp cd) (cd_Status_InstallRestarts cd).

(** [WithAWSPlatform]; the platform may be nil. *)
Definition WithAWSPlatform (platform : option Platform) : Option :=
  fun cd =>
    mkClusterDeployment (cd_Name cd) (cd_Namespace cd) (cd_Spec_ClusterPoolRef cd)
      (cd_Spec_Installed cd) (cd_Spec_PowerState cd) (cd_Spec_HibernateAfter cd)
      platform (cd_Spec_ClusterMetadata cd) (cd_Spec_APIURLOverride cd)
      (cd_Status_Conditions cd) (cd_Status_InstalledTimestamp cd) (cd_Status_InstallRestarts cd).

(** The options of the package that are written in this file, by name; the
    others hand the object to the [generic] package. *)
Inductive Choice : Type :=
| CWithCondition (cond : ClusterDeploymentCondition)
| CWithUnclaimedClusterPoolReference (namespace poolName : string)
| CWithClusterPoolReference (namespace poolName claimName : string)
| CInstalled
| CInstalledTimestamp (instTime : Z)
| CInstallRestarts (restarts : Z)
| CWithPowerState (powerState : string)
| CWithHibernateAfter (dur : Z)
| CWithAWSPlatform (platform : option Platform).

Definition optionOf (c : Choice) : Option :=
  match c with
  | CWithCondition cond => WithCondition cond
  | CWithUnclaimedClusterPoolReference namespace poolName =>
      WithUnclaimedClusterPoolReference namespace poolName
  | CWithClusterPoolReference namespace poolName claimName =>
      WithClusterPoolReference namespace poolName claimName
  | CInstalled => Installed
  | CInstalledTimestamp instTime => InstalledTimestamp instTime
  | CInstallRestarts restarts => InstallRestarts restarts
  | CWithPowerState powerState => WithPowerState powerState
  | CWithHibernateAfter dur => WithHibernateAfter dur
  | CWithAWSPlatform platform => WithAWSPlatform platform
  end.

(** The first condition of a type among conditions. *)
Fixpoint conditionOfType (t : string) (conditions : list ClusterDeploymentCondition)
    : option ClusterDeploymentCondition :=
  match conditions with
  | [] => None
  | c :: rest => if String.eqb (cdc_Type c) t then Some c else conditionOfType t rest
  end.

(** The value of the last choice that gives one, [start] when none does. *)
Definition lastGiven {A : Type} (gives : Choice -> option A) (choices : list Choice) (start : A)
    : A :=
  fold_left (fun acc c => match gives c with Some v => v | None => acc end) choices start.

(** What each choice gives to each field it writes. *)
Definition givesCondition (t : string) (c : Choice) : option (option ClusterDeploymentCondition) :=
  match c with
  | CWithCondition cond => if String.eqb (cdc_Type cond) t then Some (Some cond) else None
  | _ => None
  end.

Definition givesClusterPoolRef (c : Choice) : option (option ClusterPoolReference) :=
  match c with
  | CWithUnclaimedClusterPoolReference namespace poolName =>
      Some (Some (mkClusterPoolReference namespace poolName ""))
  | CWithClusterPoolReference namespace poolName claimName =>
      Some (Some (mkClusterPoolReference namespace poolName claimName))
  | _ => None
  end.

Definition givesInstalled (c : Choice) : option bool :=
  match c with
  | CInstalled => Some true
  | CInstalledTimestamp _ => Some true
  | _ => None
  end.

Definition givesInstalledTimestamp (c : Choice) : option (option Z) :=
  match c with CInstalledTimestamp instTime => Some (Some instTime) | _ => None end.

Definition givesInstallRestarts (c : Choice) : option Z :=
  match c with CInstallRestarts restarts => Some restarts | _ => None end.

Definition givesPowerState (c : Choice) : option string :=
  match c with CWithPowerState powerState => Some powerState | _ => None end.

Definition givesHibernateAfter (c : Choice) : option (option Z) :=
  match c with CWithHibernateAfter dur => Some (Some dur) | _ => None end.

Definition givesAWSPlatform (c : Choice) : option (option Platform) :=
  match c with CWithAWSPlatform platform => Some platform | _ => None end.

(** The types of the conditions the choices name, each at its first. *)
Fixpoint typesGiven (choices : list Choice) (seen : list string) : list string :=
  match choices with
  | [] => seen
  | CWithCondition cond :: rest =>
      typesGiven rest (if existsb (String.eqb (cdc_Type cond)) seen then seen
                       else seen ++ [cdc_Type cond])
  | _ :: rest => typesGiven rest seen
  end.

End clusterdeployment.

(** ** The builder of the tests of the unreachable controller *)

Module unreachable.

Import clusterdeployment.

Definition testName : string := "test-cluster-deployment".
Definition testNamespace : string := "test-namespace".

(** The option [buildClusterDeployment] puts before the others. *)
Definition baseOption : Option :=
  fun cd =>
    mkClusterDeployment testName testNamespace (cd_Spec_ClusterPoolRef cd)
      true (cd_Spec_PowerState cd) (cd_Spec_HibernateAfter cd)
      (cd_Spec_Platform_AWS cd) (Some tt) (cd_Spec_APIURLOverride cd)
      (cd_Status_Conditions cd) (cd_Status_InstalledTimestamp cd) (cd_Status_InstallRestarts cd).

(** [buildClusterDeployment] *)
Definition buildClusterDeployment (options : list Option) : ClusterDeployment :=
  Build (baseOption :: options).

Section Conditions.

(** [hivev1.UnreachableCondition] and [hivev1.ActiveAPIURLOverrideCondition],
    constants of the API package. *)
Variables UnreachableCondition ActiveAPIURLOverrideCondition : string.

(** [withUnreachableCondition] *)
Definition withUnreachableCondition (status : string) (probeTime : Z) : Option :=
  WithCondition (mkClusterDeploymentCondition UnreachableCondition status probeTime 0%Z "" "").

(** [withActiveAPIURLOverrideCondition] *)
Definition withActiveAPIURLOverrideCondition (status : string) : Option :=
  WithCondition (mkClusterDeploymentCondition ActiveAPIURLOverrideCondition status 0%Z 0%Z "" "").

(** [withAPIURLOverride] *)
Definition withAPIURLOverride : Option :=
  fun cd =>
    mkClusterDeployment (cd_Name cd) (cd_Namespace cd) (cd_Spec_ClusterPoolRef cd)
      (cd_Spec_Installed cd) (cd_Spec_PowerState cd) (cd_Spec_HibernateAfter cd)
      (cd_Spec_Platform_AWS cd) (cd_Spec_ClusterMetadata cd) "some-api-url"
      (cd_Status_Conditions cd) (cd_Status_InstalledTimestamp cd) (cd_Status_InstallRestarts cd).

(** What the test cases pass to [buildClusterDeployment]: the three options
    of the tests. *)
Inductive Step : Type :=
| SUnreachable (status : string) (probeTime : Z)
| SActiveAPIURLOverride (status : string)
| SAPIURLOverride.

Definition optionOfStep (s : Step) : Option :=
  match s with
  | SUnreachable status probeTime => withUnreachableCondition status probeTime
  | SActiveAPIURLOverride status => withActiveAPIURLOverrideCondition status
  | SAPIURLOverride => withAPIURLOverride
  end.

(** The condition a step gives, if it is one of the two condition options. *)
Definition conditionOfStep (s : Step) : option ClusterDeploymentCondition :=
  match s with
  | SUnreachable status probeTime =>
      Some (mkClusterDeploymentCondition UnreachableCondition status probeTime 0%Z "" "")
  | SActiveAPIURLOverride status =>
      Some (mkClusterDeploymentCondition ActiveAPIURLOverrideCondition status 0%Z 0%Z "" "")
  | SAPIURLOverride => None
  end.

(** The conditions the condition options among the steps give, in order. *)
Definition conditionsGiven (steps : list Step) : list ClusterDeploymentCondition :=
  flat_map (fun s => match conditionOfStep s with Some c => [c] | None => [] end) steps.

Definition isAPIURLOverride (s : Step) : bool :=
  match s with SAPIURLOverride => true | _ => false end.

End Conditions.

End unreachable.

(** ** Further example passes *)

(** The provider holds the declared tag with an older value. *)
Definition staleTeamTag : Tag := mkTag (Some "team") (Some "y").

Definition changedValuePass : Sys Script :=
  mkSys (mkAWSActuator (Some exampleHostedZone) [ownerTag; staleTeamTag] resolvedZone)
    (mkScript [] [] [] [] [] [] [inl tt] [] [])
    [].

(** A cached zone without tags. *)
Definition untaggedPass : Sys Script :=
  mkSys resolvedActuator (mkScript [] [] [] [] [] [] [inl tt] [] []) [].

(** The zone of the status is gone. *)
Definition zoneGoneError : error := AwsError "NoSuchHostedZone" "No hosted zone found with ID: Z1".

Definition staleZonePass : Sys Script :=
  mkSys resolvedActuator (mkScript [] [inr zoneGoneError] [] [] [] [] [] [] []) [].

(** The tag search is refused after its first page. *)
Definition throttled : error := AwsError "ThrottlingException" "Rate exceeded".

Definition searchFailsPass : Sys Script :=
  mkSys freshActuator
    (mkScript [] [] [] [] [] [] [] []
       [([mkGetResourcesOutput [Some "arn:aws:route53:::hostedzone/ZA"]], Some throttled)])
    [].

(** The zone does not exist yet; the provider creates it without tags. *)
Definition createPass : Sys Script :=
  mkSys freshActuator
    (mkScript [inl exampleHostedZone] [] [] [] [] [inl []] [inl tt] [] [])
    [].

(** A client that is built, and an actuator through a life of several
    methods, the provider answering from the script of [createPass]. *)
Definition builtClient (region : string) : result (Client Script) := inl scriptedClient.

Definition exampleLife : list Method :=
  [MRefresh; MCreate 5; MUpdateMetadata; MGetNameServers;
   MSetConditionsForError (Some throttled); MExists; MDelete 5].

(** ** The scan of [Refresh], by the answers of the provider *)

(** An answer after which no further identifier is fetched: an error that is
    not the not-found error, or a zone without a name. *)
Definition endsScan (r : result HostedZone) : bool :=
  match r with
  | inl hz => match hz_Name hz with Some _ => false | None => true end
  | inr err => negb (isAwsCode ErrCodeNoSuchHostedZone err)
  end.

Section ScanOfRefresh.

Context {W : Type}.
Variable awsClient : Client W.

(** What the provider answers when the identifiers are fetched one after the
    other from the state [w], each fetch in the state the one before left, up
    to and with the first answer that ends the scan; and the state of the
    provider after these fetches. A zone, of the expected name or not, does
    not end the scan. *)
Fixpoint scanFetches (zoneIDs : list string) (w : W) : list (result HostedZone) * W :=
  match zoneIDs with
  | [] => ([], w)
  | zoneID :: rest =>
      let (r, w1) := GetHostedZone awsClient (Some zoneID) w in
      if endsScan r then ([r], w1)
      else let (answers, w2) := scanFetches rest w1 in (r :: answers, w2)
  end.

End ScanOfRefresh.

(** * Properties *)

(** Steps of the monad, for proofs by computation. *)
Ltac run :=
  unfold bind, ret, fail, panic, outOfFuel, call, logAt, getActuator, modifyActuator in *;
  cbn [fst snd actuator world trace] in *.

Lemma bind_assoc_run :
  forall {W A B} (m : M W A) (k : A -> M W B) (s : Sys W),
    bind m k s =
    match m s with
    | (Ok a, s') => k a s'
    | (Fail e, s') => (Fail e, s')
    | (Panic, s') => (Panic, s')
    | (OutOfFuel, s') => (OutOfFuel, s')
    end.
Proof. reflexivity. Qed.

Section MethodFacts.

Context {W : Type}.
Variable awsClient : Client W.
Variable Dotted : string -> string.

(** ** Methods on an unpopulated actuator *)

(** C10: with the cached hosted zone unset, [UpdateMetadata], [Delete] and
    [GetNameServers] each return the error "hostedZone is unpopulated" in the
    state they were called in: no provider call is logged, and the provider
    state, the actuator and the zone status are what they were. *)
Theorem unpopulated_zone_fails_without_call :
  forall (fuel : nat) (s : Sys W),
    hostedZone (actuator s) = None ->
    UpdateMetadata awsClient s = (Fail (PlainError "hostedZone is unpopulated"), s) /\
    Delete awsClient Dotted fuel s = (Fail (PlainError "hostedZone is unpopulated"), s) /\
    GetNameServers awsClient s = (Fail (PlainError "hostedZone is unpopulated"), s).
Proof.
  intros fuel s Hnil.
  unfold UpdateMetadata, Delete, GetNameServers. run.
  rewrite Hnil. repeat split; reflexivity.
Qed.

(** ** Name servers *)

(** C7: on a resolved zone [GetNameServers] makes one query, for one record set
    from the NS record of the zone name on; it succeeds exactly when the answer
    holds one record set, of type NS, named the domain followed by a dot, and
    then with the values of its records in the order of the answer; any other
    answer makes it return an error. *)
Theorem GetNameServers_one_NS_record_set :
  forall (s : Sys W) (hz : HostedZone) (id : string),
    hostedZone (actuator s) = Some hz ->
    hz_Id hz = Some id ->
    let zone := Spec_Zone (dnsZone (actuator s)) in
    let input := mkListResourceRecordSetsInput (Some id) (Some "1") None (Some zone) (Some "NS") in
    let answer := ListResourceRecordSets awsClient input (world s) in
    (forall l,
        fst (GetNameServers awsClient s) = Ok l <->
        exists resp recordSet,
          fst answer = inl resp /\
          lro_ResourceRecordSets resp = [recordSet] /\
          StringValue (rrs_Type recordSet) = "NS" /\
          StringValue (rrs_Name recordSet) = zone ++ "." /\
          l = map (fun record => StringValue (rr_Value record)) (rrs_ResourceRecords recordSet)) /\
    ((exists l, fst (GetNameServers awsClient s) = Ok l) \/
     (exists e, fst (GetNameServers awsClient s) = Fail e)) /\
    snd (GetNameServers awsClient s) =
      mkSys (actuator s) (snd answer) (trace s ++ [EvListResourceRecordSets input (fst answer)]).
Proof.
  intros s hz id Hhz Hid zone input answer.
  unfold GetNameServers. run. rewrite Hhz, Hid. fold zone. fold input.
  change (ListResourceRecordSets awsClient input (world s)) with answer.
  destruct answer as [r w']. cbn [fst snd].
  destruct r as [resp | err].
  - destruct (lro_ResourceRecordSets resp) as [| recordSet [| other rest]] eqn:Hsets.
    + cbn. repeat split; try (right; eexists; reflexivity).
      * intros H; discriminate H.
      * intros (resp' & rs & Hr & Hl & _). inversion Hr; subst resp'. congruence.
    + destruct (String.eqb (StringValue (rrs_Type recordSet)) "NS") eqn:Htype; cbn.
      * destruct (String.eqb (StringValue (rrs_Name recordSet)) (zone ++ ".")) eqn:Hname; cbn.
        -- apply String.eqb_eq in Htype. apply String.eqb_eq in Hname.
           repeat split; try (left; eexists; reflexivity).
           ++ intros H. inversion H; subst l. exists resp, recordSet. repeat split; assumption.
           ++ intros (resp' & rs & Hr & Hl & _ & _ & Hval).
              inversion Hr; subst resp'. rewrite Hsets in Hl. inversion Hl; subst rs.
              rewrite Hval. reflexivity.
        -- apply String.eqb_neq in Hname.
           repeat split; try (right; eexists; reflexivity).
           ++ intros H; discriminate H.
           ++ intros (resp' & rs & Hr & Hl & _ & Hn & _).
              inversion Hr; subst resp'. rewrite Hsets in Hl. inversion Hl; subst rs.
              contradiction.
      * apply String.eqb_neq in Htype.
        repeat split; try (right; eexists; reflexivity).
        -- intros H; discriminate H.
        -- intros (resp' & rs & Hr & Hl & Ht & _).
           inversion Hr; subst resp'. rewrite Hsets in Hl. inversion Hl; subst rs.
           contradiction.
    + cbn. repeat split; try (right; eexists; reflexivity).
      * intros H; discriminate H.
      * intros (resp' & rs & Hr & Hl & _). inversion Hr; subst resp'. congruence.
  - cbn. repeat split; try (right; eexists; reflexivity).
    + intros H; discriminate H.
    + intros (resp' & rs & Hr & _). discriminate Hr.
Qed.

End MethodFacts.

(** ** The tag diff *)

Lemma tagEquals_content : forall a b, tagEquals a b = true <-> tagContent a = tagContent b.
Proof.
  intros a b. unfold tagEquals, tagContent. rewrite andb_true_iff, !String.eqb_eq.
  split.
  - intros [Hk Hv]. rewrite Hk, Hv. reflexivity.
  - intros H. inversion H. split; reflexivity.
Qed.

Lemma removeFound_Some :
  forall tag toDelete rest,
    removeFound tag toDelete = Some rest ->
    Permutation (tagContent tag :: map tagContent rest) (map tagContent toDelete).
Proof.
  intros tag toDelete. induction toDelete as [| actualTag toDelete IH]; intros rest H.
  - discriminate H.
  - cbn [removeFound] in H. destruct (tagEquals tag actualTag) eqn:Heq.
    + inversion H; subst rest. apply tagEquals_content in Heq. cbn [map]. rewrite Heq.
      apply Permutation_refl.
    + destruct (removeFound tag toDelete) as [rest' |] eqn:Hrec; [| discriminate H].
      inversion H; subst rest. cbn [map].
      eapply perm_trans; [apply perm_swap |]. apply perm_skip. apply IH. reflexivity.
Qed.

Lemma removeFound_None :
  forall tag toDelete,
    removeFound tag toDelete = None <-> ~ In (tagContent tag) (map tagContent toDelete).
Proof.
  intros tag toDelete. induction toDelete as [| actualTag toDelete IH].
  - cbn. split; [intros _ H; exact H | reflexivity].
  - cbn [removeFound map In]. destruct (tagEquals tag actualTag) eqn:Heq.
    + apply tagEquals_content in Heq. split; [discriminate |].
      intros H. exfalso. apply H. left. symmetry. exact Heq.
    + assert (Hne : tagContent actualTag <> tagContent tag).
      { intros Hc. symmetry in Hc. apply tagEquals_content in Hc. congruence. }
      destruct (removeFound tag toDelete) as [rest |].
      * split; [discriminate |]. intros H. exfalso.
        destruct IH as [_ IH]. assert (Hn : @None (list Tag) = None -> False).
        { intros _. assert (Some rest = None) by (apply IH; intros Hin; apply H; right; exact Hin).
          discriminate. }
        apply Hn. reflexivity.
      * split; [| reflexivity]. intros _ [Hc | Hin]; [contradiction |].
        destruct IH as [IH _]. apply (IH eq_refl). exact Hin.
Qed.

(** The diff keeps the balance of tags: what was expected together with what
    is left to delete is what existed together with what is to add, occurrence
    for occurrence. [toAdd] only grows at its end. *)
Lemma diffTags_balance :
  forall expected toAdd toDelete,
    exists added,
      fst (diffTags expected toAdd toDelete) = (toAdd ++ added)%list /\
      Permutation (map tagContent expected ++ map tagContent (snd (diffTags expected toAdd toDelete)))
                  (map tagContent toDelete ++ map tagContent added).
Proof.
  induction expected as [| tag rest IH]; intros toAdd toDelete.
  - exists []. cbn. rewrite !app_nil_r. split; [reflexivity | apply Permutation_refl].
  - cbn [diffTags]. destruct (removeFound tag toDelete) as [toDelete' |] eqn:Hrem.
    + destruct (IH toAdd toDelete') as (added & Hadd & Hperm).
      exists added. split; [exact Hadd |].
      cbn [map app]. apply removeFound_Some in Hrem.
      eapply perm_trans; [apply perm_skip; exact Hperm |].
      change (Permutation ((tagContent tag :: map tagContent toDelete') ++ map tagContent added)
                          (map tagContent toDelete ++ map tagContent added)).
      apply Permutation_app_tail. exact Hrem.
    + destruct (IH (toAdd ++ [tag])%list toDelete) as (added & Hadd & Hperm).
      exists (tag :: added). split.
      * rewrite Hadd, <- app_assoc. reflexivity.
      * cbn [map app]. eapply perm_trans; [apply perm_skip; exact Hperm |].
        apply Permutation_middle.
Qed.

(** An added tag had no equal among the tags still to delete when it was met;
    so when the tags balance nothing is added. *)
Lemma diffTags_in_sync :
  forall expected toAdd toDelete,
    Permutation (map tagContent expected) (map tagContent toDelete) ->
    diffTags expected toAdd toDelete = (toAdd, []).
Proof.
  induction expected as [| tag rest IH]; intros toAdd toDelete Hperm.
  - cbn in Hperm. apply Permutation_nil in Hperm.
    destruct toDelete; [reflexivity | discriminate Hperm].
  - cbn [diffTags]. destruct (removeFound tag toDelete) as [toDelete' |] eqn:Hrem.
    + apply IH. apply removeFound_Some in Hrem. cbn [map] in Hperm.
      apply Permutation_cons_inv with (a := tagContent tag).
      eapply perm_trans; [exact Hperm |]. apply Permutation_sym. exact Hrem.
    + exfalso. apply removeFound_None in Hrem. apply Hrem.
      eapply Permutation_in; [exact Hperm |]. cbn [map]. left. reflexivity.
Qed.

Lemma diffTags_empty_iff :
  forall expected existing,
    diffTags expected [] existing = ([], []) <->
    Permutation (map tagContent expected) (map tagContent existing).
Proof.
  intros expected existing. split.
  - intros H. destruct (diffTags_balance expected [] existing) as (added & Hadd & Hperm).
    rewrite H in Hadd, Hperm. cbn in Hadd. subst added. cbn in Hperm.
    rewrite !app_nil_r in Hperm. exact Hperm.
  - apply diffTags_in_sync.
Qed.

(** ** The batches of the tag change *)

Lemma min_is_min : forall a b, min a b = Nat.min a b.
Proof. intros a b. unfold min. destruct (Nat.leb_spec a b); lia. Qed.

Lemma firstn_plus :
  forall {A} (a b : nat) (l : list A), firstn (a + b) l = (firstn a l ++ firstn b (skipn a l))%list.
Proof.
  intros A a. induction a as [| a IH]; intros b l.
  - reflexivity.
  - destruct l as [| x l].
    + cbn. rewrite firstn_nil. reflexivity.
    + cbn. rewrite IH. reflexivity.
Qed.

(** A segment of the batching loop is the next ten elements, or what is left. *)
Lemma segment_firstn :
  forall {A} (l : list A) (index : nat),
    (if (index <? length l)%nat then slice l index (min (index + 10) (length l)) else []) =
    firstn 10 (skipn index l).
Proof.
  intros A l index. destruct (Nat.ltb_spec index (length l)) as [Hlt | Hge].
  - unfold slice. rewrite min_is_min.
    destruct (Nat.le_gt_cases (index + 10) (length l)) as [Hfull | Hpart].
    + replace (Nat.min (index + 10) (length l) - index) with 10 by lia. reflexivity.
    + replace (Nat.min (index + 10) (length l) - index) with (length l - index) by lia.
      rewrite !firstn_all2; try reflexivity; rewrite length_skipn; lia.
  - rewrite skipn_all2 by lia. reflexivity.
Qed.

Lemma toAddSegment_firstn :
  forall toAdd index, toAddSegment toAdd index = firstn 10 (skipn index toAdd).
Proof. intros. apply segment_firstn. Qed.

Lemma keysToDeleteSegment_firstn :
  forall keys index, keysToDeleteSegment keys index = firstn 10 (skipn index keys).
Proof. intros. apply segment_firstn. Qed.

Lemma segments_concat :
  forall {A} (l : list A) (n index : nat),
    concat (map (fun i => firstn 10 (skipn i l)) (strides index n)) = firstn (10 * n) (skipn index l).
Proof.
  intros A l n. induction n as [| n IH]; intros index.
  - reflexivity.
  - cbn [strides map concat]. rewrite IH.
    replace (10 * S n) with (10 + 10 * n) by lia. rewrite firstn_plus.
    rewrite skipn_skipn. replace (10 + index) with (index + 10) by lia. reflexivity.
Qed.

Lemma segment_bounds :
  forall {A} (l : list A) (index : nat),
    length (firstn 10 (skipn index l)) <= 10 /\
    (index < length l -> 0 < length (firstn 10 (skipn index l))).
Proof.
  intros A l index. rewrite length_firstn, length_skipn. split; lia.
Qed.

(** Every call of the loop at an index below the longer list carries at most
    ten additions and ten removals, and not none of both. *)
Lemma changeTagsInput_bounds :
  forall id toAdd keys index,
    index < Nat.max (length toAdd) (length keys) ->
    length (ct_AddTags (changeTagsInput id toAdd keys index)) <= 10 /\
    length (ct_RemoveTagKeys (changeTagsInput id toAdd keys index)) <= 10 /\
    0 < length (ct_AddTags (changeTagsInput id toAdd keys index))
        + length (ct_RemoveTagKeys (changeTagsInput id toAdd keys index)).
Proof.
  intros id toAdd keys index Hlt. unfold changeTagsInput. cbn [ct_AddTags ct_RemoveTagKeys].
  rewrite toAddSegment_firstn, keysToDeleteSegment_firstn.
  destruct (segment_bounds toAdd index) as [Ha Ha'].
  destruct (segment_bounds keys index) as [Hk Hk'].
  repeat split; try assumption.
  destruct (Nat.lt_ge_cases index (length toAdd)) as [H | H].
  - specialize (Ha' H). lia.
  - assert (Hkl : index < length keys) by lia. specialize (Hk' Hkl). lia.
Qed.

Section TagSync.

Context {W : Type}.
Variable awsClient : Client W.

(** The batching loop, by its calls: it calls at the index and every ten
    further while the index is below the longer list, stops with the error of
    the first call that fails, and is done when the index has passed both
    lists. The rounds [syncTags] allows are enough. *)
Lemma changeTagsLoop_run :
  forall fuel id toAdd keys index (s : Sys W),
    Nat.max (length toAdd) (length keys) - index <= fuel ->
    exists answers,
      snd (changeTagsLoop awsClient fuel id toAdd keys index s) =
        mkSys (actuator s)
              (world (snd (changeTagsLoop awsClient fuel id toAdd keys index s)))
              (trace s ++ tagEvents (map (changeTagsInput id toAdd keys)
                                         (strides index (length answers))) answers) /\
      Forall (fun i => i < Nat.max (length toAdd) (length keys)) (strides index (length answers)) /\
      ((fst (changeTagsLoop awsClient fuel id toAdd keys index s) = Ok tt /\
        Forall (fun r => r = inl tt) answers /\
        Nat.max (length toAdd) (length keys) <= index + 10 * length answers) \/
       (exists err init,
          answers = (init ++ [inr err])%list /\
          fst (changeTagsLoop awsClient fuel id toAdd keys index s) = Fail err)).
Proof.
  induction fuel as [| fuel IH]; intros id toAdd keys index s Hfuel.
  - exists []. cbn [changeTagsLoop].
    destruct (Nat.ltb_spec index (length toAdd)); [lia |].
    destruct (Nat.ltb_spec index (length keys)); [lia |].
    cbn. unfold tagEvents. cbn. rewrite app_nil_r. split; [| split].
    + destruct s; reflexivity.
    + constructor.
    + left. repeat split; [constructor | lia].
  - cbn [changeTagsLoop].
    destruct ((index <? length toAdd)%nat || (index <? length keys)%nat) eqn:Hcond.
    + assert (Hlt : index < Nat.max (length toAdd) (length keys)).
      { apply orb_true_iff in Hcond. rewrite !Nat.ltb_lt in Hcond. lia. }
      fold (changeTagsInput id toAdd keys index). run.
      destruct (ChangeTagsForResource awsClient (changeTagsInput id toAdd keys index) (world s))
        as [r w1] eqn:Hcall.
      destruct r as [u | err].
      * destruct u.
        set (s1 := mkSys (actuator s) w1
                     (trace s ++ [EvChangeTagsForResource (changeTagsInput id toAdd keys index) (inl tt)])).
        destruct (IH id toAdd keys (index + 10) s1) as (answers & Hsnd & Hall & Hres); [lia |].
        exists (inl tt :: answers). split; [| split].
        -- rewrite Hsnd. cbn [length strides map]. unfold tagEvents. cbn [combine map fst snd].
           subst s1. cbn [actuator trace]. rewrite <- app_assoc. reflexivity.
        -- cbn [length strides]. constructor; assumption.
        -- destruct Hres as [(Hok & Hans & Hdone) | (err & init & Hans & Hfail)].
           ++ left. repeat split; [exact Hok | constructor; [reflexivity | exact Hans] |].
              cbn [length]. lia.
           ++ right. exists err, (inl tt :: init). split; [rewrite Hans; reflexivity | exact Hfail].
      * exists [inr err]. cbn. unfold tagEvents. cbn. split; [reflexivity | split].
        -- constructor; [exact Hlt | constructor].
        -- right. exists err, []. split; reflexivity.
    + exists []. cbn. unfold tagEvents. cbn. rewrite app_nil_r.
      apply orb_false_iff in Hcond. rewrite !Nat.ltb_ge in Hcond.
      split; [destruct s; reflexivity | split; [constructor |]].
      left. repeat split; [constructor | lia].
Qed.

End TagSync.

Section TagSyncClaims.

Context {W : Type}.
Variable awsClient : Client W.

(** C2, as amended: when the currently known tags are the expected tags
    occurrence for occurrence, in any order (tags compared as [tagEquals]
    does), [syncTags] computes an empty add-set and an empty delete-set,
    returns success and leaves the state as it was, the log of provider calls
    included: no [ChangeTagsForResource] call is made. *)
Theorem syncTags_in_sync_no_call :
  forall (s : Sys W) (hz : HostedZone),
    hostedZone (actuator s) = Some hz ->
    Permutation (map tagContent (expectedTags (actuator s)))
                (map tagContent (currentHostedZoneTags (actuator s))) ->
    diffTags (expectedTags (actuator s)) [] (currentHostedZoneTags (actuator s)) = ([], []) /\
    syncTags awsClient s = (Ok tt, s).
Proof.
  intros s hz Hhz Hperm.
  pose proof (diffTags_in_sync _ [] _ Hperm) as Hdiff.
  split; [exact Hdiff |].
  unfold syncTags. run. rewrite Hhz, Hdiff. reflexivity.
Qed.

(** C3: the [ChangeTagsForResource] calls of [syncTags] are the only calls it
    makes; they are made at the values 0, 10, 20, ... of the one index, each
    with the next ten (or the last few) tags to add and keys to delete at that
    index: at most ten of each, and never none of both. [syncTags] stops at the
    first call that fails, with its error; otherwise it goes on until the
    additions and the removals of its calls together are the whole add-set and
    the keys of the whole delete-set. *)
Theorem syncTags_batches_of_ten :
  forall (s : Sys W) (hz : HostedZone),
    hostedZone (actuator s) = Some hz ->
    let diff := diffTags (expectedTags (actuator s)) [] (currentHostedZoneTags (actuator s)) in
    let toAdd := fst diff in
    let keysToDelete := map tag_Key (snd diff) in
    exists answers : list (result unit),
      let inputs := map (changeTagsInput (hz_Id hz) toAdd keysToDelete)
                        (strides 0 (length answers)) in
      trace (snd (syncTags awsClient s)) = (trace s ++ tagEvents inputs answers)%list /\
      Forall (fun i => length (ct_AddTags i) <= 10 /\
                       length (ct_RemoveTagKeys i) <= 10 /\
                       0 < length (ct_AddTags i) + length (ct_RemoveTagKeys i)) inputs /\
      ((fst (syncTags awsClient s) = Ok tt /\
        Forall (fun r => r = inl tt) answers /\
        concat (map ct_AddTags inputs) = toAdd /\
        concat (map ct_RemoveTagKeys inputs) = keysToDelete) \/
       (exists err init,
          answers = (init ++ [inr err])%list /\
          fst (syncTags awsClient s) = Fail err)).
Proof.
  intros s hz Hhz diff toAdd keysToDelete.
  unfold syncTags. run. rewrite Hhz. fold diff.
  destruct diff as [toAdd' toDelete'] eqn:Hdiff. cbn [fst snd] in toAdd, keysToDelete.
  fold toAdd. fold keysToDelete.
  assert (Hlen : length keysToDelete = length toDelete').
  { subst keysToDelete. apply length_map. }
  destruct ((length toDelete' =? 0)%nat && (length toAdd =? 0)%nat) eqn:Hempty.
  - apply andb_true_iff in Hempty. rewrite !Nat.eqb_eq in Hempty. destruct Hempty as [Hd Ha].
    exists []. cbn. unfold tagEvents. cbn. rewrite app_nil_r.
    split; [reflexivity | split; [constructor |]].
    left. repeat split; [constructor | |].
    + destruct toAdd; [reflexivity | discriminate Ha].
    + destruct keysToDelete; [reflexivity | cbn in Hlen; lia].
  - destruct (changeTagsLoop_run awsClient
                (Nat.max (length toAdd) (length keysToDelete)) (hz_Id hz) toAdd keysToDelete 0 s)
      as (answers & Hsnd & Hall & Hres); [lia |].
    exists answers. cbn zeta. split; [| split].
    + rewrite Hsnd. reflexivity.
    + apply Forall_map. eapply Forall_impl; [| exact Hall].
      intros i Hi. apply changeTagsInput_bounds. exact Hi.
    + destruct Hres as [(Hok & Hans & Hdone) | Hfail]; [left | right; exact Hfail].
      repeat split; [exact Hok | exact Hans | |].
      * rewrite map_map. unfold changeTagsInput. cbn [ct_AddTags].
        erewrite map_ext; [| intros i; apply toAddSegment_firstn].
        rewrite segments_concat. cbn [skipn]. apply firstn_all2. lia.
      * rewrite map_map. unfold changeTagsInput. cbn [ct_RemoveTagKeys].
        erewrite map_ext; [| intros i; apply keysToDeleteSegment_firstn].
        rewrite segments_concat. cbn [skipn]. apply firstn_all2. lia.
Qed.

End TagSyncClaims.

(** ** Deletion of the zone *)

Section DeleteClaims.

Context {W : Type}.
Variable awsClient : Client W.
Variable Dotted : string -> string.

(** C5, as amended: when the sweep has succeeded and the final
    [DeleteHostedZone] call fails, [Delete] returns the error of that call to
    its caller, whatever its code; the zone-not-empty code only lowers the
    level of the log entry of the failure from error to info. *)
Theorem Delete_returns_deletion_error :
  forall (fuel : nat) (s s1 : Sys W) (hz : HostedZone) (err : error) (w2 : W),
    hostedZone (actuator s) = Some hz ->
    DeleteAWSRecordSets awsClient Dotted fuel (dnsZone (actuator s)) s = (Ok tt, s1) ->
    DeleteHostedZone awsClient (hz_Id hz) (world s1) = (inr err, w2) ->
    Delete awsClient Dotted fuel s =
      (Fail err,
       mkSys (actuator s1) w2
             (trace s1 ++ [EvDeleteHostedZone (hz_Id hz) (inr err);
                           EvLog (deleteLogLevel err) "Cannot delete hosted zone" err])) /\
    (deleteLogLevel err = InfoLevel <-> isAwsCode ErrCodeHostedZoneNotEmpty err = true) /\
    (deleteLogLevel err = ErrorLevel <-> isAwsCode ErrCodeHostedZoneNotEmpty err = false).
Proof.
  intros fuel s s1 hz err w2 Hhz Hsweep Hdel.
  split.
  - unfold Delete. run. rewrite Hhz, Hsweep. cbn. rewrite Hdel. cbn.
    rewrite <- app_assoc. reflexivity.
  - unfold deleteLogLevel. destruct (isAwsCode ErrCodeHostedZoneNotEmpty err).
    + split; split; intros H; try reflexivity; discriminate H.
    + split; split; intros H; try reflexivity; discriminate H.
Qed.

End DeleteClaims.

(** ** The error classifier *)

Lemma conditionType_eqb_eq : forall a b, conditionType_eqb a b = true <-> a = b.
Proof.
  intros a b. destruct a, b; cbn; try (split; [discriminate | congruence]);
    try (split; reflexivity).
  rewrite String.eqb_eq. split; congruence.
Qed.

Lemma conditionType_eqb_refl : forall a, conditionType_eqb a a = true.
Proof. intros a. apply conditionType_eqb_eq. reflexivity. Qed.

Section ConditionClaims.

Variable set :
  list DNSZoneCondition -> DNSZoneConditionType -> ConditionStatus -> string -> string ->
  UpdateConditionCheck -> list DNSZoneCondition * bool.
Variables accessGrantedReason accessDeniedReason : string.
Variables authenticationSucceededReason authenticationFailedReason : string.
Hypothesis contract : SetterContract set.

(** One setter: the stored conditions after it. *)
Lemma storeConditions_spec :
  forall a t st r m p,
    let res := storeConditions (set (conditionsOf a) t st r m p) a in
    (forall t', conditionType_eqb t' t = false ->
                findCondition (conditionsOf (snd res)) t' = findCondition (conditionsOf a) t') /\
    (fst res = true ->
       findCondition (conditionsOf (snd res)) t = Some (mkCondition t st r m) /\
       findCondition (conditionsOf a) t <> Some (mkCondition t st r m)) /\
    (fst res = false ->
       snd res = a /\ snd (set (conditionsOf a) t st r m p) = false).
Proof.
  intros a t st r m p. unfold storeConditions.
  destruct (set (conditionsOf a) t st r m p) as [conds changed] eqn:Hset.
  destruct changed; cbn [fst snd].
  - assert (Hch : snd (set (conditionsOf a) t st r m p) = true) by (rewrite Hset; reflexivity).
    unfold conditionsOf at 1 3. cbn.
    replace conds with (fst (set (conditionsOf a) t st r m p)) by (rewrite Hset; reflexivity).
    repeat split.
    + intros t' Ht'. exact (@set_frame set contract _ _ _ _ _ _ _ Hch Ht').
    + exact (@set_written set contract _ _ _ _ _ _ Hch).
    + exact (@set_sound set contract _ _ _ _ _ _ Hch).
    + discriminate.
    + discriminate.
  - repeat split; try reflexivity; discriminate.
Qed.

Lemma SetConditionsForError_twoSetters :
  forall err a,
    SetConditionsForError set accessGrantedReason accessDeniedReason
      authenticationSucceededReason authenticationFailedReason err a =
    match err with
    | Some (AwsError code message) =>
        twoSetters set
          (if isAccessDenied code then ConditionTrue else ConditionFalse)
          (if isAccessDenied code then accessDeniedReason else accessGrantedReason)
          (if isAccessDenied code then redactedMessage else "credentials are valid")
          (if isAccessDenied code then UpdateConditionIfReasonOrMessageChange else UpdateConditionNever)
          (if isAuthenticationFailure code then ConditionTrue else ConditionFalse)
          (if isAuthenticationFailure code
           then authenticationFailedReason else authenticationSucceededReason)
          (if isAuthenticationFailure code then message else "credentials authenticated")
          (if isAuthenticationFailure code
           then UpdateConditionIfReasonOrMessageChange else UpdateConditionNever)
          a
    | _ =>
        twoSetters set ConditionFalse accessGrantedReason "credentials are valid" UpdateConditionNever
          ConditionFalse authenticationSucceededReason "credentials authenticated"
          UpdateConditionNever a
    end.
Proof.
  intros err a.
  assert (Hplain :
    (let (c1, a1) := setInsufficientCredentialsConditionToFalse set accessGrantedReason a in
     let (c2, a2) := setAuthenticationFailureConditionToFalse set authenticationSucceededReason a1 in
     (c1 || c2, a2)) =
    twoSetters set ConditionFalse accessGrantedReason "credentials are valid" UpdateConditionNever
      ConditionFalse authenticationSucceededReason "credentials authenticated"
      UpdateConditionNever a).
  { unfold twoSetters, setInsufficientCredentialsConditionToFalse,
      setAuthenticationFailureConditionToFalse, conditionsOf.
    destruct (storeConditions _ a) as [c1 a1]. cbn [fst snd].
    destruct (storeConditions _ a1) as [c2 a2]. reflexivity. }
  destruct err as [[code message | msg] |]; cbn [SetConditionsForError]; try exact Hplain.
  fold (isAccessDenied code). fold (isAuthenticationFailure code).
  unfold twoSetters, setInsufficientCredentialsConditionToFalse,
    setInsufficientCredentialsConditionToTrue, setAuthenticationFailureConditionToFalse,
    setAuthenticationFailureConditionToTrue, conditionsOf, redactedMessage.
  destruct (isAccessDenied code); destruct (isAuthenticationFailure code);
    destruct (storeConditions _ a) as [c1 a1]; cbn [fst snd];
    destruct (storeConditions _ a1) as [c2 a2]; reflexivity.
Qed.

(** After the two setters: each flag tells whether the stored entry of its
    type changed, and each entry is what its setter left. *)
Lemma twoSetters_spec :
  forall st1 r1 m1 p1 st2 r2 m2 p2 a,
    let step1 :=
      storeConditions (set (conditionsOf a) InsufficientCredentialsCondition st1 r1 m1 p1) a in
    let step2 :=
      storeConditions
        (set (conditionsOf (snd step1)) AuthenticationFailureCondition st2 r2 m2 p2) (snd step1) in
    let final := conditionsOf (snd (twoSetters set st1 r1 m1 p1 st2 r2 m2 p2 a)) in
    fst (twoSetters set st1 r1 m1 p1 st2 r2 m2 p2 a) = (fst step1 || fst step2) /\
    findCondition final InsufficientCredentialsCondition =
      findCondition (conditionsOf (snd step1)) InsufficientCredentialsCondition /\
    findCondition (conditionsOf (snd step1)) AuthenticationFailureCondition =
      findCondition (conditionsOf a) AuthenticationFailureCondition /\
    final = conditionsOf (snd step2).
Proof.
  intros st1 r1 m1 p1 st2 r2 m2 p2 a step1 step2 final.
  unfold twoSetters in final. fold step1 in final. fold step2 in final. cbn [snd] in final.
  repeat split.
  - destruct (storeConditions_spec (snd step1) AuthenticationFailureCondition st2 r2 m2 p2)
      as (Hframe & _ & _).
    apply Hframe. reflexivity.
  - destruct (storeConditions_spec a InsufficientCredentialsCondition st1 r1 m1 p1)
      as (Hframe & _ & _).
    apply Hframe. reflexivity.
Qed.

Lemma conditionIsTrue_find :
  forall cs cs' t, findCondition cs t = findCondition cs' t -> conditionIsTrue cs t = conditionIsTrue cs' t.
Proof. intros cs cs' t H. unfold conditionIsTrue. rewrite H. reflexivity. Qed.

Lemma twoSetters_changed :
  forall st1 r1 m1 p1 st2 r2 m2 p2 a,
    let res := twoSetters set st1 r1 m1 p1 st2 r2 m2 p2 a in
    fst res = true <->
    (findCondition (conditionsOf (snd res)) InsufficientCredentialsCondition
       <> findCondition (conditionsOf a) InsufficientCredentialsCondition \/
     findCondition (conditionsOf (snd res)) AuthenticationFailureCondition
       <> findCondition (conditionsOf a) AuthenticationFailureCondition).
Proof.
  intros st1 r1 m1 p1 st2 r2 m2 p2 a res.
  destruct (twoSetters_spec st1 r1 m1 p1 st2 r2 m2 p2 a) as (Hflag & Hic & Haf & Hfinal).
  cbn zeta in Hflag, Hic, Haf, Hfinal. fold res in Hflag, Hic, Hfinal.
  destruct (storeConditions_spec a InsufficientCredentialsCondition st1 r1 m1 p1)
    as (_ & Hset1 & Hkept1).
  cbn zeta in Hset1, Hkept1.
  set (step1 := storeConditions (set (conditionsOf a) InsufficientCredentialsCondition st1 r1 m1 p1) a) in *.
  destruct (storeConditions_spec (snd step1) AuthenticationFailureCondition st2 r2 m2 p2)
    as (_ & Hset2 & Hkept2).
  cbn zeta in Hset2, Hkept2.
  set (step2 := storeConditions
                  (set (conditionsOf (snd step1)) AuthenticationFailureCondition st2 r2 m2 p2)
                  (snd step1)) in *.
  rewrite Hflag, Hic, Hfinal. rewrite <- Haf.
  destruct (fst step1) eqn:H1; destruct (fst step2) eqn:H2; cbn [orb].
  - split; [intros _ | reflexivity]. left.
    destruct (Hset1 eq_refl) as [Hw Hs]. rewrite Hw. congruence.
  - split; [intros _ | reflexivity]. left.
    destruct (Hset1 eq_refl) as [Hw Hs]. rewrite Hw. congruence.
  - split; [intros _ | reflexivity]. right.
    destruct (Hset2 eq_refl) as [Hw Hs]. rewrite Hw. congruence.
  - split; [discriminate |]. intros [H | H]; exfalso; apply H.
    + destruct (Hkept1 eq_refl) as [Ha _]. rewrite Ha. reflexivity.
    + destruct (Hkept2 eq_refl) as [Ha _]. rewrite Ha. reflexivity.
Qed.

Lemma twoSetters_first_cleared :
  forall r1 m1 st2 r2 m2 p2 a,
    conditionIsTrue
      (conditionsOf (snd (twoSetters set ConditionFalse r1 m1 UpdateConditionNever st2 r2 m2 p2 a)))
      InsufficientCredentialsCondition = false.
Proof.
  intros r1 m1 st2 r2 m2 p2 a.
  destruct (twoSetters_spec ConditionFalse r1 m1 UpdateConditionNever st2 r2 m2 p2 a)
    as (_ & Hic & _ & _).
  cbn zeta in Hic. rewrite (conditionIsTrue_find _ _ _ Hic).
  destruct (storeConditions_spec a InsufficientCredentialsCondition ConditionFalse r1 m1
              UpdateConditionNever) as (_ & Hset1 & Hkept1).
  cbn zeta in Hset1, Hkept1.
  destruct (fst (storeConditions
                   (set (conditionsOf a) InsufficientCredentialsCondition ConditionFalse r1 m1
                        UpdateConditionNever) a)) eqn:H1.
  - destruct (Hset1 eq_refl) as [Hw _]. unfold conditionIsTrue. rewrite Hw. reflexivity.
  - destruct (Hkept1 eq_refl) as [Ha Hno]. rewrite Ha.
    exact (@clear_kept set contract _ _ _ _ Hno).
Qed.

Lemma twoSetters_first_true :
  forall r1 m1 st2 r2 m2 p2 a,
    findCondition
      (conditionsOf (snd (twoSetters set ConditionTrue r1 m1 UpdateConditionIfReasonOrMessageChange
                                     st2 r2 m2 p2 a)))
      InsufficientCredentialsCondition =
    Some (mkCondition InsufficientCredentialsCondition ConditionTrue r1 m1).
Proof.
  intros r1 m1 st2 r2 m2 p2 a.
  destruct (twoSetters_spec ConditionTrue r1 m1 UpdateConditionIfReasonOrMessageChange
              st2 r2 m2 p2 a) as (_ & Hic & _ & _).
  cbn zeta in Hic. rewrite Hic.
  destruct (storeConditions_spec a InsufficientCredentialsCondition ConditionTrue r1 m1
              UpdateConditionIfReasonOrMessageChange) as (_ & Hset1 & Hkept1).
  cbn zeta in Hset1, Hkept1.
  destruct (fst (storeConditions
                   (set (conditionsOf a) InsufficientCredentialsCondition ConditionTrue r1 m1
                        UpdateConditionIfReasonOrMessageChange) a)) eqn:H1.
  - destruct (Hset1 eq_refl) as [Hw _]. exact Hw.
  - destruct (Hkept1 eq_refl) as [Ha Hno]. rewrite Ha.
    exact (@true_kept set contract _ _ _ _ Hno).
Qed.

Lemma twoSetters_second_cleared :
  forall st1 r1 m1 p1 r2 m2 a,
    conditionIsTrue
      (conditionsOf (snd (twoSetters set st1 r1 m1 p1 ConditionFalse r2 m2 UpdateConditionNever a)))
      AuthenticationFailureCondition = false.
Proof.
  intros st1 r1 m1 p1 r2 m2 a.
  destruct (twoSetters_spec st1 r1 m1 p1 ConditionFalse r2 m2 UpdateConditionNever a)
    as (_ & _ & _ & Hfinal).
  cbn zeta in Hfinal. rewrite Hfinal.
  set (step1 := storeConditions (set (conditionsOf a) InsufficientCredentialsCondition st1 r1 m1 p1) a).
  destruct (storeConditions_spec (snd step1) AuthenticationFailureCondition ConditionFalse r2 m2
              UpdateConditionNever) as (_ & Hset2 & Hkept2).
  cbn zeta in Hset2, Hkept2.
  destruct (fst (storeConditions
                   (set (conditionsOf (snd step1)) AuthenticationFailureCondition ConditionFalse
                        r2 m2 UpdateConditionNever) (snd step1))) eqn:H2.
  - destruct (Hset2 eq_refl) as [Hw _]. unfold conditionIsTrue. rewrite Hw. reflexivity.
  - destruct (Hkept2 eq_refl) as [Ha Hno]. rewrite Ha.
    exact (@clear_kept set contract _ _ _ _ Hno).
Qed.

(** C6: what [SetConditionsForError] leaves in the status, for a helper that
    keeps [SetterContract]. For an error that is not a structured provider
    error (the nil error included) neither condition is signalled afterwards.
    For a structured error with an access-denied code the stored
    insufficient-credentials condition is true with the fixed message,
    whatever the message of the error; for any other code it is not
    signalled. The result is true exactly when the stored entry of one of the
    two conditions is not what it was. *)
Theorem SetConditionsForError_classifies :
  forall (a : AWSActuator),
    let classify :=
      fun err => SetConditionsForError set accessGrantedReason accessDeniedReason
                   authenticationSucceededReason authenticationFailedReason err a in
    let final := fun err => conditionsOf (snd (classify err)) in
    (forall err,
        (forall code message, err <> Some (AwsError code message)) ->
        conditionIsTrue (final err) InsufficientCredentialsCondition = false /\
        conditionIsTrue (final err) AuthenticationFailureCondition = false) /\
    (forall code message,
        code = "AccessDeniedException" \/ code = "AccessDenied" ->
        findCondition (final (Some (AwsError code message))) InsufficientCredentialsCondition =
          Some (mkCondition InsufficientCredentialsCondition ConditionTrue accessDeniedReason
                  "AccessDenied error encountered (see controller logs for details)")) /\
    (forall code message,
        code <> "AccessDeniedException" -> code <> "AccessDenied" ->
        conditionIsTrue (final (Some (AwsError code message))) InsufficientCredentialsCondition
          = false) /\
    (forall err,
        fst (classify err) = true <->
        (findCondition (final err) InsufficientCredentialsCondition
           <> findCondition (conditionsOf a) InsufficientCredentialsCondition \/
         findCondition (final err) AuthenticationFailureCondition
           <> findCondition (conditionsOf a) AuthenticationFailureCondition)).
Proof.
  intros a classify final. repeat split.
  - unfold final, classify. rewrite SetConditionsForError_twoSetters.
    destruct err as [[code message | msg] |].
    + exfalso. apply (H code message). reflexivity.
    + apply twoSetters_first_cleared.
    + apply twoSetters_first_cleared.
  - unfold final, classify. rewrite SetConditionsForError_twoSetters.
    destruct err as [[code message | msg] |].
    + exfalso. apply (H code message). reflexivity.
    + apply twoSetters_second_cleared.
    + apply twoSetters_second_cleared.
  - intros code message Hcode. unfold final, classify. rewrite SetConditionsForError_twoSetters.
    assert (Hden : isAccessDenied code = true).
    { unfold isAccessDenied. destruct Hcode as [-> | ->]; reflexivity. }
    rewrite Hden. apply twoSetters_first_true.
  - intros code message Hc1 Hc2. unfold final, classify. rewrite SetConditionsForError_twoSetters.
    assert (Hden : isAccessDenied code = false).
    { unfold isAccessDenied. apply orb_false_iff. rewrite !String.eqb_neq. split; assumption. }
    rewrite Hden. apply twoSetters_first_cleared.
  - unfold final, classify. rewrite SetConditionsForError_twoSetters.
    destruct err as [[code message | msg] |]; apply twoSetters_changed.
  - unfold final, classify. rewrite SetConditionsForError_twoSetters.
    destruct err as [[code message | msg] |]; apply twoSetters_changed.
Qed.

End ConditionClaims.

(** ** The zone locator *)

Lemma resolve_fold_zone :
  forall zones a, Spec_Zone (dnsZone (fold_left resolve zones a)) = Spec_Zone (dnsZone a).
Proof.
  induction zones as [| hz zones IH]; intros a; [reflexivity |].
  cbn [fold_left]. rewrite IH. reflexivity.
Qed.

Lemma last_default :
  forall {A} (l : list A) (x d d' : A), last (x :: l) d = last (x :: l) d'.
Proof.
  intros A l. induction l as [| y l IH]; intros x d d'; [reflexivity |].
  change (last (y :: l) d = last (y :: l) d'). apply IH.
Qed.

Lemma resolve_fold_hostedZone :
  forall zones a,
    hostedZone (fold_left resolve zones a) = last (map Some zones) (hostedZone a).
Proof.
  induction zones as [| hz zones IH]; intros a; [reflexivity |].
  cbn [fold_left map]. rewrite IH. cbn [resolve hostedZone].
  destruct zones as [| z zones]; [reflexivity |].
  cbn [map]. change (last (Some hz :: Some z :: map Some zones) (hostedZone a))
    with (last (Some z :: map Some zones) (hostedZone a)).
  apply last_default.
Qed.

Lemma resolve_fold_status :
  forall zones a hz,
    zones <> [] ->
    hostedZone (fold_left resolve zones a) = Some hz ->
    Status_AWS (dnsZone (fold_left resolve zones a)) = Some (mkAWSDNSZoneStatus (hz_Id hz)).
Proof.
  induction zones as [| z zones IH]; intros a hz Hne H; [congruence |].
  cbn [fold_left] in *. destruct zones as [| z' zones'].
  - cbn in *. inversion H; subst. reflexivity.
  - apply IH; [discriminate | exact H].
Qed.

Section RefreshScan.

Context {W : Type}.
Variable awsClient : Client W.
Variable Dotted : string -> string.

(** One round of the loop of [Refresh]. *)
Lemma refreshLoop_step :
  forall (zoneID : string) (rest : list string) (s : Sys W),
    refreshLoop awsClient Dotted (zoneID :: rest) s =
    let answer := GetHostedZone awsClient (Some zoneID) (world s) in
    let tr := (trace s ++ [EvGetHostedZone (Some zoneID) (fst answer)])%list in
    let s1 := mkSys (actuator s) (snd answer) tr in
    match fst answer with
    | inr err =>
        if isAwsCode ErrCodeNoSuchHostedZone err
        then refreshLoop awsClient Dotted rest s1 else (Fail err, s1)
    | inl resp =>
        match hz_Name resp with
        | None => (Panic, s1)
        | Some name =>
            if String.eqb name (Dotted (Spec_Zone (dnsZone (actuator s))))
            then refreshLoop awsClient Dotted rest
                   (mkSys (resolve (actuator s) resp) (snd answer) tr)
            else refreshLoop awsClient Dotted rest s1
        end
    end.
Proof.
  intros zoneID rest s. cbn [refreshLoop]. run.
  destruct (GetHostedZone awsClient (Some zoneID) (world s)) as [r w1].
  cbn [fst snd]. destruct r as [resp | err].
  - destruct (hz_Name resp) as [name |]; [| reflexivity].
    cbn [actuator].
    destruct (String.eqb name (Dotted (Spec_Zone (dnsZone (actuator s))))); [| reflexivity].
    cbn [negb]. unfold modifyStatus. run. reflexivity.
  - destruct (isAwsCode ErrCodeNoSuchHostedZone err); reflexivity.
Qed.

(** The loop of [Refresh], by its fetches: it fetches the identifiers in
    order; an answer that is the not-found error, or a zone, does not end it;
    an answer that is another error ends it with that error (a zone without a
    name, with a panic); the actuator it leaves has retained, one after the
    other, the fetched zones of the expected name. *)
Lemma refreshLoop_run :
  forall (zoneIDs : list string) (s : Sys W),
    exists answers : list (result HostedZone),
      let r := refreshLoop awsClient Dotted zoneIDs s in
      let dotted := Dotted (Spec_Zone (dnsZone (actuator s))) in
      trace (snd r) = (trace s ++ fetchEvents zoneIDs answers)%list /\
      length answers <= length zoneIDs /\
      actuator (snd r) = fold_left resolve (matchingZones dotted answers) (actuator s) /\
      ((fst r = Ok tt /\ Forall benign answers /\ length answers = length zoneIDs) \/
       (exists init err,
           answers = (init ++ [inr err])%list /\ Forall benign init /\
           isAwsCode ErrCodeNoSuchHostedZone err = false /\ fst r = Fail err) \/
       (exists init hz,
           answers = (init ++ [inl hz])%list /\ Forall benign init /\
           hz_Name hz = None /\ fst r = Panic)).
Proof.
  induction zoneIDs as [| zoneID rest IH]; intros s.
  - exists []. cbn. unfold fetchEvents. cbn. rewrite app_nil_r.
    repeat split; try reflexivity. left. repeat split; constructor.
  - rewrite refreshLoop_step. cbn zeta.
    destruct (GetHostedZone awsClient (Some zoneID) (world s)) as [r w1].
    cbn [fst snd].
    assert (Hgo : forall a' : AWSActuator,
      Spec_Zone (dnsZone a') = Spec_Zone (dnsZone (actuator s)) ->
      benign r ->
      a' = fold_left resolve (matchingZones (Dotted (Spec_Zone (dnsZone (actuator s)))) [r])
             (actuator s) ->
      exists answers : list (result HostedZone),
        let res := refreshLoop awsClient Dotted rest
                     (mkSys a' w1 (trace s ++ [EvGetHostedZone (Some zoneID) r])) in
        trace (snd res) = (trace s ++ fetchEvents (zoneID :: rest) answers)%list /\
        length answers <= length (zoneID :: rest) /\
        actuator (snd res) =
          fold_left resolve (matchingZones (Dotted (Spec_Zone (dnsZone (actuator s)))) answers)
            (actuator s) /\
        ((fst res = Ok tt /\ Forall benign answers /\ length answers = length (zoneID :: rest)) \/
         (exists init err,
             answers = (init ++ [inr err])%list /\ Forall benign init /\
             isAwsCode ErrCodeNoSuchHostedZone err = false /\ fst res = Fail err) \/
         (exists init hz,
             answers = (init ++ [inl hz])%list /\ Forall benign init /\
             hz_Name hz = None /\ fst res = Panic))).
    { intros a' Hzone Hben Ha'.
      destruct (IH (mkSys a' w1 (trace s ++ [EvGetHostedZone (Some zoneID) r])))
        as (answers & Htr & Hlen & Hact & Hres).
      cbn zeta in *. cbn [actuator trace] in *. rewrite Hzone in Hact.
      exists (r :: answers). split; [| split; [| split]].
      - rewrite Htr. unfold fetchEvents. cbn [combine map fst snd].
        rewrite <- app_assoc. reflexivity.
      - cbn [length]. lia.
      - rewrite Hact, Ha'. unfold matchingZones. cbn [flat_map].
        rewrite app_nil_r, fold_left_app. reflexivity.
      - destruct Hres as [(Hok & Hb & Hl) | [(init & err & Hi & Hb & Hc & Hf)
                                             | (init & hz & Hi & Hb & Hn & Hp)]].
        + left. repeat split; [exact Hok | constructor; assumption | cbn [length]; lia].
        + right. left. exists (r :: init), err. rewrite Hi.
          repeat split; try assumption. constructor; assumption.
        + right. right. exists (r :: init), hz. rewrite Hi.
          repeat split; try assumption. constructor; assumption. }
    destruct r as [resp | err].
    + destruct (hz_Name resp) as [name |] eqn:Hname.
      * destruct (String.eqb name (Dotted (Spec_Zone (dnsZone (actuator s))))) eqn:Hmatch.
        -- apply Hgo; [reflexivity | cbn; congruence |].
           unfold matchingZones, nameMatches. cbn [flat_map]. rewrite Hname, Hmatch. reflexivity.
        -- apply Hgo; [reflexivity | cbn; congruence |].
           unfold matchingZones, nameMatches. cbn [flat_map]. rewrite Hname, Hmatch. reflexivity.
      * exists [inl resp]. cbn zeta. cbn [fst snd trace actuator length].
        unfold fetchEvents. cbn [combine map fst snd matchingZones flat_map].
        unfold nameMatches. rewrite Hname, combine_nil. cbn [app fold_left map].
        split; [reflexivity | split; [lia | split; [reflexivity |]]].
        right. right. exists [], resp.
        repeat split; [constructor | exact Hname].
    + destruct (isAwsCode ErrCodeNoSuchHostedZone err) eqn:Hcode.
      * apply Hgo; [reflexivity | exact Hcode | reflexivity].
      * exists [inr err]. cbn zeta. cbn [fst snd trace actuator length].
        unfold fetchEvents. cbn [combine map fst snd matchingZones flat_map app fold_left].
        rewrite combine_nil. cbn [map].
        split; [reflexivity | split; [lia | split; [reflexivity |]]].
        right. left. exists [], err.
        repeat split; [constructor | exact Hcode].
Qed.

End RefreshScan.

Section RefreshClaims.

Context {W : Type}.
Variable awsClient : Client W.
Variable Dotted : string -> string.

Lemma lookupZoneIDs_actuator :
  forall (s : Sys W), actuator (snd (lookupZoneIDs awsClient s)) = actuator s.
Proof.
  intros s. unfold lookupZoneIDs, findZoneIDsByTag. run.
  destruct (length _ =? 0)%nat; [| reflexivity].
  destruct (GetResourcesPages awsClient _ (world s)) as [[pages err] w1]. cbn.
  destruct err; reflexivity.
Qed.

(** The identifiers [Refresh] fetches when the status has none: those the tag
    search collected. *)
Lemma lookupZoneIDs_by_tag :
  forall (s : Sys W) pages w1,
    (forall st, Status_AWS (dnsZone (actuator s)) = Some st -> ZoneID st = None) ->
    let input := mkGetResourcesInput [Some "route53:hostedzone"] (Some hiveDNSZoneAWSTag)
                   [Some (Namespace (dnsZone (actuator s)) ++ "/" ++ Name (dnsZone (actuator s)))] in
    GetResourcesPages awsClient input (world s) = ((pages, None), w1) ->
    lookupZoneIDs awsClient s =
      (Ok (collectIDs pages),
       mkSys (actuator s) w1 (trace s ++ [EvGetResourcesPages input pages None])).
Proof.
  intros s pages w1 Hstatus input Hsearch. unfold lookupZoneIDs, findZoneIDsByTag. run.
  assert (Hnone : match Status_AWS (dnsZone (actuator s)) with
                  | Some st => match ZoneID st with Some id => [id] | None => [] end
                  | None => []
                  end = []).
  { destruct (Status_AWS (dnsZone (actuator s))) as [st |]; [| reflexivity].
    rewrite (Hstatus st eq_refl). reflexivity. }
  rewrite Hnone. cbn [length Nat.eqb]. fold input. rewrite Hsearch. reflexivity.
Qed.

Lemma last_map_Some :
  forall {A} (l : list A) (d : option A), l <> [] -> exists x, last (map Some l) d = Some x.
Proof.
  intros A l. induction l as [| x l IH]; intros d Hne; [congruence |].
  destruct l as [| y l].
  - exists x. reflexivity.
  - destruct (IH d) as [z Hz]; [discriminate |]. exists z. exact Hz.
Qed.

(** [Refresh] once the identifiers are known: their fetches, then the listing
    of the tags of the zone retained, if one is. *)
Lemma Refresh_run :
  forall (s s1 : Sys W) (zoneIDs : list string),
    lookupZoneIDs awsClient s = (Ok zoneIDs, s1) ->
    exists (answers : list (result HostedZone)) (tail : list Event),
      let res := Refresh awsClient Dotted s in
      let zones := matchingZones (Dotted (Spec_Zone (dnsZone (actuator s)))) answers in
      let start := match zoneIDs with
                   | [] => actuator s
                   | _ => set_hostedZone None (actuator s)
                   end in
      trace (snd res) = (trace s1 ++ fetchEvents zoneIDs answers ++ tail)%list /\
      length answers <= length zoneIDs /\
      hostedZone (actuator (snd res)) = hostedZone (fold_left resolve zones start) /\
      dnsZone (actuator (snd res)) = dnsZone (fold_left resolve zones start) /\
      ((Forall benign answers /\ length answers = length zoneIDs /\
        ((zones = [] /\ fst res = Ok tt /\ tail = [] /\ actuator (snd res) = start) \/
         (exists hz r,
             zones <> [] /\
             hostedZone (fold_left resolve zones start) = Some hz /\
             tail = [EvListTagsForResource (hz_Id hz) r] /\
             fst res = match r with inl _ => Ok tt | inr e => Fail e end))) \/
       (exists init err,
           answers = (init ++ [inr err])%list /\ Forall benign init /\
           isAwsCode ErrCodeNoSuchHostedZone err = false /\
           fst res = Fail err /\ tail = []) \/
       (exists init hz,
           answers = (init ++ [inl hz])%list /\ Forall benign init /\
           hz_Name hz = None /\ fst res = Panic /\ tail = [])).
Proof.
  intros s s1 zoneIDs Hlookup.
  assert (Hact1 : actuator s1 = actuator s).
  { pose proof (lookupZoneIDs_actuator s) as H. rewrite Hlookup in H. exact H. }
  unfold Refresh. rewrite bind_assoc_run, Hlookup.
  destruct zoneIDs as [| zoneID rest].
  - exists [], []. cbn. unfold fetchEvents. cbn. rewrite !app_nil_r, Hact1.
    repeat split; try reflexivity; try lia.
    left. split; [constructor | split; [reflexivity | left; repeat split; reflexivity]].
  - cbn [length Nat.eqb]. run.
    set (s2 := mkSys (set_hostedZone None (actuator s1)) (world s1) (trace s1)).
    destruct (refreshLoop_run awsClient Dotted (zoneID :: rest) s2)
      as (answers & Htr & Hlen & Hactr & Hres).
    cbn zeta in Htr, Hlen, Hactr, Hres.
    change (Spec_Zone (dnsZone (actuator s2))) with (Spec_Zone (dnsZone (actuator s1))) in Hactr.
    change (actuator s2) with (set_hostedZone None (actuator s1)) in Hactr.
    change (trace s2) with (trace s1) in Htr.
    rewrite Hact1 in Hactr.
    set (zones := matchingZones (Dotted (Spec_Zone (dnsZone (actuator s)))) answers) in *.
    destruct (refreshLoop awsClient Dotted (zoneID :: rest) s2) as [o s3].
    cbn [fst snd] in Htr, Hactr, Hres.
    destruct Hres as [(Hok & Hben & Hl) | [(init & err & Hi & Hben & Hc & Hf)
                                           | (init & hz & Hi & Hben & Hn & Hp)]].
    + subst o. cbn zeta.
      destruct (hostedZone (actuator s3)) as [hz |] eqn:Hhz.
      * unfold existingTags. run.
        destruct (ListTagsForResource awsClient (hz_Id hz) (world s3)) as [r w4].
        exists answers, [EvListTagsForResource (hz_Id hz) r].
        assert (Hne : zones <> []).
        { intros Hnil. rewrite Hactr, Hnil in Hhz. discriminate Hhz. }
        rewrite Hactr in Hhz.
        destruct r as [tags | err]; cbn [fst snd trace actuator set_currentHostedZoneTags
                                            hostedZone dnsZone]; rewrite Htr, Hactr.
        -- repeat split; try assumption; try (rewrite app_assoc; reflexivity).
           left. repeat split; try assumption. right. exists hz, (inl tags).
           repeat split; assumption.
        -- repeat split; try assumption; try (rewrite app_assoc; reflexivity).
           left. repeat split; try assumption. right. exists hz, (inr err).
           repeat split; assumption.
      * exists answers, []. cbn [fst snd]. rewrite Htr, Hactr, app_nil_r.
        assert (Hnil : zones = []).
        { destruct zones as [| z zs] eqn:Hz; [reflexivity |]. exfalso.
          rewrite Hactr, resolve_fold_hostedZone in Hhz.
          destruct (last_map_Some (z :: zs) (hostedZone (set_hostedZone None (actuator s))))
            as [x Hx]; [discriminate |].
          rewrite Hx in Hhz. discriminate Hhz. }
        repeat split; try assumption.
        left. repeat split; try assumption. left.
        unfold zones in Hnil |- *. rewrite Hnil. repeat split; reflexivity.
    + subst o. exists answers, []. cbn [fst snd]. rewrite Htr, Hactr, app_nil_r.
      repeat split; try assumption.
      right. left. exists init, err. repeat split; assumption.
    + subst o. exists answers, []. cbn [fst snd]. rewrite Htr, Hactr, app_nil_r.
      repeat split; try assumption.
      right. right. exists init, hz. repeat split; assumption.
Qed.

Lemma benign_last :
  forall init r, Forall benign (init ++ [r])%list -> benign r.
Proof.
  intros init r H. apply Forall_app in H. destruct H as [_ H]. inversion H; assumption.
Qed.

Lemma endsScan_benign :
  forall r : result HostedZone, endsScan r = false <-> benign r.
Proof.
  intros [hz | err]; cbn.
  - destruct (hz_Name hz); split; intros H; congruence.
  - rewrite negb_false_iff. reflexivity.
Qed.

(** The scan by the answers of the provider: all identifiers are fetched
    unless an answer ends the scan, and then that answer is the last. *)
Lemma scanFetches_shape :
  forall (zoneIDs : list string) (w : W),
    let answers := fst (scanFetches awsClient zoneIDs w) in
    length answers <= length zoneIDs /\
    ((Forall benign answers /\ length answers = length zoneIDs) \/
     (exists init r,
         answers = (init ++ [r])%list /\ Forall benign init /\ endsScan r = true)).
Proof.
  induction zoneIDs as [| zoneID rest IH]; intros w.
  - cbn. split; [lia | left; split; [constructor | reflexivity]].
  - cbn [scanFetches].
    destruct (GetHostedZone awsClient (Some zoneID) w) as [r w1].
    destruct (endsScan r) eqn:Hr.
    + cbn. split; [lia |]. right. exists [], r. repeat split; [constructor | exact Hr].
    + specialize (IH w1). cbn zeta in IH.
      destruct (scanFetches awsClient rest w1) as [answers w2]. cbn [fst] in *.
      destruct IH as [Hlen Hcases]. cbn [length]. split; [lia |].
      apply endsScan_benign in Hr.
      destruct Hcases as [(Hb & Hl) | (init & r' & Hi & Hb & He)].
      * left. split; [constructor; assumption | lia].
      * right. exists (r :: init), r'. rewrite Hi.
        repeat split; [constructor; assumption | exact He].
Qed.

(** The loop of [Refresh] makes the fetches of the scan and no other, leaves
    the provider as they left it, and has retained, one after the other, the
    fetched zones of the expected name; an answer that ends the scan decides
    its result. *)
Lemma refreshLoop_scan :
  forall (zoneIDs : list string) (s : Sys W),
    let scan := scanFetches awsClient zoneIDs (world s) in
    let dotted := Dotted (Spec_Zone (dnsZone (actuator s))) in
    refreshLoop awsClient Dotted zoneIDs s =
      (match find endsScan (fst scan) with
       | None => Ok tt
       | Some (inr err) => Fail err
       | Some (inl _) => Panic
       end,
       mkSys (fold_left resolve (matchingZones dotted (fst scan)) (actuator s))
             (snd scan)
             (trace s ++ fetchEvents zoneIDs (fst scan))).
Proof.
  induction zoneIDs as [| zoneID rest IH]; intros s.
  - cbn. unfold fetchEvents. cbn. rewrite app_nil_r. destruct s; reflexivity.
  - rewrite refreshLoop_step. cbn zeta. cbn [scanFetches].
    destruct (GetHostedZone awsClient (Some zoneID) (world s)) as [r w1].
    cbn [fst snd].
    assert (Hgo : forall a' : AWSActuator,
      Spec_Zone (dnsZone a') = Spec_Zone (dnsZone (actuator s)) ->
      endsScan r = false ->
      a' = fold_left resolve (matchingZones (Dotted (Spec_Zone (dnsZone (actuator s)))) [r])
             (actuator s) ->
      refreshLoop awsClient Dotted rest
        (mkSys a' w1 (trace s ++ [EvGetHostedZone (Some zoneID) r])) =
      (match find endsScan
               (fst (let (answers, w2) := scanFetches awsClient rest w1 in (r :: answers, w2))) with
       | None => Ok tt
       | Some (inr err) => Fail err
       | Some (inl _) => Panic
       end,
       mkSys (fold_left resolve
                (matchingZones (Dotted (Spec_Zone (dnsZone (actuator s))))
                   (fst (let (answers, w2) := scanFetches awsClient rest w1 in (r :: answers, w2))))
                (actuator s))
             (snd (let (answers, w2) := scanFetches awsClient rest w1 in (r :: answers, w2)))
             (trace s ++ fetchEvents (zoneID :: rest)
                           (fst (let (answers, w2) := scanFetches awsClient rest w1
                                 in (r :: answers, w2)))))).
    { intros a' Hzone Hr Ha'.
      rewrite (IH (mkSys a' w1 (trace s ++ [EvGetHostedZone (Some zoneID) r]))).
      cbn zeta. cbn [actuator world trace]. rewrite Hzone.
      destruct (scanFetches awsClient rest w1) as [answers w2]. cbn [fst snd find].
      rewrite Hr. f_equal. f_equal.
      - rewrite Ha'. unfold matchingZones. cbn [flat_map].
        rewrite app_nil_r, fold_left_app. reflexivity.
      - unfold fetchEvents. cbn [combine map fst snd]. rewrite <- app_assoc. reflexivity. }
    destruct r as [resp | err].
    + destruct (hz_Name resp) as [name |] eqn:Hname.
      * assert (Hr : endsScan (inl resp) = false) by (cbn; rewrite Hname; reflexivity).
        rewrite Hr.
        destruct (String.eqb name (Dotted (Spec_Zone (dnsZone (actuator s))))) eqn:Hmatch.
        -- apply Hgo; [reflexivity | exact Hr |].
           unfold matchingZones, nameMatches. cbn [flat_map]. rewrite Hname, Hmatch. reflexivity.
        -- apply Hgo; [reflexivity | exact Hr |].
           unfold matchingZones, nameMatches. cbn [flat_map]. rewrite Hname, Hmatch. reflexivity.
      * assert (Hr : endsScan (inl resp) = true) by (cbn; rewrite Hname; reflexivity).
        rewrite Hr. cbn [fst snd find]. rewrite Hr.
        unfold fetchEvents. cbn [combine map fst snd matchingZones flat_map].
        unfold nameMatches. rewrite Hname, combine_nil. cbn [app fold_left map]. reflexivity.
    + destruct (isAwsCode ErrCodeNoSuchHostedZone err) eqn:Hcode.
      * assert (Hr : endsScan (inr err : result HostedZone) = false)
          by (cbn; rewrite Hcode; reflexivity).
        rewrite Hr. apply Hgo; [reflexivity | exact Hr | reflexivity].
      * assert (Hr : endsScan (inr err : result HostedZone) = true)
          by (cbn; rewrite Hcode; reflexivity).
        rewrite Hr. cbn [fst snd find]. rewrite Hr.
        unfold fetchEvents. cbn [combine map fst snd matchingZones flat_map app fold_left].
        rewrite combine_nil. cbn [map]. reflexivity.
Qed.

Lemma find_endsScan :
  forall (answers : list (result HostedZone)),
    (Forall benign answers -> find endsScan answers = None) /\
    (forall init r, answers = (init ++ [r])%list -> Forall benign init -> endsScan r = true ->
                    find endsScan answers = Some r).
Proof.
  intros answers. split.
  - intros H. induction H as [| r rs Hr _ IH]; [reflexivity |].
    cbn [find]. apply endsScan_benign in Hr. rewrite Hr. exact IH.
  - intros init r Hi Hb He. subst answers.
    induction Hb as [| x xs Hx _ IH]; cbn [app find].
    + rewrite He. reflexivity.
    + apply endsScan_benign in Hx. rewrite Hx. exact IH.
Qed.

(** [Refresh] once the identifiers are known, by the answers of the provider:
    its fetches are those of the scan, then the listing of the tags of the
    zone retained, if one is. *)
Lemma Refresh_scan :
  forall (s s1 : Sys W) (zoneIDs : list string),
    lookupZoneIDs awsClient s = (Ok zoneIDs, s1) ->
    let answers := fst (scanFetches awsClient zoneIDs (world s1)) in
    exists tail : list Event,
      let res := Refresh awsClient Dotted s in
      let zones := matchingZones (Dotted (Spec_Zone (dnsZone (actuator s)))) answers in
      let start := match zoneIDs with
                   | [] => actuator s
                   | _ => set_hostedZone None (actuator s)
                   end in
      trace (snd res) = (trace s1 ++ fetchEvents zoneIDs answers ++ tail)%list /\
      length answers <= length zoneIDs /\
      hostedZone (actuator (snd res)) = hostedZone (fold_left resolve zones start) /\
      dnsZone (actuator (snd res)) = dnsZone (fold_left resolve zones start) /\
      ((Forall benign answers /\ length answers = length zoneIDs /\
        ((zones = [] /\ fst res = Ok tt /\ tail = [] /\ actuator (snd res) = start) \/
         (exists hz r,
             zones <> [] /\
             hostedZone (fold_left resolve zones start) = Some hz /\
             tail = [EvListTagsForResource (hz_Id hz) r] /\
             fst res = match r with inl _ => Ok tt | inr e => Fail e end /\
             r = fst (ListTagsForResource awsClient (hz_Id hz)
                        (snd (scanFetches awsClient zoneIDs (world s1))))))) \/
       (exists init err,
           answers = (init ++ [inr err])%list /\ Forall benign init /\
           isAwsCode ErrCodeNoSuchHostedZone err = false /\
           fst res = Fail err /\ tail = []) \/
       (exists init hz,
           answers = (init ++ [inl hz])%list /\ Forall benign init /\
           hz_Name hz = None /\ fst res = Panic /\ tail = [])).
Proof.
  intros s s1 zoneIDs Hlookup answers.
  assert (Hact1 : actuator s1 = actuator s).
  { pose proof (lookupZoneIDs_actuator s) as H. rewrite Hlookup in H. exact H. }
  unfold Refresh. rewrite bind_assoc_run, Hlookup.
  destruct zoneIDs as [| zoneID rest].
  - exists []. subst answers. cbn. unfold fetchEvents. cbn. rewrite !app_nil_r, Hact1.
    repeat split; try reflexivity; try lia.
    left. split; [constructor | split; [reflexivity | left; repeat split; reflexivity]].
  - cbn [length Nat.eqb]. run.
    set (s2 := mkSys (set_hostedZone None (actuator s1)) (world s1) (trace s1)).
    pose proof (refreshLoop_scan (zoneID :: rest) s2) as Hrun. cbn zeta in Hrun.
    change (world s2) with (world s1) in Hrun.
    change (Spec_Zone (dnsZone (actuator s2))) with (Spec_Zone (dnsZone (actuator s1))) in Hrun.
    change (actuator s2) with (set_hostedZone None (actuator s1)) in Hrun.
    change (trace s2) with (trace s1) in Hrun.
    rewrite Hact1 in Hrun. fold answers in Hrun.
    destruct (scanFetches_shape (zoneID :: rest) (world s1)) as [Hlen Hshape].
    cbn zeta in Hlen, Hshape. fold answers in Hlen, Hshape.
    destruct (find_endsScan answers) as [Hnone Hsome].
    set (zones := matchingZones (Dotted (Spec_Zone (dnsZone (actuator s)))) answers) in *.
    rewrite Hrun. clear Hrun.
    destruct Hshape as [(Hben & Hl) | (init & r & Hi & Hben & He)].
    + rewrite (Hnone Hben). cbn [actuator world trace].
      destruct (hostedZone (fold_left resolve zones (set_hostedZone None (actuator s))))
        as [hz |] eqn:Hhz.
      * unfold existingTags. run.
        destruct (ListTagsForResource awsClient (hz_Id hz)
                    (snd (scanFetches awsClient (zoneID :: rest) (world s1)))) as [rt w4] eqn:Hlist.
        exists [EvListTagsForResource (hz_Id hz) rt].
        assert (Hne : zones <> []).
        { intros Hnil. rewrite Hnil in Hhz. discriminate Hhz. }
        destruct rt as [tags | err]; cbn [fst snd trace actuator set_currentHostedZoneTags
                                            hostedZone dnsZone].
        -- repeat split; try assumption; try (rewrite app_assoc; reflexivity).
           left. repeat split; try assumption. right. exists hz, (inl tags).
           repeat split; try assumption; try reflexivity;
             try (rewrite Hlist; reflexivity).
        -- repeat split; try assumption; try (rewrite app_assoc; reflexivity).
           left. repeat split; try assumption. right. exists hz, (inr err).
           repeat split; try assumption; try reflexivity;
             try (rewrite Hlist; reflexivity).
      * exists []. cbn [fst snd trace actuator]. rewrite app_nil_r.
        assert (Hnil : zones = []).
        { destruct zones as [| z zs] eqn:Hz; [reflexivity |]. exfalso.
          rewrite resolve_fold_hostedZone in Hhz.
          destruct (last_map_Some (z :: zs) (hostedZone (set_hostedZone None (actuator s))))
            as [x Hx]; [discriminate |].
          rewrite Hx in Hhz. discriminate Hhz. }
        repeat split; try assumption.
        left. repeat split; try assumption. left.
        unfold zones in Hnil |- *. rewrite Hnil. repeat split; reflexivity.
    + rewrite (Hsome init r Hi Hben He).
      destruct r as [hz | err].
      * exists []. cbn [fst snd trace actuator]. rewrite app_nil_r.
        repeat split; try assumption.
        right. right. exists init, hz. repeat split; try assumption.
        cbn in He. destruct (hz_Name hz); [discriminate He | reflexivity].
      * exists []. cbn [fst snd trace actuator]. rewrite app_nil_r.
        repeat split; try assumption.
        right. left. exists init, err. repeat split; try assumption.
        cbn in He. apply negb_true_iff in He. exact He.
Qed.

(** C8: [Refresh], once it has the identifiers to fetch. Its fetches are
    those of the identifiers in order, answered by the provider one after the
    other, and nothing follows them but the listing of the tags of a zone that
    was retained. The not-found error for one identifier does not end the
    scan: the next identifier is fetched, and the not-found error is never the
    error [Refresh] returns for a fetch. Any other error of a fetch ends
    [Refresh] with that error, and the failed fetch is its last call. When
    every fetch is answered by the not-found error or by a zone of another
    name, all identifiers are fetched and [Refresh] returns success after the
    last fetch, the cached zone unset (as it was, when there was no identifier
    to fetch). *)
Theorem Refresh_skips_missing_candidates :
  forall (s s1 : Sys W) (zoneIDs : list string),
    lookupZoneIDs awsClient s = (Ok zoneIDs, s1) ->
    let res := Refresh awsClient Dotted s in
    let dotted := Dotted (Spec_Zone (dnsZone (actuator s))) in
    let answers := fst (scanFetches awsClient zoneIDs (world s1)) in
    exists tail : list Event,
      trace (snd res) = (trace s1 ++ fetchEvents zoneIDs answers ++ tail)%list /\
      (tail = [] \/
       exists hz,
         hostedZone (actuator (snd res)) = Some hz /\
         tail = [EvListTagsForResource (hz_Id hz)
                   (fst (ListTagsForResource awsClient (hz_Id hz)
                           (snd (scanFetches awsClient zoneIDs (world s1)))))]) /\
      length answers <= length zoneIDs /\
      (forall k err,
          nth_error answers k = Some (inr err) ->
          isAwsCode ErrCodeNoSuchHostedZone err = true ->
          S k < length zoneIDs -> S k < length answers) /\
      (forall err,
          In (inr err) answers ->
          isAwsCode ErrCodeNoSuchHostedZone err = false ->
          fst res = Fail err /\ tail = [] /\ exists init, answers = (init ++ [inr err])%list) /\
      (forall err,
          fst res = Fail err ->
          (In (inr err) answers /\ isAwsCode ErrCodeNoSuchHostedZone err = false) \/
          exists hz, tail = [EvListTagsForResource (hz_Id hz) (inr err)]) /\
      (Forall (fun r => match r with
                        | inl hz => hz_Name hz <> None /\ nameMatches dotted hz = false
                        | inr err => isAwsCode ErrCodeNoSuchHostedZone err = true
                        end) answers ->
       fst res = Ok tt /\ length answers = length zoneIDs /\ tail = [] /\
       actuator (snd res) = match zoneIDs with
                            | [] => actuator s
                            | _ => set_hostedZone None (actuator s)
                            end /\
       (zoneIDs <> [] \/ hostedZone (actuator s) = None ->
        hostedZone (actuator (snd res)) = None)).
Proof.
  intros s s1 zoneIDs Hlookup res dotted answers. subst res dotted.
  destruct (Refresh_scan s s1 zoneIDs Hlookup) as (tail & Htr & Hlen & Hhz & Hdz & Hres).
  fold answers in Htr, Hlen, Hhz, Hdz, Hres.
  exists tail. cbn zeta in *.
  split; [exact Htr |].
  split.
  { destruct Hres as [(_ & _ & [(_ & _ & Ht & _) | (hz & r & _ & Hz & Ht & _ & Hr)])
                     | [(init & err & _ & _ & _ & _ & Ht) | (init & hz & _ & _ & _ & _ & Ht)]].
    - left. exact Ht.
    - right. exists hz. split; [rewrite Hhz; exact Hz | rewrite Ht, Hr; reflexivity].
    - left. exact Ht.
    - left. exact Ht. }
  split; [exact Hlen |].
  split; [| split; [| split]].
  - intros k err Hk Hcode Hnext.
    destruct Hres as [(Hben & Hl & _) | [(init & err' & Hi & Hben & Hc & _)
                                         | (init & hz & Hi & Hben & Hn & _)]].
    + lia.
    + rewrite Hi in Hk |- *. rewrite length_app. cbn [length].
      destruct (Nat.lt_ge_cases k (length init)) as [Hlt | Hge]; [lia |].
      exfalso. rewrite nth_error_app2 in Hk by exact Hge.
      destruct (k - length init) as [| j]; cbn in Hk.
      * inversion Hk; subst err'. congruence.
      * destruct j; discriminate Hk.
    + rewrite Hi in Hk |- *. rewrite length_app. cbn [length].
      destruct (Nat.lt_ge_cases k (length init)) as [Hlt | Hge]; [lia |].
      exfalso. rewrite nth_error_app2 in Hk by exact Hge.
      destruct (k - length init) as [| j]; cbn in Hk; [discriminate Hk |].
      destruct j; discriminate Hk.
  - intros err Hin Hcode.
    destruct Hres as [(Hben & _) | [(init & err' & Hi & Hben & Hc & Hf & Ht)
                                    | (init & hz & Hi & Hben & Hn & _)]].
    + exfalso. rewrite Forall_forall in Hben. specialize (Hben _ Hin). cbn in Hben. congruence.
    + rewrite Hi in Hin. apply in_app_or in Hin. destruct Hin as [Hin | [Heq | []]].
      * exfalso. rewrite Forall_forall in Hben. specialize (Hben _ Hin). cbn in Hben. congruence.
      * inversion Heq; subst err'. repeat split; try assumption. exists init. exact Hi.
    + rewrite Hi in Hin. apply in_app_or in Hin. destruct Hin as [Hin | [Heq | []]].
      * exfalso. rewrite Forall_forall in Hben. specialize (Hben _ Hin). cbn in Hben. congruence.
      * discriminate Heq.
  - intros err Hfail.
    destruct Hres as [(_ & _ & [(_ & Hok & _) | (hz & r & _ & _ & Ht & Hf & _)])
                     | [(init & err' & Hi & _ & Hc & Hf & _) | (init & hz & _ & _ & _ & Hp & _)]].
    + rewrite Hok in Hfail. discriminate Hfail.
    + right. exists hz. rewrite Hf in Hfail. destruct r as [tags | e]; [discriminate Hfail |].
      inversion Hfail; subst e. exact Ht.
    + left. rewrite Hf in Hfail. inversion Hfail; subst err'.
      split; [rewrite Hi; apply in_or_app; right; left; reflexivity | exact Hc].
    + rewrite Hp in Hfail. discriminate Hfail.
  - intros Hnone.
    assert (Hzones : matchingZones (Dotted (Spec_Zone (dnsZone (actuator s)))) answers = []).
    { clear - Hnone. induction Hnone as [| r rs Hr _ IH]; [reflexivity |].
      unfold matchingZones. cbn [flat_map].
      fold (matchingZones (Dotted (Spec_Zone (dnsZone (actuator s)))) rs).
      rewrite IH. destruct r as [hz | err]; [| reflexivity].
      destruct Hr as [_ Hr]. rewrite Hr. reflexivity. }
    assert (Hbenign : Forall benign answers).
    { eapply Forall_impl; [| exact Hnone]. intros r Hr. destruct r as [hz | err]; cbn.
      - destruct Hr as [Hr _]. exact Hr.
      - exact Hr. }
    destruct Hres as [(Hben & Hl & [(Hz & Hok & Ht & Ha) | (hz & r & Hne & _)])
                     | [(init & err' & Hi & _ & Hc & _) | (init & hz & Hi & _ & Hn & _)]].
    + repeat split; try assumption.
      intros Hpre. rewrite Ha. destruct zoneIDs as [| z zs].
      * destruct Hpre as [Hpre | Hpre]; [congruence | exact Hpre].
      * reflexivity.
    + congruence.
    + exfalso. rewrite Hi in Hbenign. apply benign_last in Hbenign. cbn in Hbenign. congruence.
    + exfalso. rewrite Hi in Hbenign. apply benign_last in Hbenign. cbn in Hbenign. congruence.
Qed.

(** C9: [Refresh] with identifiers to fetch. Its fetches are those of the
    identifiers in the order they were collected, answered by the provider
    one after the other, and nothing follows them but the listing of the tags
    of the zone retained. A zone that is fetched, of the expected name or
    not, does not end the scan: the next identifier is fetched, and when no
    fetch fails but by the not-found error every identifier is fetched. The
    zone left in the cache is the last fetched zone of the expected name (none
    when there is none), and its identifier is the one written to the
    status. *)
Theorem Refresh_last_match_wins :
  forall (s s1 : Sys W) (zoneIDs : list string),
    lookupZoneIDs awsClient s = (Ok zoneIDs, s1) ->
    zoneIDs <> [] ->
    let res := Refresh awsClient Dotted s in
    let answers := fst (scanFetches awsClient zoneIDs (world s1)) in
    let zones := matchingZones (Dotted (Spec_Zone (dnsZone (actuator s)))) answers in
    exists tail : list Event,
      trace (snd res) = (trace s1 ++ fetchEvents zoneIDs answers ++ tail)%list /\
      (tail = [] \/
       exists hz,
         hostedZone (actuator (snd res)) = Some hz /\
         tail = [EvListTagsForResource (hz_Id hz)
                   (fst (ListTagsForResource awsClient (hz_Id hz)
                           (snd (scanFetches awsClient zoneIDs (world s1)))))]) /\
      (forall k hz,
          nth_error answers k = Some (inl hz) ->
          hz_Name hz <> None ->
          S k < length zoneIDs -> S k < length answers) /\
      (Forall benign answers -> length answers = length zoneIDs) /\
      hostedZone (actuator (snd res)) = last (map Some zones) None /\
      (forall hz,
          hostedZone (actuator (snd res)) = Some hz ->
          Status_AWS (dnsZone (actuator (snd res))) = Some (mkAWSDNSZoneStatus (hz_Id hz))).
Proof.
  intros s s1 zoneIDs Hlookup Hne res answers zones. subst res zones.
  destruct (Refresh_scan s s1 zoneIDs Hlookup) as (tail & Htr & Hlen & Hhz & Hdz & Hres).
  fold answers in Htr, Hlen, Hhz, Hdz, Hres.
  exists tail. cbn zeta in *.
  destruct zoneIDs as [| zoneID rest]; [congruence |].
  split; [exact Htr |].
  split.
  { destruct Hres as [(_ & _ & [(_ & _ & Ht & _) | (hz & r & _ & Hz & Ht & _ & Hr)])
                     | [(init & err & _ & _ & _ & _ & Ht) | (init & hz & _ & _ & _ & _ & Ht)]].
    - left. exact Ht.
    - right. exists hz. split; [rewrite Hhz; exact Hz | rewrite Ht, Hr; reflexivity].
    - left. exact Ht.
    - left. exact Ht. }
  split; [| split; [| split]].
  - intros k hz Hk Hname Hnext.
    destruct Hres as [(Hben & Hl & _) | [(init & err' & Hi & Hben & Hc & _)
                                         | (init & hz' & Hi & Hben & Hn & _)]].
    + lia.
    + rewrite Hi in Hk |- *. rewrite length_app. cbn [length].
      destruct (Nat.lt_ge_cases k (length init)) as [Hlt | Hge]; [lia |].
      exfalso. rewrite nth_error_app2 in Hk by exact Hge.
      destruct (k - length init) as [| j]; cbn in Hk; [discriminate Hk |].
      destruct j; discriminate Hk.
    + rewrite Hi in Hk |- *. rewrite length_app. cbn [length].
      destruct (Nat.lt_ge_cases k (length init)) as [Hlt | Hge]; [lia |].
      exfalso. rewrite nth_error_app2 in Hk by exact Hge.
      destruct (k - length init) as [| j]; cbn in Hk.
      * inversion Hk; subst hz'. congruence.
      * destruct j; discriminate Hk.
  - intros Hbenign.
    destruct Hres as [(_ & Hl & _) | [(init & err & Hi & _ & Hc & _) | (init & hz & Hi & _ & Hn & _)]].
    + exact Hl.
    + exfalso. rewrite Hi in Hbenign. apply benign_last in Hbenign. cbn in Hbenign. congruence.
    + exfalso. rewrite Hi in Hbenign. apply benign_last in Hbenign. cbn in Hbenign. congruence.
  - rewrite Hhz, resolve_fold_hostedZone. reflexivity.
  - intros hz Hsome. rewrite Hdz. rewrite Hhz in Hsome.
    apply resolve_fold_status; [| exact Hsome].
    intros Hnil. rewrite Hnil in Hsome. discriminate Hsome.
Qed.

End RefreshClaims.

(** ** The record sweep *)

Lemma isProtected_iff :
  forall dotted recordSet,
    isProtected dotted recordSet = true <->
    StringValue (rrs_Name recordSet) = dotted /\
    (StringValue (rrs_Type recordSet) = "NS" \/ StringValue (rrs_Type recordSet) = "SOA").
Proof.
  intros dotted recordSet. unfold isProtected, RRTypeNs, RRTypeSoa.
  rewrite andb_true_iff, orb_true_iff, !String.eqb_eq. reflexivity.
Qed.

(** The changes of a page: a deletion for each record set that is not
    protected, in the order of the page. *)
Lemma recordSetChanges_filter :
  forall dotted recordSets,
    recordSetChanges dotted recordSets =
    map (mkChange (Some "DELETE"))
        (filter (fun recordSet => negb (isProtected dotted recordSet)) recordSets).
Proof.
  intros dotted recordSets. induction recordSets as [| recordSet rest IH]; [reflexivity |].
  cbn [recordSetChanges filter]. destruct (isProtected dotted recordSet); cbn [negb map].
  - exact IH.
  - rewrite IH. reflexivity.
Qed.

Lemma recordSetChanges_safe :
  forall dotted recordSets change,
    In change (recordSetChanges dotted recordSets) ->
    chg_Action change = Some "DELETE" /\
    In (chg_ResourceRecordSet change) recordSets /\
    isProtected dotted (chg_ResourceRecordSet change) = false.
Proof.
  intros dotted recordSets change Hin. rewrite recordSetChanges_filter in Hin.
  apply in_map_iff in Hin. destruct Hin as (recordSet & Heq & Hin).
  apply filter_In in Hin. destruct Hin as [Hin Hprot]. subst change. cbn.
  apply negb_true_iff in Hprot. repeat split; assumption.
Qed.

Section Sweep.

Context {W : Type}.
Variable awsClient : Client W.
Variable Dotted : string -> string.

(** One round of the sweep. *)
Lemma deleteRecordSetsLoop_step :
  forall fuel z zoneID listInput (s : Sys W),
    deleteRecordSetsLoop awsClient Dotted (S fuel) z zoneID listInput s =
    let listing := ListResourceRecordSets awsClient listInput (world s) in
    let s1 := mkSys (actuator s) (snd listing)
                (trace s ++ [EvListResourceRecordSets listInput (fst listing)]) in
    match fst listing with
    | inr err => (Fail err, s1)
    | inl listOutput =>
        let changes := recordSetChanges (Dotted (Spec_Zone z)) (lro_ResourceRecordSets listOutput) in
        let change := ChangeResourceRecordSets awsClient zoneID changes (snd listing) in
        let s2 := match changes with
                  | [] => s1
                  | _ => mkSys (actuator s) (snd change)
                           (trace s1 ++ [EvChangeResourceRecordSets zoneID changes (fst change)])
                  end in
        match changes, fst change with
        | _ :: _, inr err => (Fail err, s2)
        | _, _ =>
            if BoolValue (lro_IsTruncated listOutput)
            then deleteRecordSetsLoop awsClient Dotted fuel z zoneID
                   (nextListInput listInput listOutput) s2
            else (Ok tt, s2)
        end
    end.
Proof.
  intros fuel z zoneID listInput s. cbn [deleteRecordSetsLoop]. run.
  destruct (ListResourceRecordSets awsClient listInput (world s)) as [r w1]. cbn [fst snd].
  destruct r as [listOutput | err]; [| reflexivity].
  cbn zeta.
  destruct (recordSetChanges (Dotted (Spec_Zone z)) (lro_ResourceRecordSets listOutput))
    as [| change changes] eqn:Hchanges.
  - cbn [length Nat.ltb Nat.leb]. cbn.
    destruct (BoolValue (lro_IsTruncated listOutput)); reflexivity.
  - cbn [length]. change (0 <? S (length changes))%nat with true. cbn iota. cbn [world trace actuator].
    destruct (ChangeResourceRecordSets awsClient zoneID (change :: changes) w1) as [r' w2].
    cbn [fst snd]. destruct r' as [u | err]; [| reflexivity].
    destruct (BoolValue (lro_IsTruncated listOutput)); reflexivity.
Qed.

(** The sweep, by its calls: round after round from the cursor of the page
    before, as long as the pages are truncated; it ends in success at the
    first page that is not, and in failure at the first call that fails. *)
Lemma deleteRecordSetsLoop_run :
  forall fuel z zoneID listInput (s : Sys W),
    exists (pages : list ListResourceRecordSetsOutput) (last : list Event),
      let res := deleteRecordSetsLoop awsClient Dotted fuel z zoneID listInput s in
      let dotted := Dotted (Spec_Zone z) in
      trace (snd res) = (trace s ++ sweepEvents zoneID dotted listInput pages ++ last)%list /\
      actuator (snd res) = actuator s /\
      ((fst res = Ok tt /\ last = [] /\
        exists init page, pages = (init ++ [page])%list /\ Forall truncated init /\ ~ truncated page) \/
       (exists err,
           fst res = Fail err /\ Forall truncated pages /\
           (last = [EvListResourceRecordSets (cursorAfter listInput pages) (inr err)] \/
            exists page,
              recordSetChanges dotted (lro_ResourceRecordSets page) <> [] /\
              last = [EvListResourceRecordSets (cursorAfter listInput pages) (inl page);
                      EvChangeResourceRecordSets zoneID
                        (recordSetChanges dotted (lro_ResourceRecordSets page)) (inr err)])) \/
       (fst res = OutOfFuel /\ last = [] /\ Forall truncated pages /\ length pages = fuel)).
Proof.
  induction fuel as [| fuel IH]; intros z zoneID listInput s.
  - exists [], []. cbn. rewrite app_nil_r. repeat split.
    right. right. repeat split. constructor.
  - rewrite deleteRecordSetsLoop_step. cbn zeta.
    destruct (ListResourceRecordSets awsClient listInput (world s)) as [r w1]. cbn [fst snd].
    destruct r as [page | err].
    + set (dotted := Dotted (Spec_Zone z)).
      set (changes := recordSetChanges dotted (lro_ResourceRecordSets page)).
      assert (Hround :
        forall s2 : Sys W,
          trace s2 = (trace s ++ roundEvents zoneID dotted listInput page (inl tt))%list ->
          actuator s2 = actuator s ->
          exists (pages : list ListResourceRecordSetsOutput) (last : list Event),
            let res := if BoolValue (lro_IsTruncated page)
                       then deleteRecordSetsLoop awsClient Dotted fuel z zoneID
                              (nextListInput listInput page) s2
                       else (Ok tt, s2) in
            trace (snd res) = (trace s ++ sweepEvents zoneID dotted listInput pages ++ last)%list /\
            actuator (snd res) = actuator s /\
            ((fst res = Ok tt /\ last = [] /\
              exists init page', pages = (init ++ [page'])%list /\ Forall truncated init /\
                                 ~ truncated page') \/
             (exists err,
                 fst res = Fail err /\ Forall truncated pages /\
                 (last = [EvListResourceRecordSets (cursorAfter listInput pages) (inr err)] \/
                  exists page',
                    recordSetChanges dotted (lro_ResourceRecordSets page') <> [] /\
                    last = [EvListResourceRecordSets (cursorAfter listInput pages) (inl page');
                            EvChangeResourceRecordSets zoneID
                              (recordSetChanges dotted (lro_ResourceRecordSets page')) (inr err)])) \/
             (fst res = OutOfFuel /\ last = [] /\ Forall truncated pages /\ length pages = S fuel))).
      { intros s2 Htr2 Hact2.
        destruct (BoolValue (lro_IsTruncated page)) eqn:Htrunc.
        - destruct (IH z zoneID (nextListInput listInput page) s2)
            as (pages & last & Htr & Hact & Hres).
          cbn zeta in Htr, Hact, Hres. fold dotted in Htr, Hres.
          exists (page :: pages), last. cbn zeta.
          split; [| split].
          + rewrite Htr, Htr2. cbn [sweepEvents]. rewrite <- !app_assoc. reflexivity.
          + rewrite Hact. exact Hact2.
          + destruct Hres as [(Hok & Hlast & init & page' & Hp & Hinit & Hnot)
                             | [(err & Hf & Hall & Hlast) | (Hout & Hlast & Hall & Hlen)]].
            * left. repeat split; try assumption. exists (page :: init), page'.
              rewrite Hp. repeat split; try assumption. constructor; assumption.
            * right. left. exists err. split; [exact Hf |].
              split; [constructor; assumption |]. exact Hlast.
            * right. right. repeat split; try assumption.
              -- constructor; assumption.
              -- cbn [length]. rewrite Hlen. reflexivity.
        - exists [page], []. cbn zeta. cbn [fst snd sweepEvents].
          rewrite !app_nil_r. split; [exact Htr2 | split; [exact Hact2 |]].
          left. repeat split. exists [], page. repeat split; [constructor |].
          unfold truncated. rewrite Htrunc. discriminate. }
      destruct changes as [| change rest] eqn:Hchanges.
      * apply Hround; [| reflexivity]. unfold roundEvents. fold changes. rewrite Hchanges.
        reflexivity.
      * destruct (ChangeResourceRecordSets awsClient zoneID (change :: rest) w1) as [r' w2].
        cbn [fst snd]. destruct r' as [u | err].
        -- destruct u. apply Hround; [| reflexivity]. unfold roundEvents. fold changes.
           rewrite Hchanges. cbn [trace]. rewrite <- app_assoc. reflexivity.
        -- exists [], [EvListResourceRecordSets listInput (inl page);
                      EvChangeResourceRecordSets zoneID (change :: rest) (inr err)].
           cbn zeta. cbn [fst snd trace actuator sweepEvents app].
           split; [rewrite <- app_assoc; reflexivity | split; [reflexivity |]].
           right. left. exists err. repeat split; [constructor |].
           right. exists page. fold dotted. fold changes. rewrite Hchanges.
           split; [discriminate | reflexivity].
    + exists [], [EvListResourceRecordSets listInput (inr err)]. cbn.
      repeat split. right. left. exists err. repeat split; [constructor |]. left. reflexivity.
Qed.

(** The sweep ends within the fuel when the provider's listing is finite:
    when something of its state decreases with every truncated page. *)
Lemma deleteRecordSetsLoop_ends :
  forall (rank : W -> nat),
    (forall listInput w listOutput w',
        ListResourceRecordSets awsClient listInput w = (inl listOutput, w') ->
        truncated listOutput -> rank w' < rank w) ->
    (forall zoneID changes w, rank (snd (ChangeResourceRecordSets awsClient zoneID changes w)) <= rank w) ->
    forall fuel z zoneID listInput (s : Sys W),
      rank (world s) < fuel ->
      fst (deleteRecordSetsLoop awsClient Dotted fuel z zoneID listInput s) <> OutOfFuel.
Proof.
  intros rank Hlist Hchange. induction fuel as [| fuel IH]; intros z zoneID listInput s Hrank.
  - lia.
  - rewrite deleteRecordSetsLoop_step. cbn zeta.
    destruct (ListResourceRecordSets awsClient listInput (world s)) as [r w1] eqn:Hl.
    cbn [fst snd]. destruct r as [page | err]; [| discriminate].
    destruct (BoolValue (lro_IsTruncated page)) eqn:Htrunc.
    + specialize (Hlist _ _ _ _ Hl Htrunc).
      destruct (recordSetChanges (Dotted (Spec_Zone z)) (lro_ResourceRecordSets page))
        as [| change rest].
      * apply IH. cbn [world]. lia.
      * pose proof (Hchange zoneID (change :: rest) w1) as Hc.
        destruct (ChangeResourceRecordSets awsClient zoneID (change :: rest) w1) as [r' w2].
        cbn [fst snd] in *. destruct r' as [u | err]; [| discriminate].
        apply IH. cbn [world]. lia.
    + destruct (recordSetChanges (Dotted (Spec_Zone z)) (lro_ResourceRecordSets page))
        as [| change rest]; [discriminate |].
      destruct (fst (ChangeResourceRecordSets awsClient zoneID (change :: rest) w1));
        discriminate.
Qed.

Lemma sweepEvents_batches :
  forall zoneID dotted pages listInput batch,
    In batch (deletionBatches (sweepEvents zoneID dotted listInput pages)) ->
    exists page, In page pages /\ batch = recordSetChanges dotted (lro_ResourceRecordSets page).
Proof.
  intros zoneID dotted pages. induction pages as [| page rest IH]; intros listInput batch Hin.
  - destruct Hin.
  - cbn [sweepEvents] in Hin. unfold deletionBatches in Hin. rewrite flat_map_app in Hin.
    apply in_app_or in Hin. destruct Hin as [Hin | Hin].
    + unfold roundEvents in Hin. cbn [flat_map app] in Hin.
      destruct (recordSetChanges dotted (lro_ResourceRecordSets page)) as [| c cs] eqn:Hc.
      * destruct Hin.
      * cbn in Hin. destruct Hin as [Heq | []]. exists page. split; [left; reflexivity |].
        rewrite Hc. symmetry. exact Heq.
    + destruct (IH _ _ Hin) as (page' & Hp & Hb). exists page'. split; [right; exact Hp | exact Hb].
Qed.

(** C4: the sweep of [DeleteAWSRecordSets] for a zone whose status has its
    identifier. A record set is left out exactly when its name is the dotted
    domain and its type NS or SOA; the deletions of a page are all its other
    record sets, in one change. The calls are rounds, each listing from the
    cursor fields of the page before (the first from no cursor) and submitting
    the change of its page before the next listing; the sweep succeeds at the
    first page that is not truncated, fails with the error of the first call
    that fails, and does not stop otherwise. No protected record set is in
    any deletion batch. The rounds are as many as the provider has truncated
    pages: with a finite listing the sweep returns. *)
Theorem DeleteAWSRecordSets_sweeps_all_pages :
  forall (fuel : nat) (z : DNSZone) (st : AWSDNSZoneStatus) (s : Sys W),
    Status_AWS z = Some st ->
    let dotted := Dotted (Spec_Zone z) in
    let first := mkListResourceRecordSetsInput (ZoneID st) (Some "100") None None None in
    let res := DeleteAWSRecordSets awsClient Dotted fuel z s in
    (forall recordSet,
        isProtected dotted recordSet = true <->
        StringValue (rrs_Name recordSet) = dotted /\
        (StringValue (rrs_Type recordSet) = "NS" \/ StringValue (rrs_Type recordSet) = "SOA")) /\
    (forall recordSets,
        recordSetChanges dotted recordSets =
        map (mkChange (Some "DELETE"))
            (filter (fun recordSet => negb (isProtected dotted recordSet)) recordSets)) /\
    (exists (pages : list ListResourceRecordSetsOutput) (last : list Event),
        trace (snd res) = (trace s ++ sweepEvents (ZoneID st) dotted first pages ++ last)%list /\
        ((fst res = Ok tt /\ last = [] /\
          exists init page,
            pages = (init ++ [page])%list /\ Forall truncated init /\ ~ truncated page) \/
         (exists err,
             fst res = Fail err /\ Forall truncated pages /\
             (last = [EvListResourceRecordSets (cursorAfter first pages) (inr err)] \/
              exists page,
                recordSetChanges dotted (lro_ResourceRecordSets page) <> [] /\
                last = [EvListResourceRecordSets (cursorAfter first pages) (inl page);
                        EvChangeResourceRecordSets (ZoneID st)
                          (recordSetChanges dotted (lro_ResourceRecordSets page)) (inr err)])) \/
         (fst res = OutOfFuel /\ last = [] /\ Forall truncated pages /\ length pages = fuel))) /\
    (exists events : list Event,
        trace (snd res) = (trace s ++ events)%list /\
        forall batch change,
          In batch (deletionBatches events) -> In change batch ->
          chg_Action change = Some "DELETE" /\
          isProtected dotted (chg_ResourceRecordSet change) = false) /\
    (forall rank : W -> nat,
        (forall listInput w listOutput w',
            ListResourceRecordSets awsClient listInput w = (inl listOutput, w') ->
            truncated listOutput -> rank w' < rank w) ->
        (forall zoneID changes w,
            rank (snd (ChangeResourceRecordSets awsClient zoneID changes w)) <= rank w) ->
        rank (world s) < fuel ->
        fst res <> OutOfFuel).
Proof.
  intros fuel z st s Hst dotted first res.
  split; [intros recordSet; apply isProtected_iff |].
  split; [intros recordSets; apply recordSetChanges_filter |].
  assert (Hres : res = deleteRecordSetsLoop awsClient Dotted fuel z (ZoneID st) first s).
  { unfold res, DeleteAWSRecordSets. rewrite Hst. reflexivity. }
  destruct (deleteRecordSetsLoop_run fuel z (ZoneID st) first s)
    as (pages & last & Htr & Hact & Hcases).
  cbn zeta in Htr, Hcases. fold dotted in Htr, Hcases. rewrite <- Hres in Htr, Hcases.
  split; [| split].
  - exists pages, last. split; [exact Htr | exact Hcases].
  - exists (sweepEvents (ZoneID st) dotted first pages ++ last)%list.
    split; [exact Htr |]. intros batch change Hbatch Hchange.
    assert (Hpage : exists recordSets, batch = recordSetChanges dotted recordSets).
    { unfold deletionBatches in Hbatch. rewrite flat_map_app in Hbatch.
      apply in_app_or in Hbatch. destruct Hbatch as [Hb | Hb].
      - destruct (sweepEvents_batches _ _ _ _ _ Hb) as (page & _ & Heq).
        exists (lro_ResourceRecordSets page). exact Heq.
      - destruct Hcases as [(_ & Hl & _) | [(err & _ & _ & [Hl | (page & _ & Hl)])
                                            | (_ & Hl & _)]];
          rewrite Hl in Hb; cbn in Hb; try contradiction.
        destruct Hb as [Heq | []]. exists (lro_ResourceRecordSets page). symmetry. exact Heq. }
    destruct Hpage as (recordSets & Heq). subst batch.
    destruct (recordSetChanges_safe _ _ _ Hchange) as (Ha & _ & Hp). split; assumption.
  - intros rank Hlist Hchange Hrank. rewrite Hres.
    apply (deleteRecordSetsLoop_ends rank Hlist Hchange). exact Hrank.
Qed.

End Sweep.

(** ** Creation *)

(** What the scan of listed zones comes to: the first zone with the caller
    reference, when only zones of the domain precede it; not found, at the
    first zone of another name (and another caller reference), when only
    zones of the domain precede it; neither, when all are zones of the domain
    with other caller references. *)
Lemma scanZones_spec :
  forall domain callerRef zones,
    match scanZones domain callerRef zones with
    | Some (inl zone) =>
        exists before after,
          zones = (before ++ zone :: after)%list /\
          Forall (passedZone domain callerRef) before /\
          StringValue (hz_CallerReference zone) = callerRef
    | Some (inr e) =>
        e = notFound /\
        exists before zone after,
          zones = (before ++ zone :: after)%list /\
          Forall (passedZone domain callerRef) before /\
          StringValue (hz_CallerReference zone) <> callerRef /\
          StringValue (hz_Name zone) <> domain
    | None => Forall (passedZone domain callerRef) zones
    end.
Proof.
  intros domain callerRef zones. induction zones as [| zone rest IH].
  - cbn. constructor.
  - cbn [scanZones].
    destruct (String.eqb (StringValue (hz_CallerReference zone)) callerRef) eqn:Href.
    + apply String.eqb_eq in Href. exists [], rest. repeat split; [constructor | exact Href].
    + apply String.eqb_neq in Href.
      destruct (String.eqb (StringValue (hz_Name zone)) domain) eqn:Hname; cbn [negb].
      * apply String.eqb_eq in Hname.
        assert (Hpassed : passedZone domain callerRef zone) by (split; assumption).
        destruct (scanZones domain callerRef rest) as [[found | e] |].
        -- destruct IH as (before & after & Hz & Hb & Hr).
           exists (zone :: before), after. rewrite Hz.
           repeat split; [constructor; assumption | exact Hr].
        -- destruct IH as (He & before & other & after & Hz & Hb & Hr & Hn).
           split; [exact He |]. exists (zone :: before), other, after. rewrite Hz.
           repeat split; try assumption. constructor; assumption.
        -- constructor; assumption.
      * apply String.eqb_neq in Hname. split; [reflexivity |].
        exists [], zone, rest. repeat split; try assumption. constructor.
Qed.

Lemma createCalls_listingEvents :
  forall pages input, createCalls (listingEvents input pages) = [].
Proof.
  induction pages as [| resp rest IH]; intros input; [reflexivity |].
  cbn [listingEvents]. unfold createCalls. cbn [flat_map app]. apply IH.
Qed.

Lemma createCalls_tagEvents :
  forall inputs answers, createCalls (tagEvents inputs answers) = [].
Proof.
  intros inputs answers. unfold tagEvents, createCalls.
  induction (combine inputs answers) as [| p l IH]; [reflexivity | exact IH].
Qed.

Section Creation.

Context {W : Type}.
Variable awsClient : Client W.

Lemma findZoneLoop_step :
  forall fuel domain callerRef nextName nextZoneID (s : Sys W),
    findZoneLoop awsClient (S fuel) domain callerRef nextName nextZoneID s =
    let input := mkListHostedZonesByNameInput nextName nextZoneID (Some "50") in
    let listing := ListHostedZonesByName awsClient input (world s) in
    let s1 := mkSys (actuator s) (snd listing)
                (trace s ++ [EvListHostedZonesByName input (fst listing)]) in
    match fst listing with
    | inr err => (Fail err, s1)
    | inl resp =>
        match scanZones domain callerRef (lzo_HostedZones resp) with
        | Some (inl zone) => (Ok zone, s1)
        | Some (inr e) => (Fail e, s1)
        | None =>
            if BoolValue (lzo_IsTruncated resp)
            then findZoneLoop awsClient fuel domain callerRef
                   (lzo_NextDNSName resp) (lzo_NextHostedZoneId resp) s1
            else (Fail notFound, s1)
        end
    end.
Proof.
  intros fuel domain callerRef nextName nextZoneID s. cbn [findZoneLoop]. run.
  destruct (ListHostedZonesByName awsClient _ (world s)) as [r w1]. cbn [fst snd].
  destruct r as [resp | err]; [| reflexivity].
  destruct (scanZones domain callerRef (lzo_HostedZones resp)) as [[zone | e] |];
    try reflexivity.
  destruct (BoolValue (lzo_IsTruncated resp)); reflexivity.
Qed.

(** The search, by its calls and its result. *)
Lemma findZoneLoop_run :
  forall fuel domain callerRef nextName nextZoneID (s : Sys W),
    exists (pages : list ListHostedZonesByNameOutput) (last : list Event),
      let res := findZoneLoop awsClient fuel domain callerRef nextName nextZoneID s in
      let input := mkListHostedZonesByNameInput nextName nextZoneID (Some "50") in
      snd res = mkSys (actuator s) (world (snd res))
                  (trace s ++ listingEvents input pages ++ last) /\
      ((exists init page zone,
           pages = (init ++ [page])%list /\ Forall (passedPage domain callerRef) init /\
           scanZones domain callerRef (lzo_HostedZones page) = Some (inl zone) /\
           last = [] /\ fst res = Ok zone) \/
       (exists init page,
           pages = (init ++ [page])%list /\ Forall (passedPage domain callerRef) init /\
           (scanZones domain callerRef (lzo_HostedZones page) = Some (inr notFound) \/
            (scanZones domain callerRef (lzo_HostedZones page) = None /\
             BoolValue (lzo_IsTruncated page) = false)) /\
           last = [] /\ fst res = Fail notFound) \/
       (exists err,
           Forall (passedPage domain callerRef) pages /\
           last = [EvListHostedZonesByName (zonesCursorAfter input pages) (inr err)] /\
           fst res = Fail err) \/
       (Forall (passedPage domain callerRef) pages /\ last = [] /\
        length pages = fuel /\ fst res = OutOfFuel)).
Proof.
  induction fuel as [| fuel IH]; intros domain callerRef nextName nextZoneID s.
  - exists [], []. cbn. rewrite app_nil_r. split; [destruct s; reflexivity |].
    right. right. right. repeat split. constructor.
  - rewrite findZoneLoop_step. cbn zeta.
    set (input := mkListHostedZonesByNameInput nextName nextZoneID (Some "50")).
    destruct (ListHostedZonesByName awsClient input (world s)) as [r w1]. cbn [fst snd].
    destruct r as [resp | err].
    + pose proof (scanZones_spec domain callerRef (lzo_HostedZones resp)) as Hspec.
      destruct (scanZones domain callerRef (lzo_HostedZones resp)) as [[zone | e] |] eqn:Hscan.
      * exists [resp], []. cbn [fst snd listingEvents app world].
        split; [reflexivity |]. left. exists [], resp, zone.
        repeat split; [constructor | exact Hscan].
      * destruct Hspec as [He _]. subst e.
        exists [resp], []. cbn [fst snd listingEvents app world].
        split; [reflexivity |]. right. left. exists [], resp.
        repeat split; [constructor | left; exact Hscan].
      * destruct (BoolValue (lzo_IsTruncated resp)) eqn:Htrunc.
        -- set (s1 := mkSys (actuator s) w1 (trace s ++ [EvListHostedZonesByName input (inl resp)])).
           destruct (IH domain callerRef (lzo_NextDNSName resp) (lzo_NextHostedZoneId resp) s1)
             as (pages & last & Hsnd & Hres).
           cbn zeta in Hsnd, Hres.
           assert (Hpassed : passedPage domain callerRef resp) by (split; assumption).
           exists (resp :: pages), last. split.
           ++ rewrite Hsnd. cbn [world actuator trace listingEvents]. subst s1.
              cbn [actuator trace]. rewrite <- !app_assoc. reflexivity.
           ++ destruct Hres as [(init & page & zone & Hp & Hi & Hs & Hl & Hr)
                               | [(init & page & Hp & Hi & Hs & Hl & Hr)
                                 | [(err & Hi & Hl & Hr) | (Hi & Hl & Hn & Hr)]]].
              ** left. exists (resp :: init), page, zone. rewrite Hp.
                 repeat split; try assumption. constructor; assumption.
              ** right. left. exists (resp :: init), page. rewrite Hp.
                 repeat split; try assumption. constructor; assumption.
              ** right. right. left. exists err.
                 repeat split; try assumption. constructor; assumption.
              ** right. right. right.
                 repeat split; try assumption; [constructor; assumption |].
                 cbn [length]. rewrite Hn. reflexivity.
        -- exists [resp], []. cbn [fst snd listingEvents app world].
           split; [reflexivity |]. right. left. exists [], resp.
           repeat split; [constructor |]. right. split; [exact Hscan | exact Htrunc].
    + exists [], [EvListHostedZonesByName input (inr err)]. cbn [fst snd listingEvents app world].
      split; [reflexivity |]. right. right. left. exists err. repeat split. constructor.
Qed.

(** The search ends within the fuel when the provider's listing is finite. *)
Lemma findZoneLoop_ends :
  forall (rank : W -> nat),
    (forall input w resp w',
        ListHostedZonesByName awsClient input w = (inl resp, w') ->
        BoolValue (lzo_IsTruncated resp) = true -> rank w' < rank w) ->
    forall fuel domain callerRef nextName nextZoneID (s : Sys W),
      rank (world s) < fuel ->
      fst (findZoneLoop awsClient fuel domain callerRef nextName nextZoneID s) <> OutOfFuel.
Proof.
  intros rank Hlist. induction fuel as [| fuel IH];
    intros domain callerRef nextName nextZoneID s Hrank.
  - lia.
  - rewrite findZoneLoop_step. cbn zeta.
    destruct (ListHostedZonesByName awsClient _ (world s)) as [r w1] eqn:Hl.
    cbn [fst snd]. destruct r as [resp | err]; [| discriminate].
    destruct (scanZones domain callerRef (lzo_HostedZones resp)) as [[zone | e] |];
      try discriminate.
    destruct (BoolValue (lzo_IsTruncated resp)) eqn:Htrunc; [| discriminate].
    specialize (Hlist _ _ _ _ Hl Htrunc). apply IH. cbn [world]. lia.
Qed.

(** [syncTags] changes nothing of the actuator, makes tag changes only, and
    runs within its rounds. *)
Lemma syncTags_frame :
  forall (s : Sys W),
    exists inputs answers,
      snd (syncTags awsClient s) =
        mkSys (actuator s) (world (snd (syncTags awsClient s)))
              (trace s ++ tagEvents inputs answers) /\
      fst (syncTags awsClient s) <> OutOfFuel.
Proof.
  intros s. unfold syncTags. run.
  destruct (hostedZone (actuator s)) as [hz |].
  - destruct (diffTags (expectedTags (actuator s)) [] (currentHostedZoneTags (actuator s)))
      as [toAdd toDelete].
    destruct ((length toDelete =? 0)%nat && (length toAdd =? 0)%nat).
    + exists [], []. cbn. unfold tagEvents. cbn. rewrite app_nil_r.
      split; [destruct s; reflexivity | discriminate].
    + destruct (changeTagsLoop_run awsClient
                  (Nat.max (length toAdd) (length (map tag_Key toDelete)))
                  (hz_Id hz) toAdd (map tag_Key toDelete) 0 s) as (answers & Hsnd & _ & Hres);
        [lia |].
      eexists. exists answers. split; [exact Hsnd |].
      destruct Hres as [(Hok & _) | (err & init & _ & Hf)].
      * rewrite Hok. discriminate.
      * rewrite Hf. discriminate.
  - exists [], []. cbn. unfold tagEvents. cbn. rewrite app_nil_r.
    split; [destruct s; reflexivity | discriminate].
Qed.

Lemma finishCreate_run :
  forall (zone : HostedZone) (s : Sys W),
    exists (r : result (list Tag)) (rest : list Event),
      let res := finishCreate awsClient zone s in
      trace (snd res) = (trace s ++ EvListTagsForResource (hz_Id zone) r :: rest)%list /\
      createCalls rest = [] /\
      fst res <> OutOfFuel /\
      match r with
      | inr e => fst res = Fail e /\ rest = [] /\ actuator (snd res) = actuator s
      | inl tags =>
          actuator (snd res) =
            mkAWSActuator (Some zone) tags
              (set_Status_AWS (Some (mkAWSDNSZoneStatus (hz_Id zone))) (dnsZone (actuator s)))
      end.
Proof.
  intros zone s. unfold finishCreate, existingTags. run.
  destruct (ListTagsForResource awsClient (hz_Id zone) (world s)) as [r w1].
  exists r. destruct r as [tags | e].
  - unfold modifyStatus. run. cbn [set_hostedZone hostedZone].
    match goal with |- context [syncTags awsClient ?x] => set (s4 := x) end.
    destruct (syncTags_frame s4) as (inputs & answers & Hsnd & Hfuel).
    exists (tagEvents inputs answers). cbn zeta.
    rewrite Hsnd. cbn [trace actuator]. subst s4. cbn [trace actuator].
    repeat split.
    + rewrite <- app_assoc. reflexivity.
    + apply createCalls_tagEvents.
    + exact Hfuel.
  - exists []. cbn. repeat split. discriminate.
Qed.

Lemma Create_unfold :
  forall (fuel : nat) (s : Sys W),
    Create awsClient fuel s =
    let domain := Spec_Zone (dnsZone (actuator s)) in
    let token := UID (dnsZone (actuator s)) in
    let input := mkCreateHostedZoneInput (Some domain) (Some token) in
    let creation := CreateHostedZone awsClient input (world s) in
    let s1 := mkSys (actuator s) (snd creation)
                (trace s ++ [EvCreateHostedZone input (fst creation)]) in
    match fst creation with
    | inl zone => finishCreate awsClient zone s1
    | inr err =>
        if isAwsCode ErrCodeHostedZoneAlreadyExists err
        then bind (findZoneByCallerReference awsClient fuel domain token)
               (finishCreate awsClient) s1
        else (Fail err, s1)
    end.
Proof.
  intros fuel s. unfold Create, finishCreate. run.
  destruct (CreateHostedZone awsClient _ (world s)) as [r w1]. cbn [fst snd].
  destruct r as [zone | err]; [reflexivity |].
  destruct (isAwsCode ErrCodeHostedZoneAlreadyExists err); reflexivity.
Qed.

(** C1: [Create] when [CreateHostedZone] fails. An error that is not the
    already-exists error is returned, with no further call. On the
    already-exists error [Create] makes no further create call; it lists the
    zones by name from the domain on, page after page from the cursor of the
    page before, as long as the pages are truncated and hold only zones of the
    domain with other caller references. At the first zone with the token as
    its caller reference the search ends and [Create] goes on with that zone:
    it lists its tags and, if that succeeds, caches the zone and writes its
    identifier to the status. At the first zone of another name, or at a page
    that is the last without such a zone, the search ends and [Create] returns
    the not-found error; a failed listing ends it with the error of the
    listing. With a finite listing [Create] returns. *)
Theorem Create_already_exists_finds_zone :
  forall (fuel : nat) (s : Sys W) (err : error) (w1 : W),
    let domain := Spec_Zone (dnsZone (actuator s)) in
    let token := UID (dnsZone (actuator s)) in
    let input := mkCreateHostedZoneInput (Some domain) (Some token) in
    CreateHostedZone awsClient input (world s) = (inr err, w1) ->
    let res := Create awsClient fuel s in
    let s1 := mkSys (actuator s) w1 (trace s ++ [EvCreateHostedZone input (inr err)]) in
    (isAwsCode ErrCodeHostedZoneAlreadyExists err = false -> res = (Fail err, s1)) /\
    (isAwsCode ErrCodeHostedZoneAlreadyExists err = true ->
     exists (pages : list ListHostedZonesByNameOutput) (rest : list Event),
       trace (snd res) =
         (trace s1 ++ listingEvents (firstZonesInput domain) pages ++ rest)%list /\
       createCalls (listingEvents (firstZonesInput domain) pages ++ rest) = [] /\
       ((exists init page zone r rest',
            pages = (init ++ [page])%list /\ Forall (passedPage domain token) init /\
            scanZones domain token (lzo_HostedZones page) = Some (inl zone) /\
            rest = EvListTagsForResource (hz_Id zone) r :: rest' /\
            match r with
            | inr e => fst res = Fail e
            | inl tags =>
                actuator (snd res) =
                  mkAWSActuator (Some zone) tags
                    (set_Status_AWS (Some (mkAWSDNSZoneStatus (hz_Id zone)))
                                    (dnsZone (actuator s)))
            end) \/
        (exists init page,
            pages = (init ++ [page])%list /\ Forall (passedPage domain token) init /\
            (scanZones domain token (lzo_HostedZones page) = Some (inr notFound) \/
             (scanZones domain token (lzo_HostedZones page) = None /\
              BoolValue (lzo_IsTruncated page) = false)) /\
            rest = [] /\ fst res = Fail notFound) \/
        (exists e,
            Forall (passedPage domain token) pages /\
            rest = [EvListHostedZonesByName
                      (zonesCursorAfter (firstZonesInput domain) pages) (inr e)] /\
            fst res = Fail e) \/
        (Forall (passedPage domain token) pages /\ rest = [] /\
         length pages = fuel /\ fst res = OutOfFuel))) /\
    (forall zones,
        match scanZones domain token zones with
        | Some (inl zone) =>
            exists before after,
              zones = (before ++ zone :: after)%list /\
              Forall (passedZone domain token) before /\
              StringValue (hz_CallerReference zone) = token
        | Some (inr e) =>
            e = notFound /\
            exists before zone after,
              zones = (before ++ zone :: after)%list /\
              Forall (passedZone domain token) before /\
              StringValue (hz_CallerReference zone) <> token /\
              StringValue (hz_Name zone) <> domain
        | None => Forall (passedZone domain token) zones
        end) /\
    (forall rank : W -> nat,
        (forall i w resp w',
            ListHostedZonesByName awsClient i w = (inl resp, w') ->
            BoolValue (lzo_IsTruncated resp) = true -> rank w' < rank w) ->
        rank w1 < fuel ->
        fst res <> OutOfFuel).
Proof.
  intros fuel s err w1 domain token input Hcreate res s1.
  assert (Hres : res =
    if isAwsCode ErrCodeHostedZoneAlreadyExists err
    then bind (findZoneByCallerReference awsClient fuel domain token)
               (finishCreate awsClient) s1
    else (Fail err, s1)).
  { unfold res. rewrite Create_unfold. cbn zeta. fold domain. fold token. fold input.
    rewrite Hcreate. reflexivity. }
  split; [| split; [| split]].
  - intros Hcode. rewrite Hres, Hcode. reflexivity.
  - intros Hcode. rewrite Hcode in Hres. rewrite bind_assoc_run in Hres.
    unfold findZoneByCallerReference in Hres.
    destruct (findZoneLoop_run fuel domain token (Some domain) None s1)
      as (pages & last & Hsnd & Hcases).
    cbn zeta in Hsnd, Hcases. fold (firstZonesInput domain) in Hsnd, Hcases.
    destruct (findZoneLoop awsClient fuel domain token (Some domain) None s1) as [o s2].
    cbn [fst snd] in Hsnd, Hcases.
    destruct Hcases as [(init & page & zone & Hp & Hi & Hs & Hl & Hr)
                       | [(init & page & Hp & Hi & Hs & Hl & Hr)
                         | [(e & Hi & Hl & Hr) | (Hi & Hl & Hn & Hr)]]]; subst o.
    + destruct (finishCreate_run zone s2) as (r & rest' & Htr & Hnc & _ & Hfin).
      cbn zeta in Htr, Hfin. rewrite <- Hres in Htr, Hfin.
      exists pages, (EvListTagsForResource (hz_Id zone) r :: rest').
      split; [| split].
      * rewrite Htr, Hsnd, Hl. cbn [trace]. rewrite app_nil_r, <- app_assoc. reflexivity.
      * unfold createCalls. rewrite flat_map_app. fold (createCalls (listingEvents (firstZonesInput domain) pages)).
        rewrite createCalls_listingEvents. cbn [app flat_map]. exact Hnc.
      * left. exists init, page, zone, r, rest'. repeat split; try assumption.
        destruct r as [tags | e].
        -- rewrite Hfin, Hsnd. reflexivity.
        -- destruct Hfin as [Hf _]. exact Hf.
    + exists pages, []. rewrite Hres. cbn [fst snd]. rewrite Hsnd, Hl. cbn [trace].
      split; [reflexivity | split].
      * rewrite app_nil_r. apply createCalls_listingEvents.
      * right. left. exists init, page. repeat split; assumption.
    + exists pages, last. rewrite Hres. cbn [fst snd]. rewrite Hsnd. cbn [trace].
      split; [reflexivity | split].
      * unfold createCalls. rewrite flat_map_app.
        fold (createCalls (listingEvents (firstZonesInput domain) pages)).
        rewrite createCalls_listingEvents, Hl. reflexivity.
      * right. right. left. exists e. repeat split; assumption.
    + exists pages, []. rewrite Hres. cbn [fst snd]. rewrite Hsnd, Hl. cbn [trace].
      split; [reflexivity | split].
      * rewrite app_nil_r. apply createCalls_listingEvents.
      * right. right. right. repeat split; assumption.
  - intros zones. apply scanZones_spec.
  - intros rank Hlist Hrank. rewrite Hres.
    destruct (isAwsCode ErrCodeHostedZoneAlreadyExists err); [| discriminate].
    rewrite bind_assoc_run. unfold findZoneByCallerReference.
    pose proof (findZoneLoop_ends rank Hlist fuel domain token (Some domain) None s1 Hrank) as Hends.
    destruct (findZoneLoop awsClient fuel domain token (Some domain) None s1) as [o s2].
    cbn [fst] in Hends. destruct o as [zone | e | |]; try discriminate; [| congruence].
    destruct (finishCreate_run zone s2) as (r & rest' & _ & _ & Hfuel & _). exact Hfuel.
Qed.

End Creation.

(** ** The modelled helper keeps the contract *)

Lemma status_eqb_eq : forall a b, status_eqb a b = true <-> a = b.
Proof. intros a b. destruct a, b; cbn; split; congruence. Qed.

Lemma condition_eqb_eq : forall a b, condition_eqb a b = true <-> a = b.
Proof.
  intros [ta sa ra ma] [tb sb rb mb]. unfold condition_eqb. cbn.
  rewrite !andb_true_iff, conditionType_eqb_eq, status_eqb_eq, !String.eqb_eq.
  split.
  - intros [[[Ht Hs] Hr] Hm]. congruence.
  - intros H. inversion H. repeat split.
Qed.

Lemma conditionType_eqb_sym : forall a b, conditionType_eqb a b = conditionType_eqb b a.
Proof.
  intros a b. destruct (conditionType_eqb a b) eqn:Hab; destruct (conditionType_eqb b a) eqn:Hba;
    try reflexivity.
  - apply conditionType_eqb_eq in Hab. subst b. rewrite conditionType_eqb_refl in Hba. discriminate.
  - apply conditionType_eqb_eq in Hba. subst b. rewrite conditionType_eqb_refl in Hab. discriminate.
Qed.

Lemma findCondition_app :
  forall l1 l2 t,
    findCondition (l1 ++ l2) t =
    match findCondition l1 t with
    | Some c => Some c
    | None => findCondition l2 t
    end.
Proof.
  induction l1 as [| c l1 IH]; intros l2 t; [reflexivity |].
  cbn [app findCondition]. destruct (conditionType_eqb (cond_Type c) t); [reflexivity | apply IH].
Qed.

Lemma findCondition_replace_other :
  forall cs new t',
    conditionType_eqb (cond_Type new) t' = false ->
    findCondition (replaceCondition cs new) t' = findCondition cs t'.
Proof.
  induction cs as [| c cs IH]; intros new t' Hne; [reflexivity |].
  cbn [replaceCondition]. destruct (conditionType_eqb (cond_Type c) (cond_Type new)) eqn:Hc.
  - apply conditionType_eqb_eq in Hc. cbn [findCondition]. rewrite Hc, Hne. reflexivity.
  - cbn [findCondition]. destruct (conditionType_eqb (cond_Type c) t'); [reflexivity |].
    apply IH. exact Hne.
Qed.

Lemma findCondition_replace_same :
  forall cs new existing,
    findCondition cs (cond_Type new) = Some existing ->
    findCondition (replaceCondition cs new) (cond_Type new) = Some new.
Proof.
  induction cs as [| c cs IH]; intros new existing Hfind; [discriminate Hfind |].
  cbn [replaceCondition findCondition] in *.
  destruct (conditionType_eqb (cond_Type c) (cond_Type new)) eqn:Hc.
  - cbn [findCondition]. rewrite conditionType_eqb_refl. reflexivity.
  - cbn [findCondition]. rewrite Hc. eapply IH. exact Hfind.
Qed.

Lemma model_keeps_contract : SetterContract SetDNSZoneConditionWithChangeCheck_model.
Proof.
  constructor.
  - intros cs t st r m p t' Hch Hne. unfold SetDNSZoneConditionWithChangeCheck_model in *.
    assert (Hne' : conditionType_eqb (cond_Type (mkCondition t st r m)) t' = false).
    { cbn. rewrite conditionType_eqb_sym. exact Hne. }
    destruct (findCondition cs t) as [existing |].
    + destruct p; cbn [fst snd] in *;
        try (apply findCondition_replace_other; exact Hne').
      destruct (condition_eqb existing (mkCondition t st r m)); cbn [fst snd] in *;
        [discriminate Hch | apply findCondition_replace_other; exact Hne'].
    + cbn [fst]. rewrite findCondition_app. cbn [findCondition cond_Type].
      cbn [cond_Type] in Hne'. rewrite Hne'. destruct (findCondition cs t'); reflexivity.
  - intros cs t st r m p Hch. unfold SetDNSZoneConditionWithChangeCheck_model in *.
    destruct (findCondition cs t) as [existing |] eqn:Hfind.
    + assert (Hrep : findCondition (replaceCondition cs (mkCondition t st r m)) t =
                     Some (mkCondition t st r m)).
      { apply (findCondition_replace_same cs (mkCondition t st r m) existing). exact Hfind. }
      destruct p; cbn [fst snd] in *; try exact Hrep.
      destruct (condition_eqb existing (mkCondition t st r m)); cbn [fst snd] in *;
        [discriminate Hch | exact Hrep].
    + cbn [fst]. rewrite findCondition_app, Hfind. cbn. rewrite conditionType_eqb_refl.
      reflexivity.
  - intros cs t st r m p Hch. unfold SetDNSZoneConditionWithChangeCheck_model in *.
    destruct (findCondition cs t) as [existing |] eqn:Hfind; [| discriminate].
    intros Heq. inversion Heq; subst existing.
    assert (Hsame : condition_eqb (mkCondition t st r m) (mkCondition t st r m) = true)
      by (apply condition_eqb_eq; reflexivity).
    rewrite Hsame in Hch. destruct p; cbn in Hch; discriminate Hch.
  - intros cs t r m Hch. unfold SetDNSZoneConditionWithChangeCheck_model, conditionIsTrue in *.
    destruct (findCondition cs t) as [existing |]; [| reflexivity].
    cbn [snd] in Hch. apply negb_false_iff, condition_eqb_eq in Hch. subst existing. reflexivity.
  - intros cs t r m Hch. unfold SetDNSZoneConditionWithChangeCheck_model in *.
    destruct (findCondition cs t) as [existing |]; [| discriminate Hch].
    destruct (condition_eqb existing (mkCondition t ConditionTrue r m)) eqn:Heq;
      [| discriminate Hch].
    apply condition_eqb_eq in Heq. subst existing. reflexivity.
Qed.

(** * The examples, pass by pass *)

(** The scripted provider's listings are finite: every answer uses up one of
    the answers scripted. *)
Lemma scripted_records_listing_finite :
  forall listInput w listOutput w',
    ListResourceRecordSets scriptedClient listInput w = (inl listOutput, w') ->
    truncated listOutput ->
    length (onListResourceRecordSets w') < length (onListResourceRecordSets w).
Proof.
  intros listInput w listOutput w' Hcall _. cbn in Hcall.
  destruct (onListResourceRecordSets w) as [| r rest]; cbn in Hcall.
  - discriminate Hcall.
  - inversion Hcall; subst. cbn. lia.
Qed.

Lemma scripted_change_keeps_listing :
  forall zoneID changes w,
    length (onListResourceRecordSets (snd (ChangeResourceRecordSets scriptedClient zoneID changes w)))
    <= length (onListResourceRecordSets w).
Proof.
  intros zoneID changes w. cbn.
  destruct (nextAnswer (onChangeResourceRecordSets w)) as [r q]. cbn. lia.
Qed.

Lemma scripted_zones_listing_finite :
  forall input w resp w',
    ListHostedZonesByName scriptedClient input w = (inl resp, w') ->
    BoolValue (lzo_IsTruncated resp) = true ->
    length (onListHostedZonesByName w') < length (onListHostedZonesByName w).
Proof.
  intros input w resp w' Hcall _. cbn in Hcall.
  destruct (onListHostedZonesByName w) as [| r rest]; cbn in Hcall.
  - discriminate Hcall.
  - inversion Hcall; subst. cbn. lia.
Qed.

(** A fresh actuator: the three methods fail at once. *)
Lemma unpopulated_zone_example :
  hostedZone (actuator freshPass) = None /\
  UpdateMetadata scriptedClient freshPass =
    (Fail (PlainError "hostedZone is unpopulated"), freshPass) /\
  Delete scriptedClient Dotted_model 1 freshPass =
    (Fail (PlainError "hostedZone is unpopulated"), freshPass) /\
  GetNameServers scriptedClient freshPass =
    (Fail (PlainError "hostedZone is unpopulated"), freshPass).
Proof.
  split; [reflexivity |].
  apply (unpopulated_zone_fails_without_call scriptedClient Dotted_model 1 freshPass).
  reflexivity.
Defined.

(** The name servers come back in the order of the record set. *)
Lemma GetNameServers_example :
  hostedZone (actuator nsPass) = Some exampleHostedZone /\
  hz_Id exampleHostedZone = Some "Z1" /\
  fst (GetNameServers scriptedClient nsPass) = Ok ["ns-2.example.org."; "ns-1.example.org."].
Proof.
  split; [reflexivity | split; [reflexivity |]].
  apply (proj1 (GetNameServers_one_NS_record_set
                  scriptedClient nsPass exampleHostedZone "Z1" eq_refl eq_refl)).
  exists (mkListResourceRecordSetsOutput [nsRecordSet] (Some false) None None None), nsRecordSet.
  repeat split.
Defined.

(** Tags in sync, in another order: nothing to do. *)
Lemma syncTags_in_sync_example :
  hostedZone (actuator inSyncPass) = Some exampleHostedZone /\
  Permutation (map tagContent (expectedTags (actuator inSyncPass)))
              (map tagContent (currentHostedZoneTags (actuator inSyncPass))) /\
  diffTags (expectedTags (actuator inSyncPass)) [] (currentHostedZoneTags (actuator inSyncPass))
    = ([], []) /\
  syncTags scriptedClient inSyncPass = (Ok tt, inSyncPass).
Proof.
  split; [reflexivity |].
  split; [apply perm_swap |].
  apply (syncTags_in_sync_no_call scriptedClient inSyncPass exampleHostedZone eq_refl).
  apply perm_swap.
Defined.

(** C2 as stated fails: here every expected tag has an equal existing tag and
    every existing tag an equal expected tag, yet the ownership tag, expected
    twice and held once, is put in the add-set and a [ChangeTagsForResource]
    call is made, on every pass. *)
Lemma syncTags_repeated_tag_counterexample :
  forallb (fun t => existsb (tagEquals t) (currentHostedZoneTags (actuator repeatedTagPass)))
          (expectedTags (actuator repeatedTagPass)) = true /\
  forallb (fun t => existsb (tagEquals t) (expectedTags (actuator repeatedTagPass)))
          (currentHostedZoneTags (actuator repeatedTagPass)) = true /\
  diffTags (expectedTags (actuator repeatedTagPass)) []
           (currentHostedZoneTags (actuator repeatedTagPass)) = ([ownerTag], []) /\
  trace (snd (syncTags scriptedClient repeatedTagPass)) =
    [EvChangeTagsForResource
       (mkChangeTagsForResourceInput [ownerTag] [] (Some "Z1") (Some "hostedzone")) (inl tt)].
Proof. repeat split. Qed.

(** Thirteen additions and three removals go in two calls: ten and three,
    then three and none. *)
Lemma syncTags_batches_example :
  hostedZone (actuator manyTagsPass) = Some exampleHostedZone /\
  (let diff := diffTags (expectedTags (actuator manyTagsPass)) []
                        (currentHostedZoneTags (actuator manyTagsPass)) in
   let toAdd := fst diff in
   let keysToDelete := map tag_Key (snd diff) in
   exists answers : list (result unit),
     let inputs := map (changeTagsInput (hz_Id exampleHostedZone) toAdd keysToDelete)
                       (strides 0 (length answers)) in
     trace (snd (syncTags scriptedClient manyTagsPass)) =
       (trace manyTagsPass ++ tagEvents inputs answers)%list /\
     Forall (fun i => length (ct_AddTags i) <= 10 /\
                      length (ct_RemoveTagKeys i) <= 10 /\
                      0 < length (ct_AddTags i) + length (ct_RemoveTagKeys i)) inputs /\
     ((fst (syncTags scriptedClient manyTagsPass) = Ok tt /\
       Forall (fun r => r = inl tt) answers /\
       concat (map ct_AddTags inputs) = toAdd /\
       concat (map ct_RemoveTagKeys inputs) = keysToDelete) \/
      (exists err init,
         answers = (init ++ [inr err])%list /\
         fst (syncTags scriptedClient manyTagsPass) = Fail err))) /\
  map (fun e => match e with
                | EvChangeTagsForResource i _ => (length (ct_AddTags i), length (ct_RemoveTagKeys i))
                | _ => (0, 0)
                end) (trace (snd (syncTags scriptedClient manyTagsPass))) = [(10, 3); (3, 0)].
Proof.
  split; [reflexivity | split; [| reflexivity]].
  apply (syncTags_batches_of_ten scriptedClient manyTagsPass exampleHostedZone eq_refl).
Defined.

(** The sweep of a zone of two pages: it returns, and neither apex record set
    is in a batch. *)
Lemma sweep_example :
  Status_AWS resolvedZone = Some (mkAWSDNSZoneStatus (Some "Z1")) /\
  fst (DeleteAWSRecordSets scriptedClient Dotted_model 3 resolvedZone sweepPass) <> OutOfFuel /\
  (exists events : list Event,
      trace (snd (DeleteAWSRecordSets scriptedClient Dotted_model 3 resolvedZone sweepPass)) =
        (trace sweepPass ++ events)%list /\
      forall batch change,
        In batch (deletionBatches events) -> In change batch ->
        chg_Action change = Some "DELETE" /\
        isProtected (Dotted_model (Spec_Zone resolvedZone)) (chg_ResourceRecordSet change) = false) /\
  deletionBatches
    (trace (snd (DeleteAWSRecordSets scriptedClient Dotted_model 3 resolvedZone sweepPass))) =
    [[mkChange (Some "DELETE") (mkResourceRecordSet (Some "www.z.example.com.") (Some "A") [])];
     [mkChange (Some "DELETE") (mkResourceRecordSet (Some "z.example.com.") (Some "TXT") [])]].
Proof.
  pose proof (DeleteAWSRecordSets_sweeps_all_pages scriptedClient Dotted_model 3 resolvedZone
                (mkAWSDNSZoneStatus (Some "Z1")) sweepPass eq_refl) as H.
  cbv zeta in H. destruct H as (_ & _ & _ & Hsafe & Hends).
  split; [reflexivity | split; [| split; [exact Hsafe | reflexivity]]].
  apply (Hends (fun w => length (onListResourceRecordSets w))).
  - exact scripted_records_listing_finite.
  - exact scripted_change_keeps_listing.
  - cbn. lia.
Defined.

(** C5 as stated fails: the sweep succeeds, the provider finds the zone not
    empty, and [Delete] returns that error to its caller as it would any
    other. *)
Lemma Delete_not_empty_counterexample :
  isAwsCode ErrCodeHostedZoneNotEmpty notEmptyError = true /\
  fst (DeleteAWSRecordSets scriptedClient Dotted_model 1 resolvedZone notEmptyPass) = Ok tt /\
  fst (Delete scriptedClient Dotted_model 1 notEmptyPass) = Fail notEmptyError.
Proof. repeat split. Qed.

(** The same pass, by the theorem: the error is returned and logged at the
    info level. *)
Lemma Delete_not_empty_example :
  hostedZone (actuator notEmptyPass) = Some exampleHostedZone /\
  DeleteAWSRecordSets scriptedClient Dotted_model 1 (dnsZone (actuator notEmptyPass)) notEmptyPass =
    (Ok tt, snd (DeleteAWSRecordSets scriptedClient Dotted_model 1 resolvedZone notEmptyPass)) /\
  DeleteHostedZone scriptedClient (hz_Id exampleHostedZone)
    (world (snd (DeleteAWSRecordSets scriptedClient Dotted_model 1 resolvedZone notEmptyPass))) =
    (inr notEmptyError, emptyScript) /\
  Delete scriptedClient Dotted_model 1 notEmptyPass =
    (Fail notEmptyError,
     mkSys resolvedActuator emptyScript
       (trace (snd (DeleteAWSRecordSets scriptedClient Dotted_model 1 resolvedZone notEmptyPass))
        ++ [EvDeleteHostedZone (Some "Z1") (inr notEmptyError);
            EvLog InfoLevel "Cannot delete hosted zone" notEmptyError])) /\
  (deleteLogLevel notEmptyError = InfoLevel <->
   isAwsCode ErrCodeHostedZoneNotEmpty notEmptyError = true).
Proof.
  split; [reflexivity | split; [reflexivity | split; [reflexivity |]]].
  pose proof (Delete_returns_deletion_error scriptedClient Dotted_model 1 notEmptyPass
                (snd (DeleteAWSRecordSets scriptedClient Dotted_model 1 resolvedZone notEmptyPass))
                exampleHostedZone notEmptyError emptyScript eq_refl eq_refl eq_refl) as H.
  destruct H as (Hret & Hinfo & _). split; [exact Hret | exact Hinfo].
Defined.

(** An access-denied error whose message names a generated identity: the
    condition stored carries the fixed message. *)
Lemma SetConditionsForError_example :
  SetterContract SetDNSZoneConditionWithChangeCheck_model /\
  findCondition
    (conditionsOf
       (snd (SetConditionsForError SetDNSZoneConditionWithChangeCheck_model
               "AccessGranted" "AccessDenied" "AuthenticationSucceeded" "AuthenticationFailed"
               (Some (AwsError "AccessDenied"
                        "User: arn:aws:sts::1:assumed-role/x is not authorized"))
               freshActuator)))
    InsufficientCredentialsCondition =
    Some (mkCondition InsufficientCredentialsCondition ConditionTrue "AccessDenied"
            "AccessDenied error encountered (see controller logs for details)") /\
  fst (SetConditionsForError SetDNSZoneConditionWithChangeCheck_model
         "AccessGranted" "AccessDenied" "AuthenticationSucceeded" "AuthenticationFailed"
         (Some (AwsError "AccessDenied" "User: arn:aws:sts::1:assumed-role/x is not authorized"))
         freshActuator) = true.
Proof.
  split; [exact model_keeps_contract | split; [| reflexivity]].
  apply (proj1 (proj2 (SetConditionsForError_classifies
                         SetDNSZoneConditionWithChangeCheck_model
                         "AccessGranted" "AccessDenied" "AuthenticationSucceeded"
                         "AuthenticationFailed" model_keeps_contract freshActuator))).
  right. reflexivity.
Defined.

(** Two candidates, none the zone: one is gone and the scan goes on to the
    other, which has another name; [Refresh] succeeds with no zone, after the
    two fetches. *)
Lemma Refresh_no_match_example :
  lookupZoneIDs scriptedClient noMatchPass =
    (Ok ["ZGONE"; "ZOTHER"], snd (lookupZoneIDs scriptedClient noMatchPass)) /\
  fst (scanFetches scriptedClient ["ZGONE"; "ZOTHER"]
         (world (snd (lookupZoneIDs scriptedClient noMatchPass)))) =
    [inr (AwsError "NoSuchHostedZone" "No hosted zone found with ID: ZGONE");
     inl (mkHostedZone (Some "ZOTHER") (Some "other.example.com.") (Some "ref-0"))] /\
  fst (Refresh scriptedClient Dotted_model noMatchPass) = Ok tt /\
  hostedZone (actuator (snd (Refresh scriptedClient Dotted_model noMatchPass))) = None /\
  exists tail : list Event,
    trace (snd (Refresh scriptedClient Dotted_model noMatchPass)) =
      (trace (snd (lookupZoneIDs scriptedClient noMatchPass))
       ++ fetchEvents ["ZGONE"; "ZOTHER"]
            [inr (AwsError "NoSuchHostedZone" "No hosted zone found with ID: ZGONE");
             inl (mkHostedZone (Some "ZOTHER") (Some "other.example.com.") (Some "ref-0"))]
       ++ tail)%list /\
    tail = [].
Proof.
  split; [reflexivity | split; [reflexivity | split; [reflexivity | split; [reflexivity |]]]].
  destruct (Refresh_skips_missing_candidates scriptedClient Dotted_model noMatchPass
              (snd (lookupZoneIDs scriptedClient noMatchPass)) ["ZGONE"; "ZOTHER"] eq_refl)
    as (tail & Htr & _ & _ & _ & _ & _ & Hnone).
  exists tail. split; [exact Htr |].
  destruct Hnone as (_ & _ & Ht & _); [| exact Ht].
  cbn. constructor; [reflexivity |].
  constructor; [split; [discriminate | reflexivity] | constructor].
Defined.

(** Two candidates, both the zone: both are fetched, and the second is the
    one retained. *)
Lemma Refresh_two_matches_example :
  lookupZoneIDs scriptedClient twoMatchesPass =
    (Ok ["ZA"; "ZB"], snd (lookupZoneIDs scriptedClient twoMatchesPass)) /\
  ["ZA"; "ZB"] <> [] /\
  fst (scanFetches scriptedClient ["ZA"; "ZB"]
         (world (snd (lookupZoneIDs scriptedClient twoMatchesPass)))) = [inl zoneA; inl zoneB] /\
  Status_AWS (dnsZone (actuator (snd (Refresh scriptedClient Dotted_model twoMatchesPass)))) =
    Some (mkAWSDNSZoneStatus (Some "ZB")) /\
  exists tail : list Event,
    trace (snd (Refresh scriptedClient Dotted_model twoMatchesPass)) =
      (trace (snd (lookupZoneIDs scriptedClient twoMatchesPass))
       ++ fetchEvents ["ZA"; "ZB"] [inl zoneA; inl zoneB] ++ tail)%list /\
    hostedZone (actuator (snd (Refresh scriptedClient Dotted_model twoMatchesPass))) =
      last (map Some [zoneA; zoneB]) None.
Proof.
  split; [reflexivity | split; [discriminate | split; [reflexivity | split; [reflexivity |]]]].
  assert (Hne : ["ZA"; "ZB"] <> []) by discriminate.
  destruct (Refresh_last_match_wins scriptedClient Dotted_model twoMatchesPass
              (snd (lookupZoneIDs scriptedClient twoMatchesPass)) ["ZA"; "ZB"] eq_refl Hne)
    as (tail & Htr & _ & _ & _ & Hlast & _).
  exists tail. split; [exact Htr | exact Hlast].
Defined.

(** A retried creation: the provider refuses it, the zone is found under the
    token, and no second creation is asked for. *)
Lemma Create_retry_example :
  CreateHostedZone scriptedClient
    (mkCreateHostedZoneInput (Some "z.example.com") (Some "token-123")) (world retryPass) =
    (inr alreadyExistsError,
     snd (CreateHostedZone scriptedClient
            (mkCreateHostedZoneInput (Some "z.example.com") (Some "token-123")) (world retryPass))) /\
  fst (Create scriptedClient 3 retryPass) = Ok tt /\
  hostedZone (actuator (snd (Create scriptedClient 3 retryPass))) = Some exampleHostedZone /\
  createCalls (trace (snd (Create scriptedClient 3 retryPass))) =
    [mkCreateHostedZoneInput (Some "z.example.com") (Some "token-123")] /\
  (exists (pages : list ListHostedZonesByNameOutput) (rest : list Event),
      trace (snd (Create scriptedClient 3 retryPass)) =
        ((trace retryPass
          ++ [EvCreateHostedZone
                (mkCreateHostedZoneInput (Some "z.example.com") (Some "token-123"))
                (inr alreadyExistsError)])
         ++ listingEvents (firstZonesInput "z.example.com") pages ++ rest)%list /\
      createCalls (listingEvents (firstZonesInput "z.example.com") pages ++ rest) = []) /\
  fst (Create scriptedClient 3 retryPass) <> OutOfFuel.
Proof.
  pose proof (Create_already_exists_finds_zone scriptedClient 3 retryPass alreadyExistsError
                (snd (CreateHostedZone scriptedClient
                        (mkCreateHostedZoneInput (Some "z.example.com") (Some "token-123"))
                        (world retryPass)))
                eq_refl) as H.
  cbv zeta in H. destruct H as (_ & Hexists & _ & Hends).
  split; [reflexivity | split; [reflexivity | split; [reflexivity | split; [reflexivity |]]]].
  split.
  - destruct (Hexists eq_refl) as (pages & rest & Htr & Hnc & _).
    exists pages, rest. split; [exact Htr | exact Hnc].
  - apply (Hends (fun w => length (onListHostedZonesByName w))).
    + exact scripted_zones_listing_finite.
    + cbn. lia.
Defined.

(** * Further properties *)

(** ** The tag diff as a difference of multisets *)

Lemma occurrences_removeFound :
  forall tag toDelete rest c,
    removeFound tag toDelete = Some rest ->
    occurrences c toDelete =
    occurrences c rest + (if content_eq_dec (tagContent tag) c then 1 else 0).
Proof.
  intros tag toDelete rest c H. apply removeFound_Some in H. unfold occurrences.
  rewrite <- (proj1 (Permutation_count_occ content_eq_dec _ _) H c).
  cbn [count_occ]. destruct (content_eq_dec (tagContent tag) c); lia.
Qed.

Lemma occurrences_removeFound_None :
  forall tag toDelete,
    removeFound tag toDelete = None -> occurrences (tagContent tag) toDelete = 0.
Proof.
  intros tag toDelete H. apply removeFound_None in H. unfold occurrences.
  apply count_occ_not_In. exact H.
Qed.

Lemma occurrences_app :
  forall c l1 l2, occurrences c (l1 ++ l2) = occurrences c l1 + occurrences c l2.
Proof. intros c l1 l2. unfold occurrences. rewrite map_app. apply count_occ_app. Qed.

Lemma diffTags_occurrences :
  forall expected toAdd toDelete c,
    occurrences c (fst (diffTags expected toAdd toDelete)) =
      occurrences c toAdd + (occurrences c expected - occurrences c toDelete) /\
    occurrences c (snd (diffTags expected toAdd toDelete)) =
      occurrences c toDelete - occurrences c expected.
Proof.
  induction expected as [| tag rest IH]; intros toAdd toDelete c.
  - cbn [diffTags fst snd]. assert (H0 : occurrences c [] = 0) by reflexivity. rewrite H0. lia.
  - cbn [diffTags].
    assert (Hcons : occurrences c (tag :: rest) =
                    occurrences c rest + (if content_eq_dec (tagContent tag) c then 1 else 0)).
    { unfold occurrences. cbn [map count_occ].
      destruct (content_eq_dec (tagContent tag) c); lia. }
    destruct (removeFound tag toDelete) as [toDelete' |] eqn:Hrem.
    + destruct (IH toAdd toDelete' c) as [Ha Hd].
      pose proof (occurrences_removeFound _ _ _ c Hrem) as Hocc.
      rewrite Ha, Hd, Hcons, Hocc.
      destruct (content_eq_dec (tagContent tag) c); lia.
    + destruct (IH (toAdd ++ [tag])%list toDelete c) as [Ha Hd].
      pose proof (occurrences_removeFound_None _ _ Hrem) as Hzero.
      rewrite Ha, Hd, Hcons, occurrences_app.
      assert (Hone : occurrences c [tag] = if content_eq_dec (tagContent tag) c then 1 else 0).
      { unfold occurrences. cbn. destruct (content_eq_dec (tagContent tag) c); reflexivity. }
      rewrite Hone. destruct (content_eq_dec (tagContent tag) c) as [Heq |]; [| lia].
      subst c. rewrite Hzero. lia.
Qed.

Lemma diffTags_multiset_difference_aux :
  forall (expected existing : list Tag) (c : string * string),
    occurrences c (fst (diffTags expected [] existing)) =
      occurrences c expected - occurrences c existing /\
    occurrences c (snd (diffTags expected [] existing)) =
      occurrences c existing - occurrences c expected.
Proof.
  intros expected existing c.
  destruct (diffTags_occurrences expected [] existing c) as [Ha Hd].
  assert (H0 : occurrences c [] = 0) by reflexivity.
  split; [rewrite Ha, H0; lia | exact Hd].
Qed.

(** X1. The diff of [syncTags] is the difference of the two lists as
    multisets of key and value: a tag is to add as many times as it is
    expected more often than it exists, and to delete as many times as it
    exists more often than it is expected. *)
Theorem diffTags_multiset_difference :
  forall (expected existing : list Tag) (c : string * string),
    occurrences c (fst (diffTags expected [] existing)) =
      occurrences c expected - occurrences c existing /\
    occurrences c (snd (diffTags expected [] existing)) =
      occurrences c existing - occurrences c expected.
Proof.
  intros expected existing c.
  destruct (diffTags_occurrences expected [] existing c) as [Ha Hd].
  assert (H0 : occurrences c [] = 0) by reflexivity.
  split; [rewrite Ha, H0; lia | exact Hd].
Qed.

Lemma removeFound_incl :
  forall tag toDelete rest t,
    removeFound tag toDelete = Some rest -> In t rest -> In t toDelete.
Proof.
  intros tag toDelete. induction toDelete as [| actualTag toDelete IH]; intros rest t H Hin.
  - discriminate H.
  - cbn [removeFound] in H. destruct (tagEquals tag actualTag).
    + inversion H; subst rest. right. exact Hin.
    + destruct (removeFound tag toDelete) as [rest' |]; [| discriminate H].
      inversion H; subst rest. destruct Hin as [Heq | Hin]; [left; exact Heq |].
      right. eapply IH; [reflexivity | exact Hin].
Qed.

Lemma diffTags_incl :
  forall expected toAdd toDelete t,
    (In t (fst (diffTags expected toAdd toDelete)) -> In t toAdd \/ In t expected) /\
    (In t (snd (diffTags expected toAdd toDelete)) -> In t toDelete).
Proof.
  induction expected as [| tag rest IH]; intros toAdd toDelete t.
  - cbn. split; [intros H; left; exact H | intros H; exact H].
  - cbn [diffTags]. destruct (removeFound tag toDelete) as [toDelete' |] eqn:Hrem.
    + destruct (IH toAdd toDelete' t) as [Ha Hd]. split.
      * intros H. destruct (Ha H) as [H1 | H1]; [left; exact H1 | right; right; exact H1].
      * intros H. eapply removeFound_incl; [exact Hrem | exact (Hd H)].
    + destruct (IH (toAdd ++ [tag])%list toDelete t) as [Ha Hd]. split; [| exact Hd].
      intros H. destruct (Ha H) as [H1 | H1]; [| right; right; exact H1].
      apply in_app_or in H1. destruct H1 as [H1 | [H1 | []]]; [left; exact H1 |].
      right. left. exact H1.
Qed.

Lemma occurrences_In :
  forall t tags, In t tags -> 0 < occurrences (tagContent t) tags.
Proof.
  intros t tags Hin. unfold occurrences. apply count_occ_In. apply in_map. exact Hin.
Qed.

Lemma strides_length : forall n index, length (strides index n) = n.
Proof. induction n as [| n IH]; intros index; cbn; [| rewrite IH]; reflexivity. Qed.

Lemma tagChanges_app :
  forall e1 e2, tagChanges (e1 ++ e2) = (tagChanges e1 ++ tagChanges e2)%list.
Proof. intros e1 e2. unfold tagChanges. apply flat_map_app. Qed.

Lemma tagChanges_tagEvents :
  forall inputs answers,
    length inputs = length answers -> tagChanges (tagEvents inputs answers) = inputs.
Proof.
  induction inputs as [| i inputs IH]; intros answers Hlen.
  - reflexivity.
  - destruct answers as [| r answers]; [discriminate Hlen |].
    unfold tagEvents. cbn [combine map fst snd]. unfold tagChanges. cbn [flat_map app].
    f_equal. apply IH. cbn in Hlen. lia.
Qed.

Lemma segment_incl :
  forall {A} (l : list A) (index : nat) (x : A), In x (firstn 10 (skipn index l)) -> In x l.
Proof.
  intros A l index x H.
  rewrite <- (firstn_skipn index l). apply in_or_app. right.
  rewrite <- (firstn_skipn 10 (skipn index l)). apply in_or_app. left. exact H.
Qed.

Section TagSyncFurther.

Context {W : Type}.
Variable awsClient : Client W.

(** The requests of [syncTags], whatever the state: the batches at the
    strides of the index, as many as calls were answered. *)
Lemma syncTags_requests :
  forall (s : Sys W),
    let diff := diffTags (expectedTags (actuator s)) [] (currentHostedZoneTags (actuator s)) in
    exists (n : nat) (id : option string) (events : list Event),
      trace (snd (syncTags awsClient s)) = (trace s ++ events)%list /\
      tagChanges events =
        map (changeTagsInput id (fst diff) (map tag_Key (snd diff))) (strides 0 n) /\
      Forall (fun i => i < Nat.max (length (fst diff)) (length (snd diff))) (strides 0 n) /\
      (hostedZone (actuator s) <> None ->
       fst diff <> [] \/ snd diff <> [] ->
       0 < n /\
       (fst (syncTags awsClient s) = Ok tt ->
        Nat.max (length (fst diff)) (length (snd diff)) <= 10 * n)).
Proof.
  intros s diff. unfold syncTags. run.
  destruct (hostedZone (actuator s)) as [hz |].
  - fold diff. destruct diff as [toAdd toDelete] eqn:Hdiff. cbn [fst snd].
    destruct ((length toDelete =? 0)%nat && (length toAdd =? 0)%nat) eqn:Hempty.
    + apply andb_true_iff in Hempty. rewrite !Nat.eqb_eq in Hempty. destruct Hempty as [Hd Ha].
      apply length_zero_iff_nil in Hd. apply length_zero_iff_nil in Ha.
      exists 0, None, []. cbn [fst snd trace strides map]. rewrite app_nil_r.
      split; [reflexivity | split; [reflexivity | split; [constructor |]]].
      intros _ Hne. exfalso. destruct Hne as [Hne | Hne]; apply Hne; assumption.
    + destruct (changeTagsLoop_run awsClient
                  (Nat.max (length toAdd) (length (map tag_Key toDelete)))
                  (hz_Id hz) toAdd (map tag_Key toDelete) 0 s)
        as (answers & Hsnd & Hall & Hres); [lia |].
      pose proof (length_map tag_Key toDelete) as Hlm.
      rewrite Hlm in Hall.
      exists (length answers), (hz_Id hz),
        (tagEvents (map (changeTagsInput (hz_Id hz) toAdd (map tag_Key toDelete))
                        (strides 0 (length answers))) answers).
      split; [rewrite Hsnd; reflexivity |].
      split; [apply tagChanges_tagEvents; rewrite length_map, strides_length; reflexivity |].
      split; [exact Hall |].
      intros _ _.
      assert (Hpos : 0 < Nat.max (length toAdd) (length toDelete)).
      { apply andb_false_iff in Hempty. rewrite !Nat.eqb_neq in Hempty. lia. }
      destruct Hres as [(Hok & _ & Hdone) | (err & init & Hans & Hf)].
      * split; [| intros _; lia]. destruct answers; cbn in *; lia.
      * split; [| rewrite Hf; discriminate]. rewrite Hans, length_app. cbn. lia.
  - exists 0, None, []. cbn [fst snd trace strides map]. rewrite app_nil_r.
    split; [reflexivity | split; [reflexivity | split; [constructor |]]].
    intros Hne. exfalso. apply Hne. reflexivity.
Qed.

(** X2. [syncTags] asks only for what the diff calls for: a tag it adds is
    one of the expected tags and exists less often than it is expected; a key
    it removes is the key of an existing tag that exists more often than it is
    expected. *)
Theorem syncTags_changes_only_the_difference :
  forall (s : Sys W),
    exists events : list Event,
      trace (snd (syncTags awsClient s)) = (trace s ++ events)%list /\
      forall i, In i (tagChanges events) ->
        (forall tag, In tag (ct_AddTags i) ->
           In tag (expectedTags (actuator s)) /\
           occurrences (tagContent tag) (currentHostedZoneTags (actuator s))
             < occurrences (tagContent tag) (expectedTags (actuator s))) /\
        (forall key, In key (ct_RemoveTagKeys i) ->
           exists old,
             In old (currentHostedZoneTags (actuator s)) /\ tag_Key old = key /\
             occurrences (tagContent old) (expectedTags (actuator s))
               < occurrences (tagContent old) (currentHostedZoneTags (actuator s))).
Proof.
  intros s. destruct (syncTags_requests s) as (n & id & events & Htr & Hin & _).
  cbn zeta in Hin. exists events. split; [exact Htr |].
  intros i Hi. rewrite Hin in Hi. apply in_map_iff in Hi. destruct Hi as (index & Hi & _).
  subst i. unfold changeTagsInput. cbn [ct_AddTags ct_RemoveTagKeys].
  rewrite toAddSegment_firstn, keysToDeleteSegment_firstn.
  set (expected := expectedTags (actuator s)).
  set (existing := currentHostedZoneTags (actuator s)).
  split.
  - intros tag Htag. apply segment_incl in Htag.
    destruct (diffTags_incl expected [] existing tag) as [Hincl _].
    destruct (Hincl Htag) as [[] | Hexp]. split; [exact Hexp |].
    pose proof (occurrences_In _ _ Htag) as Hpos.
    destruct (diffTags_multiset_difference_aux expected existing (tagContent tag)) as [Ha _].
    lia.
  - intros key Hkey. apply segment_incl in Hkey. apply in_map_iff in Hkey.
    destruct Hkey as (old & Hk & Hold). exists old.
    destruct (diffTags_incl expected [] existing old) as [_ Hincl].
    split; [exact (Hincl Hold) | split; [exact Hk |]].
    pose proof (occurrences_In _ _ Hold) as Hpos.
    destruct (diffTags_multiset_difference_aux expected existing (tagContent old)) as [_ Hd].
    lia.
Qed.

End TagSyncFurther.

Lemma diffTags_nothing_existing :
  forall expected toAdd, diffTags expected toAdd [] = ((toAdd ++ expected)%list, []).
Proof.
  induction expected as [| tag rest IH]; intros toAdd.
  - cbn. rewrite app_nil_r. reflexivity.
  - cbn [diffTags removeFound]. rewrite IH, <- app_assoc. reflexivity.
Qed.

Lemma occurrences_witness :
  forall c tags, 0 < occurrences c tags -> exists t, In t tags /\ tagContent t = c.
Proof.
  intros c tags H. unfold occurrences in H. apply count_occ_In in H.
  apply in_map_iff in H. destruct H as (t & Ht & Hin). exists t. split; assumption.
Qed.

Section TagSyncEdges.

Context {W : Type}.
Variable awsClient : Client W.

(** X3. A tag whose value changed: when an expected tag and an existing tag
    have the same key, neither has an equal on the other side, and the diff
    fits one request, a request of [syncTags] both adds a tag of that key and
    removes that key. *)
Theorem syncTags_changed_value_in_one_request :
  forall (s : Sys W) (hz : HostedZone) (tag old : Tag),
    hostedZone (actuator s) = Some hz ->
    In tag (expectedTags (actuator s)) ->
    In old (currentHostedZoneTags (actuator s)) ->
    StringValue (tag_Key tag) = StringValue (tag_Key old) ->
    occurrences (tagContent tag) (currentHostedZoneTags (actuator s)) = 0 ->
    occurrences (tagContent old) (expectedTags (actuator s)) = 0 ->
    length (fst (diffTags (expectedTags (actuator s)) [] (currentHostedZoneTags (actuator s))))
      <= 10 ->
    length (snd (diffTags (expectedTags (actuator s)) [] (currentHostedZoneTags (actuator s))))
      <= 10 ->
    exists (events : list Event) (i : ChangeTagsForResourceInput) (added : Tag)
           (removed : option string),
      trace (snd (syncTags awsClient s)) = (trace s ++ events)%list /\
      In i (tagChanges events) /\
      In added (ct_AddTags i) /\ tagContent added = tagContent tag /\
      In removed (ct_RemoveTagKeys i) /\ StringValue removed = StringValue (tag_Key tag).
Proof.
  intros s hz tag old Hhz Htag Hold Hkey Hnew Hgone Hla Hld.
  set (expected := expectedTags (actuator s)) in *.
  set (existing := currentHostedZoneTags (actuator s)) in *.
  destruct (diffTags_multiset_difference_aux expected existing (tagContent tag)) as [Ha _].
  destruct (diffTags_multiset_difference_aux expected existing (tagContent old)) as [_ Hd].
  pose proof (occurrences_In _ _ Htag) as Hpt. pose proof (occurrences_In _ _ Hold) as Hpo.
  destruct (occurrences_witness (tagContent tag) (fst (diffTags expected [] existing)))
    as (added & Hadded & Hca); [lia |].
  destruct (occurrences_witness (tagContent old) (snd (diffTags expected [] existing)))
    as (gone & Hgone' & Hcg); [lia |].
  destruct (syncTags_requests awsClient s) as (n & id & events & Htr & Hin & _ & Hn).
  cbn zeta in Hin, Hn. fold expected in Hin, Hn. fold existing in Hin, Hn.
  destruct Hn as [Hpos _]; [rewrite Hhz; discriminate | left; intros Hnil; rewrite Hnil in Hadded; exact Hadded |].
  destruct n as [| n]; [lia |].
  exists events,
    (changeTagsInput id (fst (diffTags expected [] existing))
       (map tag_Key (snd (diffTags expected [] existing))) 0),
    added, (tag_Key gone).
  split; [exact Htr |]. split; [rewrite Hin; left; reflexivity |].
  unfold changeTagsInput. cbn [ct_AddTags ct_RemoveTagKeys].
  rewrite toAddSegment_firstn, keysToDeleteSegment_firstn. cbn [skipn].
  rewrite !firstn_all2 by (try rewrite length_map; assumption).
  split; [exact Hadded | split; [exact Hca |]].
  split; [apply in_map; exact Hgone' |].
  unfold tagContent in Hcg. inversion Hcg as [[Hk Hv]]. rewrite Hk. symmetry. exact Hkey.
Qed.

(** X4. A zone without tags (as a zone just created): [syncTags] asks for no
    removal, asks for at least one change, the first of which starts with the
    ownership tag, and when it succeeds it has added the ownership tag and the
    declared tags, in the order they are declared. *)
Theorem syncTags_untagged_zone :
  forall (s : Sys W) (hz : HostedZone),
    hostedZone (actuator s) = Some hz ->
    currentHostedZoneTags (actuator s) = [] ->
    exists (events : list Event) (first : ChangeTagsForResourceInput)
           (others : list ChangeTagsForResourceInput),
      trace (snd (syncTags awsClient s)) = (trace s ++ events)%list /\
      tagChanges events = first :: others /\
      hd_error (ct_AddTags first) =
        Some (mkTag (Some hiveDNSZoneAWSTag)
                (Some (Namespace (dnsZone (actuator s)) ++ "/" ++ Name (dnsZone (actuator s))))) /\
      Forall (fun i => ct_RemoveTagKeys i = []) (first :: others) /\
      (fst (syncTags awsClient s) = Ok tt ->
       concat (map ct_AddTags (first :: others)) =
         mkTag (Some hiveDNSZoneAWSTag)
           (Some (Namespace (dnsZone (actuator s)) ++ "/" ++ Name (dnsZone (actuator s))))
         :: match Spec_AWS (dnsZone (actuator s)) with
            | Some aws => map (fun tag => mkTag (Some (fst tag)) (Some (snd tag)))
                              (AdditionalTags aws)
            | None => []
            end).
Proof.
  intros s hz Hhz Hnone.
  destruct (syncTags_requests awsClient s) as (n & id & events & Htr & Hin & _ & Hn).
  cbn zeta in Hin, Hn. rewrite Hnone, diffTags_nothing_existing in Hin, Hn.
  cbn [fst snd app map length] in Hin, Hn.
  destruct Hn as [Hpos Hdone]; [rewrite Hhz; discriminate | left; discriminate |].
  destruct n as [| n]; [lia |].
  set (batch := changeTagsInput id (expectedTags (actuator s)) []) in *.
  exists events, (batch 0), (map batch (strides 10 n)).
  split; [exact Htr |]. split; [exact Hin |].
  split.
  { unfold batch, changeTagsInput. cbn [ct_AddTags]. rewrite toAddSegment_firstn.
    unfold expectedTags. cbn [skipn firstn hd_error]. reflexivity. }
  split.
  - change (batch 0 :: map batch (strides 10 n)) with (map batch (strides 0 (S n))).
    apply Forall_map. apply Forall_forall. intros index _. unfold batch, changeTagsInput.
    cbn [ct_RemoveTagKeys]. rewrite keysToDeleteSegment_firstn, skipn_nil. apply firstn_nil.
  - intros Hok. specialize (Hdone Hok).
    change (batch 0 :: map batch (strides 10 n)) with (map batch (strides 0 (S n))).
    rewrite map_map. unfold batch, changeTagsInput. cbn [ct_AddTags].
    erewrite map_ext; [| intros index; apply toAddSegment_firstn].
    rewrite segments_concat. cbn [skipn]. rewrite firstn_all2 by lia. reflexivity.
Qed.

End TagSyncEdges.

(** X5. [tagEquals] is an equivalence on the tag pointers it takes: a nil tag
    equals only the nil tag, and within a tag a nil key or value counts as
    the empty string. *)
Theorem tagEquals_ptr_equivalence :
  (forall a, tagEquals_ptr a a = true) /\
  (forall a b, tagEquals_ptr a b = tagEquals_ptr b a) /\
  (forall a b c, tagEquals_ptr a b = true -> tagEquals_ptr b c = true -> tagEquals_ptr a c = true) /\
  (forall t, tagEquals_ptr None (Some t) = false) /\
  (forall a b, tagEquals_ptr (Some a) (Some b) = tagEquals a b) /\
  (forall a b,
      tagEquals_ptr (Some a) (Some b) = true <->
      StringValue (tag_Key a) = StringValue (tag_Key b) /\
      StringValue (tag_Value a) = StringValue (tag_Value b)) /\
  (forall v, tagEquals_ptr (Some (mkTag None v)) (Some (mkTag (Some "") v)) = true).
Proof.
  assert (Hiff : forall a b,
             tagEquals_ptr (Some a) (Some b) = true <->
             StringValue (tag_Key a) = StringValue (tag_Key b) /\
             StringValue (tag_Value a) = StringValue (tag_Value b)).
  { intros a b. cbn. rewrite andb_true_iff, !String.eqb_eq. reflexivity. }
  split; [| split; [| split; [| split; [| split; [| split]]]]].
  - intros [a |]; [apply Hiff; split; reflexivity | reflexivity].
  - intros [a |] [b |]; try reflexivity. cbn.
    rewrite (String.eqb_sym (StringValue (tag_Key a))),
            (String.eqb_sym (StringValue (tag_Value a))). reflexivity.
  - intros [a |] [b |] [c |] Hab Hbc; try reflexivity; try discriminate.
    apply Hiff in Hab. apply Hiff in Hbc. apply Hiff.
    destruct Hab as [H1 H2]. destruct Hbc as [H3 H4]. split; congruence.
  - reflexivity.
  - reflexivity.
  - exact Hiff.
  - intros v. apply Hiff. split; reflexivity.
Qed.

(** ** The calls each method makes *)

Lemma calls_app : forall e1 e2, calls (e1 ++ e2) = (calls e1 ++ calls e2)%list.
Proof. intros e1 e2. unfold calls. apply flat_map_app. Qed.

Lemma calls_tagEvents :
  forall inputs answers,
    Forall (fun k => k = KChangeTagsForResource) (calls (tagEvents inputs answers)).
Proof.
  intros inputs answers. unfold tagEvents.
  induction (combine inputs answers) as [| p l IH]; [constructor |].
  cbn. constructor; [reflexivity | exact IH].
Qed.

Lemma calls_fetchEvents :
  forall ids answers, Forall (fun k => k = KGetHostedZone) (calls (fetchEvents ids answers)).
Proof.
  intros ids answers. unfold fetchEvents.
  induction (combine ids answers) as [| p l IH]; [constructor |].
  cbn. constructor; [reflexivity | exact IH].
Qed.

Lemma calls_listingEvents :
  forall pages input,
    Forall (fun k => k = KListHostedZonesByName) (calls (listingEvents input pages)).
Proof.
  induction pages as [| resp rest IH]; intros input; [constructor |].
  cbn. constructor; [reflexivity | apply IH].
Qed.

Lemma calls_sweepEvents :
  forall zoneID dotted pages listInput,
    Forall (fun k => k = KListResourceRecordSets \/ k = KChangeResourceRecordSets)
           (calls (sweepEvents zoneID dotted listInput pages)).
Proof.
  intros zoneID dotted pages. induction pages as [| page rest IH]; intros listInput.
  - constructor.
  - cbn [sweepEvents]. rewrite calls_app. apply Forall_app. split; [| apply IH].
    unfold roundEvents.
    destruct (recordSetChanges dotted (lro_ResourceRecordSets page)); cbn.
    + constructor; [left; reflexivity | constructor].
    + constructor; [left; reflexivity |]. constructor; [right; reflexivity | constructor].
Qed.

Section Footprints.

Context {W : Type}.
Variable awsClient : Client W.
Variable Dotted : string -> string.

(** The first part of [Refresh], by its one possible call. *)
Lemma lookupZoneIDs_run :
  forall (s : Sys W),
    let res := lookupZoneIDs awsClient s in
    actuator (snd res) = actuator s /\
    ((exists id st,
         Status_AWS (dnsZone (actuator s)) = Some st /\ ZoneID st = Some id /\
         res = (Ok [id], s)) \/
     (exists input pages err w1,
         (forall st, Status_AWS (dnsZone (actuator s)) = Some st -> ZoneID st = None) /\
         GetResourcesPages awsClient input (world s) = ((pages, err), w1) /\
         snd res = mkSys (actuator s) w1 (trace s ++ [EvGetResourcesPages input pages err]) /\
         fst res = match err with Some e => Fail e | None => Ok (collectIDs pages) end)).
Proof.
  intros s. cbn zeta. split; [apply lookupZoneIDs_actuator |].
  unfold lookupZoneIDs, findZoneIDsByTag. run.
  destruct (Status_AWS (dnsZone (actuator s))) as [st |] eqn:Hst.
  - destruct (ZoneID st) as [id |] eqn:Hid.
    + left. exists id, st. repeat split; try assumption; try (cbn; destruct s; reflexivity).
    + right. cbn [length Nat.eqb].
      destruct (GetResourcesPages awsClient _ (world s)) as [[pages err] w1] eqn:Hcall.
      eexists. exists pages, err, w1. split; [| split; [exact Hcall |]].
      * intros st' Hst'. inversion Hst'; subst st'. exact Hid.
      * cbn [fst snd]. destruct err; split; reflexivity.
  - right. cbn [length Nat.eqb].
    destruct (GetResourcesPages awsClient _ (world s)) as [[pages err] w1] eqn:Hcall.
    eexists. exists pages, err, w1. split; [| split; [exact Hcall |]].
    + intros st' Hst'. discriminate Hst'.
    + cbn [fst snd]. destruct err; split; reflexivity.
Qed.

End Footprints.

(** Membership of a run's call kinds in a short list of alternatives. *)
Ltac kinds :=
  cbn;
  repeat (apply Forall_cons;
          [first [reflexivity | left; reflexivity | right; left; reflexivity
                 | right; right; reflexivity | right; reflexivity] |]);
  try apply Forall_nil.

Lemma resolve_fold_same :
  forall zones a, sameButZoneID (dnsZone a) (dnsZone (fold_left resolve zones a)).
Proof.
  induction zones as [| hz zones IH]; intros a.
  - repeat split.
  - cbn [fold_left]. destruct (IH (resolve a hz)) as (H1 & H2 & H3 & H4 & H5 & H6).
    repeat split; [rewrite H1 | rewrite H2 | rewrite H3 | rewrite H4 | rewrite H5 | rewrite H6];
      reflexivity.
Qed.

Lemma resolve_fold_recorded :
  forall zones a, zoneRecorded a -> zoneRecorded (fold_left resolve zones a).
Proof.
  intros zones a Ha. destruct zones as [| z zones]; [exact Ha |].
  unfold zoneRecorded.
  destruct (hostedZone (fold_left resolve (z :: zones) a)) as [hz |] eqn:Hhz; [| exact I].
  apply resolve_fold_status; [discriminate | exact Hhz].
Qed.

Section Shapes.

Context {W : Type}.
Variable awsClient : Client W.
Variable Dotted : string -> string.

(** [Refresh], whatever the state: its calls are the tag search, fetches and
    the listing of tags; the zone it leaves cached and the DNSZone it leaves
    are those of an actuator that retained fetched zones one after the
    other. *)
Lemma Refresh_shape :
  forall (s : Sys W),
    exists (events : list Event) (zones : list HostedZone) (reset : bool),
      let res := Refresh awsClient Dotted s in
      let start := if reset then set_hostedZone None (actuator s) else actuator s in
      trace (snd res) = (trace s ++ events)%list /\
      Forall (fun k => k = KGetResourcesPages \/ k = KGetHostedZone \/ k = KListTagsForResource)
             (calls events) /\
      hostedZone (actuator (snd res)) = hostedZone (fold_left resolve zones start) /\
      dnsZone (actuator (snd res)) = dnsZone (fold_left resolve zones start).
Proof.
  intros s.
  assert (Hok : forall ids s1 prefix,
    lookupZoneIDs awsClient s = (Ok ids, s1) ->
    trace s1 = (trace s ++ prefix)%list ->
    Forall (fun k => k = KGetResourcesPages \/ k = KGetHostedZone \/ k = KListTagsForResource)
           (calls prefix) ->
    exists (events : list Event) (zones : list HostedZone) (reset : bool),
      let res := Refresh awsClient Dotted s in
      let start := if reset then set_hostedZone None (actuator s) else actuator s in
      trace (snd res) = (trace s ++ events)%list /\
      Forall (fun k => k = KGetResourcesPages \/ k = KGetHostedZone \/ k = KListTagsForResource)
             (calls events) /\
      hostedZone (actuator (snd res)) = hostedZone (fold_left resolve zones start) /\
      dnsZone (actuator (snd res)) = dnsZone (fold_left resolve zones start)).
  { intros ids s1 prefix Hlookup Htr1 Hprefix.
    destruct (Refresh_run awsClient Dotted s s1 ids Hlookup)
      as (answers & tail & Htr & _ & Hhz & Hdz & Hcases).
    cbn zeta in Htr, Hhz, Hdz, Hcases.
    exists (prefix ++ fetchEvents ids answers ++ tail)%list,
      (matchingZones (Dotted (Spec_Zone (dnsZone (actuator s)))) answers),
      (match ids with [] => false | _ => true end).
    cbn zeta. split; [| split; [| split]].
    - rewrite Htr, Htr1, <- app_assoc. reflexivity.
    - rewrite !calls_app. apply Forall_app. split; [exact Hprefix |].
      apply Forall_app. split.
      + eapply Forall_impl; [| apply calls_fetchEvents]. intros k Hk. right. left. exact Hk.
      + destruct Hcases as [(_ & _ & [(_ & _ & Ht & _) | (hz & r & _ & _ & Ht & _)])
                           | [(init & err & _ & _ & _ & _ & Ht) | (init & hz & _ & _ & _ & _ & Ht)]];
          rewrite Ht; kinds.
    - rewrite Hhz. destruct ids; reflexivity.
    - rewrite Hdz. destruct ids; reflexivity. }
  destruct (lookupZoneIDs_run awsClient s) as [Hact [(id & st & _ & _ & Hres) | Hsearch]].
  - apply (Hok [id] s []); [exact Hres | rewrite app_nil_r; reflexivity | constructor].
  - destruct Hsearch as (input & pages & err & w1 & _ & _ & Hsnd & Hfst).
    destruct (lookupZoneIDs awsClient s) as [o s1] eqn:Hlookup. cbn [fst snd] in *.
    destruct err as [e |].
    + exists [EvGetResourcesPages input pages (Some e)], [], false. cbn zeta.
      unfold Refresh. rewrite bind_assoc_run, Hlookup. subst o. cbn [fst snd fold_left].
      rewrite Hsnd. cbn [trace actuator].
      repeat split. kinds.
    + subst o. apply (Hok (collectIDs pages) s1 [EvGetResourcesPages input pages None]).
      * reflexivity.
      * rewrite Hsnd. reflexivity.
      * kinds.
Qed.

(** [finishCreate], with what it calls. *)
Lemma finishCreate_shape :
  forall (zone : HostedZone) (s : Sys W),
    exists (r : result (list Tag)) (inputs : list ChangeTagsForResourceInput)
           (answers : list (result unit)),
      let res := finishCreate awsClient zone s in
      trace (snd res) =
        (trace s ++ EvListTagsForResource (hz_Id zone) r :: tagEvents inputs answers)%list /\
      match r with
      | inr e => fst res = Fail e /\ actuator (snd res) = actuator s
      | inl tags =>
          actuator (snd res) =
            mkAWSActuator (Some zone) tags
              (set_Status_AWS (Some (mkAWSDNSZoneStatus (hz_Id zone))) (dnsZone (actuator s)))
      end.
Proof.
  intros zone s. unfold finishCreate, existingTags. run.
  destruct (ListTagsForResource awsClient (hz_Id zone) (world s)) as [r w1].
  exists r. destruct r as [tags | e].
  - unfold modifyStatus. run. cbn [set_hostedZone hostedZone].
    match goal with |- context [syncTags awsClient ?x] => set (s4 := x) end.
    destruct (syncTags_frame awsClient s4) as (inputs & answers & Hsnd & _).
    exists inputs, answers. cbn zeta.
    rewrite Hsnd. cbn [trace actuator]. subst s4. cbn [trace actuator].
    split; [rewrite <- app_assoc; reflexivity | reflexivity].
  - exists [], []. cbn. repeat split.
Qed.

(** [Create], whatever the state: one creation, then at most listings by
    name, one listing of tags and tag changes; the actuator is left as it was
    or holds a zone with its identifier in the status. *)
Lemma Create_shape :
  forall (fuel : nat) (s : Sys W),
    exists (r : result HostedZone) (events : list Event),
      let res := Create awsClient fuel s in
      let input := mkCreateHostedZoneInput (Some (Spec_Zone (dnsZone (actuator s))))
                                           (Some (UID (dnsZone (actuator s)))) in
      trace (snd res) = (trace s ++ EvCreateHostedZone input r :: events)%list /\
      Forall (fun k => k = KListHostedZonesByName \/ k = KListTagsForResource \/
                       k = KChangeTagsForResource) (calls events) /\
      (actuator (snd res) = actuator s \/
       exists zone tags,
         actuator (snd res) =
           mkAWSActuator (Some zone) tags
             (set_Status_AWS (Some (mkAWSDNSZoneStatus (hz_Id zone))) (dnsZone (actuator s)))).
Proof.
  intros fuel s. rewrite Create_unfold. cbn zeta.
  set (input := mkCreateHostedZoneInput _ _).
  destruct (CreateHostedZone awsClient input (world s)) as [r w1]. cbn [fst snd].
  set (s1 := mkSys (actuator s) w1 (trace s ++ [EvCreateHostedZone input r])).
  assert (Hfinish : forall zone (s2 : Sys W) (prefix : list Event),
    trace s2 = (trace s1 ++ prefix)%list -> actuator s2 = actuator s ->
    Forall (fun k => k = KListHostedZonesByName \/ k = KListTagsForResource \/
                     k = KChangeTagsForResource) (calls prefix) ->
    exists events : list Event,
      trace (snd (finishCreate awsClient zone s2)) =
        (trace s ++ EvCreateHostedZone input r :: events)%list /\
      Forall (fun k => k = KListHostedZonesByName \/ k = KListTagsForResource \/
                       k = KChangeTagsForResource) (calls events) /\
      (actuator (snd (finishCreate awsClient zone s2)) = actuator s \/
       exists zone' tags,
         actuator (snd (finishCreate awsClient zone s2)) =
           mkAWSActuator (Some zone') tags
             (set_Status_AWS (Some (mkAWSDNSZoneStatus (hz_Id zone'))) (dnsZone (actuator s))))).
  { intros zone s2 prefix Htr2 Hact2 Hprefix.
    destruct (finishCreate_shape zone s2) as (rt & inputs & answers & Htr & Hfin).
    cbn zeta in Htr, Hfin.
    exists (prefix ++ EvListTagsForResource (hz_Id zone) rt :: tagEvents inputs answers)%list.
    split; [| split].
    - rewrite Htr, Htr2. subst s1. cbn [trace]. rewrite <- !app_assoc. reflexivity.
    - rewrite calls_app. apply Forall_app. split; [exact Hprefix |].
      change (EvListTagsForResource (hz_Id zone) rt :: tagEvents inputs answers)
        with ([EvListTagsForResource (hz_Id zone) rt] ++ tagEvents inputs answers)%list.
      rewrite calls_app. apply Forall_app. split.
      + kinds.
      + eapply Forall_impl; [| apply calls_tagEvents]. intros k Hk. right. right. exact Hk.
    - destruct rt as [tags | e].
      + right. exists zone, tags. rewrite Hfin, Hact2. reflexivity.
      + left. destruct Hfin as [_ Ha]. rewrite Ha. exact Hact2. }
  exists r. destruct r as [zone | err].
  - apply (Hfinish zone s1 []); [rewrite app_nil_r; reflexivity | reflexivity | constructor].
  - destruct (isAwsCode ErrCodeHostedZoneAlreadyExists err).
    + rewrite bind_assoc_run. unfold findZoneByCallerReference.
      destruct (findZoneLoop_run awsClient fuel (Spec_Zone (dnsZone (actuator s)))
                  (UID (dnsZone (actuator s))) (Some (Spec_Zone (dnsZone (actuator s)))) None s1)
        as (pages & last & Hsnd & Hcases).
      cbn zeta in Hsnd, Hcases.
      set (first := mkListHostedZonesByNameInput _ _ _) in *.
      destruct (findZoneLoop awsClient fuel _ _ _ None s1) as [o s2].
      cbn [fst snd] in Hsnd, Hcases.
      assert (Htr2 : trace s2 = (trace s1 ++ listingEvents first pages ++ last)%list)
        by (rewrite Hsnd; reflexivity).
      assert (Hact2 : actuator s2 = actuator s) by (rewrite Hsnd; reflexivity).
      assert (Hcalls : Forall (fun k => k = KListHostedZonesByName \/ k = KListTagsForResource \/
                                        k = KChangeTagsForResource)
                              (calls (listingEvents first pages ++ last))).
      { rewrite calls_app. apply Forall_app. split.
        - eapply Forall_impl; [| apply calls_listingEvents]. intros k Hk. left. exact Hk.
        - destruct Hcases as [(init & page & zone & _ & _ & _ & Hl & _)
                             | [(init & page & _ & _ & _ & Hl & _)
                               | [(e & _ & Hl & _) | (_ & Hl & _)]]]; rewrite Hl; kinds. }
      destruct o as [zone | e | |].
      * apply (Hfinish zone s2 _ Htr2 Hact2 Hcalls).
      * exists (listingEvents first pages ++ last)%list. cbn [fst snd].
        split; [| split; [exact Hcalls | left; exact Hact2]].
        rewrite Htr2. subst s1. cbn [trace]. rewrite <- app_assoc. reflexivity.
      * exists (listingEvents first pages ++ last)%list. cbn [fst snd].
        split; [| split; [exact Hcalls | left; exact Hact2]].
        rewrite Htr2. subst s1. cbn [trace]. rewrite <- app_assoc. reflexivity.
      * exists (listingEvents first pages ++ last)%list. cbn [fst snd].
        split; [| split; [exact Hcalls | left; exact Hact2]].
        rewrite Htr2. subst s1. cbn [trace]. rewrite <- app_assoc. reflexivity.
    + exists []. cbn [fst snd trace actuator]. subst s1. cbn [trace actuator].
      split; [reflexivity | split; [constructor | left; reflexivity]].
Qed.

(** [Delete], whatever the state: the sweep, and after a sweep that succeeded
    one [DeleteHostedZone] call; the actuator is left as it was. *)
Lemma Delete_shape :
  forall (fuel : nat) (s : Sys W),
    exists (sweep ending : list Event),
      let res := Delete awsClient Dotted fuel s in
      trace (snd res) = (trace s ++ sweep ++ ending)%list /\
      actuator (snd res) = actuator s /\
      Forall (fun k => k = KListResourceRecordSets \/ k = KChangeResourceRecordSets) (calls sweep) /\
      (ending = [] \/
       exists hz r,
         hostedZone (actuator s) = Some hz /\
         fst (DeleteAWSRecordSets awsClient Dotted fuel (dnsZone (actuator s)) s) = Ok tt /\
         fst res = match r with inl _ => Ok tt | inr e => Fail e end /\
         ending = EvDeleteHostedZone (hz_Id hz) r
                  :: match r with
                     | inl _ => []
                     | inr e => [EvLog (deleteLogLevel e) "Cannot delete hosted zone" e]
                     end) /\
      (fst (DeleteAWSRecordSets awsClient Dotted fuel (dnsZone (actuator s)) s) <> Ok tt ->
       hostedZone (actuator s) <> None ->
       ending = [] /\ res = DeleteAWSRecordSets awsClient Dotted fuel (dnsZone (actuator s)) s).
Proof.
  intros fuel s. unfold Delete. run.
  destruct (hostedZone (actuator s)) as [hz |] eqn:Hhz.
  - unfold DeleteAWSRecordSets.
    destruct (Status_AWS (dnsZone (actuator s))) as [st |] eqn:Hst.
    + destruct (deleteRecordSetsLoop_run awsClient Dotted fuel (dnsZone (actuator s)) (ZoneID st)
                  (mkListResourceRecordSetsInput (ZoneID st) (Some "100") None None None) s)
        as (pages & last & Htr & Hact & Hcases).
      cbn zeta in Htr, Hact, Hcases.
      set (first := mkListResourceRecordSetsInput _ _ _ _ _) in *.
      set (dotted := Dotted (Spec_Zone (dnsZone (actuator s)))) in *.
      assert (Hsweep : Forall (fun k => k = KListResourceRecordSets \/ k = KChangeResourceRecordSets)
                              (calls (sweepEvents (ZoneID st) dotted first pages ++ last))).
      { rewrite calls_app. apply Forall_app. split; [apply calls_sweepEvents |].
        destruct Hcases as [(_ & Hl & _) | [(err & _ & _ & [Hl | (page & _ & Hl)]) | (_ & Hl & _)]];
          rewrite Hl; kinds. }
      destruct (deleteRecordSetsLoop awsClient Dotted fuel (dnsZone (actuator s)) (ZoneID st) first s)
        as [o s1].
      cbn [fst snd] in Htr, Hact, Hcases |- *.
      destruct o as [[] | e | |].
      * destruct (DeleteHostedZone awsClient (hz_Id hz) (world s1)) as [r w2].
        exists (sweepEvents (ZoneID st) dotted first pages ++ last)%list,
          (EvDeleteHostedZone (hz_Id hz) r
           :: match r with
              | inl _ => []
              | inr e => [EvLog (deleteLogLevel e) "Cannot delete hosted zone" e]
              end).
        destruct r as [u | e]; cbn [fst snd trace actuator].
        -- rewrite Htr, Hact.
           split; [rewrite <- !app_assoc; reflexivity |].
           split; [reflexivity | split; [exact Hsweep |]].
           split; [right; exists hz, (inl u); repeat split | intros Hne; exfalso; apply Hne; reflexivity].
        -- rewrite Htr, Hact.
           split; [rewrite <- !app_assoc; reflexivity |].
           split; [reflexivity | split; [exact Hsweep |]].
           split; [right; exists hz, (inr e); repeat split | intros Hne; exfalso; apply Hne; reflexivity].
      * exists (sweepEvents (ZoneID st) dotted first pages ++ last)%list, [].
        cbn [fst snd]. rewrite app_nil_r.
        split; [exact Htr | split; [exact Hact | split; [exact Hsweep |]]].
        split; [left; reflexivity | intros _ _; split; reflexivity].
      * exists (sweepEvents (ZoneID st) dotted first pages ++ last)%list, [].
        cbn [fst snd]. rewrite app_nil_r.
        split; [exact Htr | split; [exact Hact | split; [exact Hsweep |]]].
        split; [left; reflexivity | intros _ _; split; reflexivity].
      * exists (sweepEvents (ZoneID st) dotted first pages ++ last)%list, [].
        cbn [fst snd]. rewrite app_nil_r.
        split; [exact Htr | split; [exact Hact | split; [exact Hsweep |]]].
        split; [left; reflexivity | intros _ _; split; reflexivity].
    + exists [], []. cbn. rewrite app_nil_r.
      split; [reflexivity | split; [reflexivity | split; [constructor |]]].
      split; [left; reflexivity | intros _ _; split; reflexivity].
  - exists [], []. cbn. rewrite app_nil_r.
    split; [reflexivity | split; [reflexivity | split; [constructor |]]].
    split; [left; reflexivity | intros _ Hne; exfalso; apply Hne; reflexivity].
Qed.

(** [GetNameServers], whatever the state: at most one listing of record sets,
    and the actuator as it was. *)
Lemma GetNameServers_shape :
  forall (s : Sys W),
    exists events : list Event,
      trace (snd (GetNameServers awsClient s)) = (trace s ++ events)%list /\
      actuator (snd (GetNameServers awsClient s)) = actuator s /\
      (calls events = [] \/ calls events = [KListResourceRecordSets]).
Proof.
  intros s. unfold GetNameServers. run.
  destruct (hostedZone (actuator s)) as [hz |].
  - destruct (hz_Id hz) as [id |].
    + match goal with
      | |- context [ListResourceRecordSets awsClient ?i (world s)] => set (input := i)
      end.
      destruct (ListResourceRecordSets awsClient input (world s)) as [r w1].
      exists [EvListResourceRecordSets input r].
      split; [| split; [| right; reflexivity]].
      * destruct r as [resp | err]; [| reflexivity].
        destruct (lro_ResourceRecordSets resp) as [| recordSet [| other rest]];
          try reflexivity.
        destruct (String.eqb (StringValue (rrs_Type recordSet)) "NS"); [| reflexivity].
        destruct (String.eqb (StringValue (rrs_Name recordSet)) _); reflexivity.
      * destruct r as [resp | err]; [| reflexivity].
        destruct (lro_ResourceRecordSets resp) as [| recordSet [| other rest]];
          try reflexivity.
        destruct (String.eqb (StringValue (rrs_Type recordSet)) "NS"); [| reflexivity].
        destruct (String.eqb (StringValue (rrs_Name recordSet)) _); reflexivity.
    + exists []. cbn. rewrite app_nil_r. repeat split. left. reflexivity.
  - exists []. cbn. rewrite app_nil_r. repeat split. left. reflexivity.
Qed.

End Shapes.

Lemma sameButZoneID_refl : forall z, sameButZoneID z z.
Proof. intros z. repeat split. Qed.

Lemma sameButZoneID_sameSpec : forall z z', sameButZoneID z z' -> sameSpec z z'.
Proof. intros z z' (H1 & H2 & H3 & H4 & H5 & _). repeat split; assumption. Qed.

Lemma sameSpec_trans : forall z1 z2 z3, sameSpec z1 z2 -> sameSpec z2 z3 -> sameSpec z1 z3.
Proof.
  intros z1 z2 z3 (A1 & A2 & A3 & A4 & A5) (B1 & B2 & B3 & B4 & B5).
  repeat split; congruence.
Qed.

(** What storing conditions leaves alone, whatever the helper answered. *)
Lemma storeConditions_frame :
  forall (answer : list DNSZoneCondition * bool) (a : AWSActuator),
    let res := storeConditions answer a in
    hostedZone (snd res) = hostedZone a /\
    currentHostedZoneTags (snd res) = currentHostedZoneTags a /\
    Status_AWS (dnsZone (snd res)) = Status_AWS (dnsZone a) /\
    sameSpec (dnsZone a) (dnsZone (snd res)) /\
    fst res = snd answer /\
    (fst res = false -> snd res = a).
Proof.
  intros [conds changed] a. cbn. destruct changed; cbn; repeat split; discriminate.
Qed.

Section Methods.

Context {W : Type}.
Variable awsClient : Client W.
Variable Dotted : string -> string.

(** X6. [Refresh] only reads: whatever the provider answers, its calls are
    the tag search, fetches of zones and the listing of tags. *)
Theorem Refresh_only_reads :
  forall (s : Sys W),
    exists events : list Event,
      trace (snd (Refresh awsClient Dotted s)) = (trace s ++ events)%list /\
      Forall (fun k => k = KGetResourcesPages \/ k = KGetHostedZone \/ k = KListTagsForResource)
             (calls events).
Proof.
  intros s. destruct (Refresh_shape awsClient Dotted s) as (events & zones & reset & H).
  cbn zeta in H. destruct H as (Htr & Hcalls & _).
  exists events. split; assumption.
Qed.

(** X7. [Create] asks for one creation, first of all, with the domain as the
    name and the UID of the DNSZone as the caller reference; what follows are
    listings by name, the listing of tags and tag changes only. *)
Theorem Create_creates_once :
  forall (fuel : nat) (s : Sys W),
    exists (r : result HostedZone) (events : list Event),
      trace (snd (Create awsClient fuel s)) =
        (trace s
         ++ EvCreateHostedZone
              (mkCreateHostedZoneInput (Some (Spec_Zone (dnsZone (actuator s))))
                                       (Some (UID (dnsZone (actuator s))))) r
         :: events)%list /\
      Forall (fun k => k = KListHostedZonesByName \/ k = KListTagsForResource \/
                       k = KChangeTagsForResource) (calls events).
Proof.
  intros fuel s. destruct (Create_shape awsClient fuel s) as (r & events & H).
  cbn zeta in H. destruct H as (Htr & Hcalls & _).
  exists r, events. split; assumption.
Qed.

(** X8. [Delete] sweeps, then deletes: its calls are listings and changes of
    record sets, then at most one [DeleteHostedZone], which is its last call,
    is made only after a sweep that succeeded, addresses the cached zone and
    decides the result. The actuator is left as it was. *)
Theorem Delete_sweeps_then_deletes :
  forall (fuel : nat) (s : Sys W),
    exists (sweep ending : list Event),
      let res := Delete awsClient Dotted fuel s in
      trace (snd res) = (trace s ++ sweep ++ ending)%list /\
      actuator (snd res) = actuator s /\
      Forall (fun k => k = KListResourceRecordSets \/ k = KChangeResourceRecordSets) (calls sweep) /\
      (ending = [] \/
       exists hz r,
         hostedZone (actuator s) = Some hz /\
         fst (DeleteAWSRecordSets awsClient Dotted fuel (dnsZone (actuator s)) s) = Ok tt /\
         fst res = match r with inl _ => Ok tt | inr e => Fail e end /\
         ending = EvDeleteHostedZone (hz_Id hz) r
                  :: match r with
                     | inl _ => []
                     | inr e => [EvLog (deleteLogLevel e) "Cannot delete hosted zone" e]
                     end).
Proof.
  intros fuel s. destruct (Delete_shape awsClient Dotted fuel s) as (sweep & ending & H).
  cbn zeta in H. destruct H as (Htr & Hact & Hsweep & Hend & _).
  exists sweep, ending. cbn zeta. repeat split; assumption.
Qed.

(** One method keeps the cached zone recorded. *)
Lemma Refresh_keeps_recorded :
  forall (s : Sys W),
    zoneRecorded (actuator s) -> zoneRecorded (actuator (snd (Refresh awsClient Dotted s))).
Proof.
  intros s Hs. destruct (Refresh_shape awsClient Dotted s) as (events & zones & reset & H).
  cbn zeta in H. destruct H as (_ & _ & Hhz & Hdz).
  unfold zoneRecorded. rewrite Hhz, Hdz.
  apply resolve_fold_recorded. destruct reset; [exact I | exact Hs].
Qed.

Lemma Create_keeps_recorded :
  forall (fuel : nat) (s : Sys W),
    zoneRecorded (actuator s) -> zoneRecorded (actuator (snd (Create awsClient fuel s))).
Proof.
  intros fuel s Hs. destruct (Create_shape awsClient fuel s) as (r & events & H).
  cbn zeta in H. destruct H as (_ & _ & [Ha | (zone & tags & Ha)]); rewrite Ha.
  - exact Hs.
  - reflexivity.
Qed.

Lemma UpdateMetadata_actuator :
  forall (s : Sys W), actuator (snd (UpdateMetadata awsClient s)) = actuator s.
Proof.
  intros s. unfold UpdateMetadata. run.
  destruct (hostedZone (actuator s)); [| reflexivity].
  destruct (syncTags_frame awsClient s) as (inputs & answers & Hsnd & _).
  rewrite Hsnd. reflexivity.
Qed.

Lemma Refresh_sameButZoneID :
  forall (s : Sys W),
    sameButZoneID (dnsZone (actuator s)) (dnsZone (actuator (snd (Refresh awsClient Dotted s)))).
Proof.
  intros s. destruct (Refresh_shape awsClient Dotted s) as (events & zones & reset & H).
  cbn zeta in H. destruct H as (_ & _ & _ & Hdz). rewrite Hdz.
  destruct reset;
    [exact (resolve_fold_same zones (set_hostedZone None (actuator s)))
    | apply (resolve_fold_same zones)].
Qed.

Lemma Create_sameButZoneID :
  forall (fuel : nat) (s : Sys W),
    sameButZoneID (dnsZone (actuator s)) (dnsZone (actuator (snd (Create awsClient fuel s)))).
Proof.
  intros fuel s. destruct (Create_shape awsClient fuel s) as (r & events & H).
  cbn zeta in H. destruct H as (_ & _ & [Ha | (zone & tags & Ha)]); rewrite Ha.
  - apply sameButZoneID_refl.
  - repeat split.
Qed.

(** X9. What the methods leave of the actuator. [Refresh] and [Create] change
    no more of the DNSZone than the zone of its status: identity, spec and
    conditions stay. [UpdateMetadata], [Delete], [GetNameServers] and [Exists]
    leave the whole actuator as it was, the cached tags included, whatever
    they asked of the provider. *)
Theorem methods_frame :
  forall (fuel : nat) (s : Sys W),
    sameButZoneID (dnsZone (actuator s)) (dnsZone (actuator (snd (Refresh awsClient Dotted s)))) /\
    sameButZoneID (dnsZone (actuator s)) (dnsZone (actuator (snd (Create awsClient fuel s)))) /\
    actuator (snd (UpdateMetadata awsClient s)) = actuator s /\
    actuator (snd (Delete awsClient Dotted fuel s)) = actuator s /\
    actuator (snd (GetNameServers awsClient s)) = actuator s /\
    actuator (snd (Exists s)) = actuator s.
Proof.
  intros fuel s.
  split; [apply Refresh_sameButZoneID |].
  split; [apply Create_sameButZoneID |].
  split; [apply UpdateMetadata_actuator |].
  split.
  { destruct (Delete_shape awsClient Dotted fuel s) as (sweep & ending & H).
    cbn zeta in H. destruct H as (_ & Hact & _). exact Hact. }
  split.
  { destruct (GetNameServers_shape awsClient s) as (events & _ & Hact & _). exact Hact. }
  reflexivity.
Qed.

End Methods.

Section ConditionsFurther.

Variable set :
  list DNSZoneCondition -> DNSZoneConditionType -> ConditionStatus -> string -> string ->
  UpdateConditionCheck -> list DNSZoneCondition * bool.
Variables accessGrantedReason accessDeniedReason : string.
Variables authenticationSucceededReason authenticationFailedReason : string.

(** The two setters, whatever the helper answers: they touch the conditions
    at most, and nothing when neither says it changed them. *)
Lemma twoSetters_frame :
  forall st1 r1 m1 p1 st2 r2 m2 p2 a,
    let res := twoSetters set st1 r1 m1 p1 st2 r2 m2 p2 a in
    hostedZone (snd res) = hostedZone a /\
    currentHostedZoneTags (snd res) = currentHostedZoneTags a /\
    Status_AWS (dnsZone (snd res)) = Status_AWS (dnsZone a) /\
    sameSpec (dnsZone a) (dnsZone (snd res)) /\
    (fst res = false -> snd res = a).
Proof.
  intros st1 r1 m1 p1 st2 r2 m2 p2 a. unfold twoSetters. cbn zeta. cbn [fst snd].
  destruct (storeConditions_frame
              (set (conditionsOf a) InsufficientCredentialsCondition st1 r1 m1 p1) a)
    as (A1 & A2 & A3 & A4 & _ & A6).
  cbn zeta in A1, A2, A3, A4, A6.
  set (step1 := storeConditions
                  (set (conditionsOf a) InsufficientCredentialsCondition st1 r1 m1 p1) a) in *.
  destruct (storeConditions_frame
              (set (conditionsOf (snd step1)) AuthenticationFailureCondition st2 r2 m2 p2)
              (snd step1))
    as (B1 & B2 & B3 & B4 & _ & B6).
  cbn zeta in B1, B2, B3, B4, B6.
  split; [congruence |]. split; [congruence |]. split; [congruence |].
  split; [exact (sameSpec_trans _ _ _ A4 B4) |].
  intros Hflag. apply orb_false_iff in Hflag. destruct Hflag as [H1 H2].
  rewrite (B6 H2). exact (A6 H1).
Qed.

Lemma SetConditionsForError_touches_conditions_only_aux :
  forall (err : option error) (a : AWSActuator),
    let res := SetConditionsForError set accessGrantedReason accessDeniedReason
                 authenticationSucceededReason authenticationFailedReason err a in
    hostedZone (snd res) = hostedZone a /\
    currentHostedZoneTags (snd res) = currentHostedZoneTags a /\
    Status_AWS (dnsZone (snd res)) = Status_AWS (dnsZone a) /\
    sameSpec (dnsZone a) (dnsZone (snd res)) /\
    (fst res = false -> snd res = a).
Proof.
  intros err a. cbn zeta. rewrite SetConditionsForError_twoSetters.
  destruct err as [[code message | msg] |]; apply twoSetters_frame.
Qed.

(** X10. [SetConditionsForError], whatever the helper does: it touches the
    conditions of the status and nothing else of the actuator (the cached
    zone, the cached tags, the zone of the status, identity and spec stay),
    and when it answers false the actuator is exactly what it was. *)
Theorem SetConditionsForError_touches_conditions_only :
  forall (err : option error) (a : AWSActuator),
    let res := SetConditionsForError set accessGrantedReason accessDeniedReason
                 authenticationSucceededReason authenticationFailedReason err a in
    hostedZone (snd res) = hostedZone a /\
    currentHostedZoneTags (snd res) = currentHostedZoneTags a /\
    Status_AWS (dnsZone (snd res)) = Status_AWS (dnsZone a) /\
    sameSpec (dnsZone a) (dnsZone (snd res)) /\
    (fst res = false -> snd res = a).
Proof.
  intros err a. cbn zeta. rewrite SetConditionsForError_twoSetters.
  destruct err as [[code message | msg] |]; apply twoSetters_frame.
Qed.

Hypothesis contract : SetterContract set.

Lemma twoSetters_second_true :
  forall st1 r1 m1 p1 r2 m2 a,
    findCondition
      (conditionsOf (snd (twoSetters set st1 r1 m1 p1 ConditionTrue r2 m2
                                     UpdateConditionIfReasonOrMessageChange a)))
      AuthenticationFailureCondition =
    Some (mkCondition AuthenticationFailureCondition ConditionTrue r2 m2).
Proof.
  intros st1 r1 m1 p1 r2 m2 a.
  destruct (twoSetters_spec set contract st1 r1 m1 p1 ConditionTrue r2 m2
              UpdateConditionIfReasonOrMessageChange a) as (_ & _ & _ & Hfinal).
  cbn zeta in Hfinal. rewrite Hfinal.
  set (step1 := storeConditions (set (conditionsOf a) InsufficientCredentialsCondition st1 r1 m1 p1) a).
  destruct (storeConditions_spec set contract (snd step1) AuthenticationFailureCondition
              ConditionTrue r2 m2 UpdateConditionIfReasonOrMessageChange) as (_ & Hset2 & Hkept2).
  cbn zeta in Hset2, Hkept2.
  destruct (fst (storeConditions
                   (set (conditionsOf (snd step1)) AuthenticationFailureCondition ConditionTrue
                        r2 m2 UpdateConditionIfReasonOrMessageChange) (snd step1))) eqn:H2.
  - destruct (Hset2 eq_refl) as [Hw _]. exact Hw.
  - destruct (Hkept2 eq_refl) as [Ha Hno]. rewrite Ha.
    exact (@true_kept set contract _ _ _ _ Hno).
Qed.

(** X11. The authentication side of [SetConditionsForError], for a helper
    that keeps [SetterContract]: a structured error with the code
    [InvalidSignatureException] or [UnrecognizedClientException] leaves the
    authentication-failure condition true with the message of the error as it
    came; any other code leaves it not signalled; and no error leaves both
    conditions signalled. *)
Theorem SetConditionsForError_authentication :
  forall (a : AWSActuator),
    let final := fun err =>
      conditionsOf (snd (SetConditionsForError set accessGrantedReason accessDeniedReason
                           authenticationSucceededReason authenticationFailedReason err a)) in
    (forall code message,
        code = "InvalidSignatureException" \/ code = "UnrecognizedClientException" ->
        findCondition (final (Some (AwsError code message))) AuthenticationFailureCondition =
          Some (mkCondition AuthenticationFailureCondition ConditionTrue
                  authenticationFailedReason message)) /\
    (forall code message,
        code <> "InvalidSignatureException" -> code <> "UnrecognizedClientException" ->
        conditionIsTrue (final (Some (AwsError code message))) AuthenticationFailureCondition
          = false) /\
    (forall err,
        conditionIsTrue (final err) InsufficientCredentialsCondition &&
        conditionIsTrue (final err) AuthenticationFailureCondition = false).
Proof.
  intros a final. split; [| split].
  - intros code message Hcode. unfold final. rewrite SetConditionsForError_twoSetters.
    assert (Hauth : isAuthenticationFailure code = true).
    { unfold isAuthenticationFailure. destruct Hcode as [-> | ->]; reflexivity. }
    rewrite Hauth. apply twoSetters_second_true.
  - intros code message H1 H2. unfold final. rewrite SetConditionsForError_twoSetters.
    assert (Hauth : isAuthenticationFailure code = false).
    { unfold isAuthenticationFailure. apply orb_false_iff.
      split; apply String.eqb_neq; assumption. }
    rewrite Hauth. apply (twoSetters_second_cleared set contract).
  - intros err. unfold final. rewrite SetConditionsForError_twoSetters.
    destruct err as [[code message | msg] |].
    + destruct (isAccessDenied code) eqn:Hden.
      * assert (Hauth : isAuthenticationFailure code = false).
        { unfold isAccessDenied in Hden. unfold isAuthenticationFailure.
          apply orb_true_iff in Hden. rewrite !String.eqb_eq in Hden.
          destruct Hden as [-> | ->]; reflexivity. }
        rewrite Hauth, (twoSetters_second_cleared set contract). apply andb_false_r.
      * rewrite (twoSetters_first_cleared set contract). reflexivity.
    + rewrite (twoSetters_first_cleared set contract). reflexivity.
    + rewrite (twoSetters_first_cleared set contract). reflexivity.
Qed.

End ConditionsFurther.

Section LifecycleFacts.

Context {W : Type}.
Variable AWSRoute53Region : string.
Variable Dotted : string -> string.
Variable set :
  list DNSZoneCondition -> DNSZoneConditionType -> ConditionStatus -> string -> string ->
  UpdateConditionCheck -> list DNSZoneCondition * bool.
Variables accessGrantedReason accessDeniedReason : string.
Variables authenticationSucceededReason authenticationFailedReason : string.

Lemma runMethod_keeps :
  forall (awsClient : Client W) (m : Method) (s : Sys W),
    let s' := runMethod awsClient Dotted set accessGrantedReason accessDeniedReason
                authenticationSucceededReason authenticationFailedReason m s in
    zoneRecorded (actuator s) ->
    zoneRecorded (actuator s') /\ sameSpec (dnsZone (actuator s)) (dnsZone (actuator s')).
Proof.
  intros awsClient m s s' Hs. subst s'.
  pose proof (UpdateMetadata_actuator awsClient s) as HU.
  destruct (GetNameServers_shape awsClient s) as (events & _ & HG & _).
  assert (HE : actuator (snd (Exists s)) = actuator s) by reflexivity.
  destruct m as [| fuel | | fuel | | | err]; cbn [runMethod].
  - split; [apply Refresh_keeps_recorded; exact Hs |].
    apply sameButZoneID_sameSpec. apply Refresh_sameButZoneID.
  - split; [apply Create_keeps_recorded; exact Hs |].
    apply sameButZoneID_sameSpec. apply Create_sameButZoneID.
  - rewrite HU. split; [exact Hs | repeat split].
  - destruct (Delete_shape awsClient Dotted fuel s) as (sweep & ending & H).
    cbn zeta in H. destruct H as (_ & Hact & _). rewrite Hact. split; [exact Hs | repeat split].
  - rewrite HG. split; [exact Hs | repeat split].
  - rewrite HE. split; [exact Hs | repeat split].
  - cbn [actuator].
    destruct (SetConditionsForError_touches_conditions_only_aux set accessGrantedReason
                accessDeniedReason authenticationSucceededReason authenticationFailedReason
                err (actuator s)) as (Hhz & _ & Hst & Hspec & _).
    cbn zeta in Hhz, Hst, Hspec.
    split; [| exact Hspec]. unfold zoneRecorded in *. rewrite Hhz, Hst. exact Hs.
Qed.

(** X12. The cached zone is the zone of the status, all along the life of an
    actuator: from the actuator [NewAWSActuator] builds, after any methods
    called in any order and whatever the provider and the conditions helper
    answer, a zone that is cached has its identifier in the status, and the
    identity and the spec of the DNSZone are those the actuator was built
    with. *)
Theorem cached_zone_is_recorded :
  forall (dnsZone0 : DNSZone) (awsClientBuilder : string -> result (Client W))
         (a : AWSActuator) (awsClient : Client W),
    NewAWSActuator AWSRoute53Region dnsZone0 awsClientBuilder = Ok (a, awsClient) ->
    forall (ms : list Method) (w : W),
      let s := runMethods awsClient Dotted set accessGrantedReason accessDeniedReason
                 authenticationSucceededReason authenticationFailedReason ms (mkSys a w []) in
      zoneRecorded (actuator s) /\ sameSpec dnsZone0 (dnsZone (actuator s)).
Proof.
  intros dnsZone0 awsClientBuilder a awsClient Hnew ms w.
  assert (Ha : a = mkAWSActuator None [] dnsZone0).
  { unfold NewAWSActuator in Hnew. destruct (Spec_AWS dnsZone0) as [aws |]; [| discriminate].
    cbn zeta in Hnew.
    destruct (awsClientBuilder _) as [c | e]; [| discriminate].
    inversion Hnew. reflexivity. }
  assert (Hgen : forall (ms : list Method) (s0 : Sys W),
             zoneRecorded (actuator s0) -> sameSpec dnsZone0 (dnsZone (actuator s0)) ->
             let s := runMethods awsClient Dotted set accessGrantedReason accessDeniedReason
                        authenticationSucceededReason authenticationFailedReason ms s0 in
             zoneRecorded (actuator s) /\ sameSpec dnsZone0 (dnsZone (actuator s))).
  { clear ms. induction ms as [| m ms IH]; intros s0 Hrec Hspec.
    - split; assumption.
    - cbn zeta. unfold runMethods. cbn [fold_left].
      destruct (runMethod_keeps awsClient m s0 Hrec) as [Hrec' Hspec'].
      apply IH; [exact Hrec' | exact (sameSpec_trans _ _ _ Hspec Hspec')]. }
  apply Hgen; rewrite Ha; [exact I | repeat split].
Qed.

End LifecycleFacts.

Lemma zonesAddressed_app :
  forall l1 l2, zonesAddressed (l1 ++ l2) = (zonesAddressed l1 ++ zonesAddressed l2)%list.
Proof. intros l1 l2. unfold zonesAddressed. apply flat_map_app. Qed.

Lemma cursorAfter_zone :
  forall pages listInput,
    lr_HostedZoneId (cursorAfter listInput pages) = lr_HostedZoneId listInput.
Proof.
  induction pages as [| page rest IH]; intros listInput; [reflexivity |].
  unfold cursorAfter in *. cbn [fold_left]. rewrite IH. reflexivity.
Qed.

Lemma zonesAddressed_sweepEvents :
  forall zoneID dotted pages listInput,
    lr_HostedZoneId listInput = zoneID ->
    Forall (fun z => z = zoneID) (zonesAddressed (sweepEvents zoneID dotted listInput pages)).
Proof.
  intros zoneID dotted pages. induction pages as [| page rest IH]; intros listInput Hid.
  - constructor.
  - cbn [sweepEvents]. rewrite zonesAddressed_app. apply Forall_app. split.
    + unfold roundEvents.
      destruct (recordSetChanges dotted (lro_ResourceRecordSets page)); cbn;
        repeat (constructor; try assumption; try reflexivity).
    + apply IH. exact Hid.
Qed.

Section MethodEdges.

Context {W : Type}.
Variable awsClient : Client W.
Variable Dotted : string -> string.

(** X13. [Delete] addresses the cached zone: the sweep reads the zone from
    the status and the deletion from the cached zone, and when the cached zone
    is the zone of the status every call of [Delete] names that zone, and
    [Delete] does not stop on a nil pointer. *)
Theorem Delete_addresses_the_cached_zone :
  forall (fuel : nat) (s : Sys W) (hz : HostedZone),
    hostedZone (actuator s) = Some hz ->
    zoneRecorded (actuator s) ->
    exists events : list Event,
      trace (snd (Delete awsClient Dotted fuel s)) = (trace s ++ events)%list /\
      Forall (fun z => z = hz_Id hz) (zonesAddressed events) /\
      fst (Delete awsClient Dotted fuel s) <> Panic.
Proof.
  intros fuel s hz Hhz Hrec. unfold zoneRecorded in Hrec. rewrite Hhz in Hrec.
  unfold Delete. run. rewrite Hhz. unfold DeleteAWSRecordSets. rewrite Hrec. cbn [ZoneID].
  destruct (deleteRecordSetsLoop_run awsClient Dotted fuel (dnsZone (actuator s)) (hz_Id hz)
              (mkListResourceRecordSetsInput (hz_Id hz) (Some "100") None None None) s)
    as (pages & last & Htr & _ & Hcases).
  cbn zeta in Htr, Hcases.
  set (first := mkListResourceRecordSetsInput _ _ _ _ _) in *.
  set (dotted := Dotted (Spec_Zone (dnsZone (actuator s)))) in *.
  assert (Hzones : Forall (fun z => z = hz_Id hz)
                     (zonesAddressed (sweepEvents (hz_Id hz) dotted first pages ++ last))).
  { rewrite zonesAddressed_app. apply Forall_app.
    split; [apply zonesAddressed_sweepEvents; reflexivity |].
    destruct Hcases as [(_ & Hl & _) | [(err & _ & _ & [Hl | (page & _ & Hl)]) | (_ & Hl & _)]];
      rewrite Hl; cbn; repeat constructor; apply (cursorAfter_zone pages first). }
  destruct (deleteRecordSetsLoop awsClient Dotted fuel (dnsZone (actuator s)) (hz_Id hz) first s)
    as [o s1].
  cbn [fst snd] in Htr |- *.
  destruct o as [[] | e | |].
  - destruct (DeleteHostedZone awsClient (hz_Id hz) (world s1)) as [r w2].
    exists ((sweepEvents (hz_Id hz) dotted first pages ++ last)
            ++ EvDeleteHostedZone (hz_Id hz) r
               :: match r with
                  | inl _ => []
                  | inr e => [EvLog (deleteLogLevel e) "Cannot delete hosted zone" e]
                  end)%list.
    split; [| split].
    + destruct r as [u | e]; cbn [fst snd trace]; rewrite Htr, <- !app_assoc; reflexivity.
    + rewrite zonesAddressed_app. apply Forall_app. split; [exact Hzones |].
      destruct r as [u | e]; cbn; repeat constructor.
    + destruct r as [u | e]; cbn; discriminate.
  - exists (sweepEvents (hz_Id hz) dotted first pages ++ last)%list.
    split; [exact Htr | split; [exact Hzones | discriminate]].
  - exfalso.
    destruct Hcases as [(Hf & _) | [(err & Hf & _) | (Hf & _)]]; cbn [fst] in Hf; discriminate.
  - exists (sweepEvents (hz_Id hz) dotted first pages ++ last)%list.
    split; [exact Htr | split; [exact Hzones | discriminate]].
Qed.

(** X14. [Refresh] by the zone of the status: with an identifier in the
    status there is no tag search and one fetch, of that identifier. A zone
    that is gone or has another name gives success with no zone cached, and
    the identifier stays in the status; any other error of the fetch is
    returned, also with no zone cached. A zone of the expected name is cached
    and its tags are listed; when the listing fails the zone stays cached with
    the tags cached before. *)
Theorem Refresh_by_recorded_zone :
  forall (s : Sys W) (st : AWSDNSZoneStatus) (id : string),
    Status_AWS (dnsZone (actuator s)) = Some st ->
    ZoneID st = Some id ->
    let answer := GetHostedZone awsClient (Some id) (world s) in
    let res := Refresh awsClient Dotted s in
    exists tail : list Event,
      trace (snd res) = (trace s ++ EvGetHostedZone (Some id) (fst answer) :: tail)%list /\
      match fst answer with
      | inr err =>
          tail = [] /\
          fst res = (if isAwsCode ErrCodeNoSuchHostedZone err then Ok tt else Fail err) /\
          actuator (snd res) = set_hostedZone None (actuator s)
      | inl hz =>
          match hz_Name hz with
          | None => tail = [] /\ fst res = Panic
          | Some name =>
              if String.eqb name (Dotted (Spec_Zone (dnsZone (actuator s))))
              then
                let listing := ListTagsForResource awsClient (hz_Id hz) (snd answer) in
                tail = [EvListTagsForResource (hz_Id hz) (fst listing)] /\
                fst res = match fst listing with inl _ => Ok tt | inr e => Fail e end /\
                actuator (snd res) =
                  mkAWSActuator (Some hz)
                    match fst listing with
                    | inl tags => tags
                    | inr _ => currentHostedZoneTags (actuator s)
                    end
                    (set_Status_AWS (Some (mkAWSDNSZoneStatus (hz_Id hz))) (dnsZone (actuator s)))
              else
                tail = [] /\ fst res = Ok tt /\
                actuator (snd res) = set_hostedZone None (actuator s)
          end
      end.
Proof.
  intros s st id Hst Hid answer res. subst res.
  assert (Hlookup : lookupZoneIDs awsClient s = (Ok [id], s)).
  { unfold lookupZoneIDs. run. rewrite Hst, Hid. reflexivity. }
  unfold Refresh. rewrite bind_assoc_run, Hlookup. cbn [length Nat.eqb]. run.
  rewrite refreshLoop_step. cbn zeta. cbn [actuator world trace]. fold answer.
  destruct answer as [r w1]. cbn [fst snd].
  destruct r as [hz | err].
  - destruct (hz_Name hz) as [name |].
    + cbn [set_hostedZone dnsZone].
      destruct (String.eqb name (Dotted (Spec_Zone (dnsZone (actuator s))))).
      * cbn [refreshLoop]. run. cbn [resolve hostedZone]. unfold existingTags. run.
        destruct (ListTagsForResource awsClient (hz_Id hz) w1) as [rt w2]. cbn [fst snd].
        exists [EvListTagsForResource (hz_Id hz) rt].
        destruct rt as [tags | e]; cbn;
          (split; [rewrite <- app_assoc; reflexivity | repeat split]).
      * cbn [refreshLoop]. run. cbn [hostedZone set_hostedZone].
        exists []. repeat split.
    + exists []. repeat split.
  - destruct (isAwsCode ErrCodeNoSuchHostedZone err).
    + cbn [refreshLoop]. run. cbn [hostedZone set_hostedZone].
      exists []. repeat split.
    + exists []. repeat split.
Qed.

(** X15. [Refresh] by the tag search: without an identifier in the status
    [Refresh] first asks for the resources of type [route53:hostedzone] that
    carry the ownership tag of the DNSZone. An error of the search is
    returned with the actuator as it was, whatever pages came before it; a
    search that yields no identifier is a success with the actuator as it
    was, so a zone cached before stays cached. *)
Theorem Refresh_by_tag_search :
  forall (s : Sys W),
    match Status_AWS (dnsZone (actuator s)) with
    | Some st => ZoneID st
    | None => None
    end = None ->
    let input := mkGetResourcesInput
                   [Some "route53:hostedzone"]
                   (Some hiveDNSZoneAWSTag)
                   [Some (Namespace (dnsZone (actuator s)) ++ "/" ++ Name (dnsZone (actuator s)))] in
    let search := GetResourcesPages awsClient input (world s) in
    let res := Refresh awsClient Dotted s in
    exists tail : list Event,
      trace (snd res) =
        (trace s ++ EvGetResourcesPages input (fst (fst search)) (snd (fst search)) :: tail)%list /\
      match snd (fst search) with
      | Some err => tail = [] /\ fst res = Fail err /\ actuator (snd res) = actuator s
      | None =>
          match collectIDs (fst (fst search)) with
          | [] => tail = [] /\ fst res = Ok tt /\ actuator (snd res) = actuator s
          | zoneID :: _ =>
              exists r rest, tail = EvGetHostedZone (Some zoneID) r :: rest
          end
      end.
Proof.
  intros s Hnone input search res. subst res.
  assert (Hlookup : lookupZoneIDs awsClient s = findZoneIDsByTag awsClient s).
  { unfold lookupZoneIDs. run.
    destruct (Status_AWS (dnsZone (actuator s))) as [st |]; [| reflexivity].
    rewrite Hnone. reflexivity. }
  unfold Refresh. rewrite bind_assoc_run, Hlookup. unfold findZoneIDsByTag. run.
  fold input. fold search. destruct search as [[pages err] w1]. cbn [fst snd].
  destruct err as [e |].
  - exists []. repeat split.
  - destruct (collectIDs pages) as [| zoneID rest] eqn:Hids.
    + exists []. repeat split.
    + cbn [length Nat.eqb]. run.
      set (s2 := mkSys _ w1 _).
      destruct (refreshLoop_run awsClient Dotted (zoneID :: rest) s2)
        as (answers & Htr & _ & _ & Hres).
      cbn zeta in Htr, Hres.
      assert (Hfirst : exists r more, fetchEvents (zoneID :: rest) answers
                                      = EvGetHostedZone (Some zoneID) r :: more).
      { destruct answers as [| r answers'].
        - exfalso. destruct Hres as [(_ & _ & Hlen) | [(init & err & Ha & _) | (init & hz & Ha & _)]].
          + discriminate Hlen.
          + destruct init; discriminate Ha.
          + destruct init; discriminate Ha.
        - exists r. eexists. reflexivity. }
      destruct Hfirst as (r & more & Hfetch). rewrite Hfetch in Htr.
      destruct (refreshLoop awsClient Dotted (zoneID :: rest) s2) as [o s3].
      cbn [snd] in Htr.
      assert (Hs2 : trace s2 = (trace s ++ [EvGetResourcesPages input pages None])%list)
        by reflexivity.
      destruct o as [[] | e | |].
      * destruct (hostedZone (actuator s3)) as [hz |].
        -- unfold existingTags. run.
           destruct (ListTagsForResource awsClient (hz_Id hz) (world s3)) as [rt w4].
           exists (EvGetHostedZone (Some zoneID) r :: more ++ [EvListTagsForResource (hz_Id hz) rt])%list.
           split; [| exists r; eexists; reflexivity].
           destruct rt as [tags | e]; cbn [fst snd trace]; rewrite Htr, Hs2, <- !app_assoc;
             reflexivity.
        -- exists (EvGetHostedZone (Some zoneID) r :: more).
           split; [| exists r, more; reflexivity].
           cbn [fst snd trace]. rewrite Htr, Hs2, <- !app_assoc. reflexivity.
      * exists (EvGetHostedZone (Some zoneID) r :: more).
        split; [| exists r, more; reflexivity].
        cbn [fst snd trace]. rewrite Htr, Hs2, <- !app_assoc. reflexivity.
      * exists (EvGetHostedZone (Some zoneID) r :: more).
        split; [| exists r, more; reflexivity].
        cbn [fst snd trace]. rewrite Htr, Hs2, <- !app_assoc. reflexivity.
      * exists (EvGetHostedZone (Some zoneID) r :: more).
        split; [| exists r, more; reflexivity].
        cbn [fst snd trace]. rewrite Htr, Hs2, <- !app_assoc. reflexivity.
Qed.

(** X16. [Create] of a zone that did not exist: there is no listing by name;
    the tags of the new zone are listed. When the listing fails its error is
    returned and the actuator is as it was, the zone created but not cached.
    When it succeeds the zone is cached, its identifier is written to the
    status, and the cached tags are the tags as listed, before the tag
    changes that follow, whether those succeed or not. *)
Theorem Create_of_new_zone :
  forall (fuel : nat) (s : Sys W) (zone : HostedZone) (w1 : W),
    CreateHostedZone awsClient
      (mkCreateHostedZoneInput (Some (Spec_Zone (dnsZone (actuator s))))
                               (Some (UID (dnsZone (actuator s))))) (world s) = (inl zone, w1) ->
    let input := mkCreateHostedZoneInput (Some (Spec_Zone (dnsZone (actuator s))))
                                         (Some (UID (dnsZone (actuator s)))) in
    let listing := ListTagsForResource awsClient (hz_Id zone) w1 in
    let res := Create awsClient fuel s in
    exists (inputs : list ChangeTagsForResourceInput) (answers : list (result unit)),
      trace (snd res) =
        (trace s ++ EvCreateHostedZone input (inl zone)
                 :: EvListTagsForResource (hz_Id zone) (fst listing)
                 :: tagEvents inputs answers)%list /\
      match fst listing with
      | inr e => inputs = [] /\ fst res = Fail e /\ actuator (snd res) = actuator s
      | inl tags =>
          actuator (snd res) =
            mkAWSActuator (Some zone) tags
              (set_Status_AWS (Some (mkAWSDNSZoneStatus (hz_Id zone))) (dnsZone (actuator s)))
      end.
Proof.
  intros fuel s zone w1 Hcreate input listing res. subst res.
  rewrite Create_unfold. cbn zeta. fold input. fold input in Hcreate. rewrite Hcreate.
  cbn [fst snd].
  unfold finishCreate, existingTags. run. fold listing.
  destruct listing as [r w2]. cbn [fst snd].
  destruct r as [tags | e].
  - unfold modifyStatus. run. cbn [set_hostedZone hostedZone].
    match goal with |- context [syncTags awsClient ?x] => set (s4 := x) end.
    destruct (syncTags_frame awsClient s4) as (inputs & answers & Hsnd & _).
    exists inputs, answers. rewrite Hsnd. cbn [trace actuator]. subst s4. cbn [trace actuator].
    split; [rewrite <- !app_assoc; reflexivity | reflexivity].
  - exists [], []. cbn. split; [rewrite <- app_assoc; reflexivity | repeat split].
Qed.

End MethodEdges.

Lemma SplitN_piece :
  forall (sep : ascii) (a rest : string) (n : nat),
    noChar sep a = true ->
    SplitN (S (S n)) sep (a ++ String sep rest) = a :: SplitN (S n) sep rest.
Proof.
  intros sep a rest n. induction a as [| c a IH]; intros Ha.
  - cbn [append SplitN]. rewrite Ascii.eqb_refl. reflexivity.
  - cbn [noChar] in Ha. apply andb_true_iff in Ha. destruct Ha as [Hc Ha].
    apply negb_true_iff in Hc.
    change ((String c a ++ String sep rest)%string) with (String c (a ++ String sep rest)).
    cbn [SplitN]. rewrite Hc. rewrite (IH Ha). reflexivity.
Qed.

Lemma Split_piece :
  forall (sep : ascii) (a rest : string),
    noChar sep a = true ->
    Split (a ++ String sep rest) sep = a :: Split rest sep.
Proof.
  intros sep a rest. induction a as [| c a IH]; intros Ha.
  - cbn [append Split]. rewrite Ascii.eqb_refl. reflexivity.
  - cbn [noChar] in Ha. apply andb_true_iff in Ha. destruct Ha as [Hc Ha].
    apply negb_true_iff in Hc.
    change ((String c a ++ String sep rest)%string) with (String c (a ++ String sep rest)).
    cbn [Split]. rewrite Hc. rewrite (IH Ha). reflexivity.
Qed.

Lemma Split_whole :
  forall (sep : ascii) (a : string), noChar sep a = true -> Split a sep = [a].
Proof.
  intros sep a. induction a as [| c a IH]; intros Ha; [reflexivity |].
  cbn [noChar] in Ha. apply andb_true_iff in Ha. destruct Ha as [Hc Ha].
  apply negb_true_iff in Hc. cbn [Split]. rewrite Hc, (IH Ha). reflexivity.
Qed.

Lemma Split_length :
  forall (sep : ascii) (s : string), 1 <= length (Split s sep).
Proof.
  intros sep s. induction s as [| c s IH]; cbn [Split]; [cbn; lia |].
  destruct (Ascii.eqb c sep); [cbn; lia |].
  destruct (Split s sep); cbn in *; lia.
Qed.

Lemma arnParse_arnString :
  forall partition service region account resource,
    noChar ":" partition = true -> noChar ":" service = true ->
    noChar ":" region = true -> noChar ":" account = true ->
    arnParse (arnString partition service region account resource) =
      Some (mkARN partition service region account resource).
Proof.
  intros p sv r acct res Hp Hs Hr Ha. unfold arnParse, arnString.
  change ("arn:" ++ p ++ ":" ++ sv ++ ":" ++ r ++ ":" ++ acct ++ ":" ++ res)%string
    with ("arn" ++ String ":" (p ++ String ":" (sv ++ String ":" (r ++ String ":"
            (acct ++ String ":" res)))))%string.
  assert (Hprefix : forall x, String.prefix "arn:" ("arn" ++ String ":" x) = true).
  { intros x. apply prefix_correct. cbn. destruct x; reflexivity. }
  rewrite Hprefix. cbn [negb].
  rewrite (SplitN_piece ":" "arn") by reflexivity.
  rewrite (SplitN_piece ":" p) by exact Hp.
  rewrite (SplitN_piece ":" sv) by exact Hs.
  rewrite (SplitN_piece ":" r) by exact Hr.
  rewrite (SplitN_piece ":" acct) by exact Ha.
  destruct res; reflexivity.
Qed.

(** X17. The identifiers the tag search collects: of a well-formed ARN whose
    resource is a kind, one slash and a name without slash, [findZoneIDsByTag]
    takes the name when the kind is [hostedzone] (colons in the name are
    kept), and skips the resource when the kind is another one, when the name
    holds a further slash, or when there is no slash at all; a nil ARN is
    skipped. *)
Theorem zoneIDOfARN_of_hosted_zone :
  forall partition service region account kind name,
    noChar ":" partition = true -> noChar ":" service = true ->
    noChar ":" region = true -> noChar ":" account = true ->
    noChar "/" kind = true ->
    zoneIDOfARN (Some (arnString partition service region account (kind ++ "/" ++ name))) =
      (if noChar "/" name && String.eqb kind "hostedzone" then Some name else None) /\
    zoneIDOfARN (Some (arnString partition service region account kind)) = None /\
    zoneIDOfARN None = None.
Proof.
  intros p sv r acct kind name Hp Hs Hr Ha Hk. split; [| split].
  - unfold zoneIDOfARN. cbn [StringValue].
    rewrite (arnParse_arnString p sv r acct _ Hp Hs Hr Ha). cbn [arn_Resource].
    change (kind ++ "/" ++ name)%string with (kind ++ String "/" name)%string.
    rewrite (Split_piece "/" kind name Hk).
    destruct (noChar "/" name) eqn:Hn.
    + rewrite (Split_whole "/" name Hn). cbn [andb].
      destruct (String.eqb kind "hostedzone"); reflexivity.
    + cbn [andb].
      assert (Hlen : 2 <= length (Split name "/")).
      { clear - Hn. induction name as [| c name IH]; [discriminate Hn |].
        cbn [noChar] in Hn. cbn [Split].
        destruct (Ascii.eqb c "/") eqn:Hc.
        - pose proof (Split_length "/" name). cbn [length]. lia.
        - cbn [negb andb] in Hn. specialize (IH Hn).
          destruct (Split name "/"); cbn in *; lia. }
      destruct (Split name "/") as [| e1 [| e2 more]]; cbn in Hlen; try lia. reflexivity.
  - unfold zoneIDOfARN. cbn [StringValue].
    rewrite (arnParse_arnString p sv r acct _ Hp Hs Hr Ha). cbn [arn_Resource].
    rewrite (Split_whole "/" kind Hk). reflexivity.
  - reflexivity.
Qed.

Section BuilderFacts.

Import clusterdeployment.

Lemma setCondition_found :
  forall cond conditions,
    conditionOfType (cdc_Type cond) (setCondition cond conditions) = Some cond.
Proof.
  intros cond conditions. induction conditions as [| c rest IH]; cbn [setCondition].
  - cbn. rewrite String.eqb_refl. reflexivity.
  - destruct (String.eqb (cdc_Type c) (cdc_Type cond)) eqn:Hc; cbn [conditionOfType].
    + rewrite String.eqb_refl. reflexivity.
    + rewrite Hc. exact IH.
Qed.

Lemma setCondition_other :
  forall cond conditions t,
    String.eqb (cdc_Type cond) t = false ->
    conditionOfType t (setCondition cond conditions) = conditionOfType t conditions.
Proof.
  intros cond conditions t Ht. induction conditions as [| c rest IH]; cbn [setCondition].
  - cbn. rewrite Ht. reflexivity.
  - destruct (String.eqb (cdc_Type c) (cdc_Type cond)) eqn:Hc; cbn [conditionOfType].
    + apply String.eqb_eq in Hc. rewrite Hc, Ht. reflexivity.
    + rewrite IH. reflexivity.
Qed.

Lemma setCondition_types :
  forall cond conditions,
    map cdc_Type (setCondition cond conditions) =
      if existsb (String.eqb (cdc_Type cond)) (map cdc_Type conditions)
      then map cdc_Type conditions
      else (map cdc_Type conditions ++ [cdc_Type cond])%list.
Proof.
  intros cond conditions. induction conditions as [| c rest IH]; cbn [setCondition]; [reflexivity |].
  cbn [map existsb]. rewrite (String.eqb_sym (cdc_Type cond) (cdc_Type c)).
  destruct (String.eqb (cdc_Type c) (cdc_Type cond)) eqn:Hc; cbn [orb map].
  - apply String.eqb_eq in Hc. rewrite Hc. reflexivity.
  - rewrite IH. destruct (existsb _ _); reflexivity.
Qed.

Lemma setCondition_again :
  forall cond conditions,
    setCondition cond (setCondition cond conditions) = setCondition cond conditions.
Proof.
  intros cond conditions. induction conditions as [| c rest IH]; cbn [setCondition].
  - rewrite String.eqb_refl. reflexivity.
  - destruct (String.eqb (cdc_Type c) (cdc_Type cond)) eqn:Hc; cbn [setCondition].
    + rewrite String.eqb_refl. reflexivity.
    + rewrite Hc, IH. reflexivity.
Qed.

Lemma existsb_eqb_In :
  forall (t : string) (l : list string), existsb (String.eqb t) l = true <-> In t l.
Proof.
  intros t l. rewrite existsb_exists. split.
  - intros (x & Hin & Hx). apply String.eqb_eq in Hx. subst x. exact Hin.
  - intros Hin. exists t. split; [exact Hin | apply String.eqb_refl].
Qed.

Lemma setCondition_NoDup :
  forall cond conditions,
    NoDup (map cdc_Type conditions) -> NoDup (map cdc_Type (setCondition cond conditions)).
Proof.
  intros cond conditions Hnd. rewrite setCondition_types.
  destruct (existsb (String.eqb (cdc_Type cond)) (map cdc_Type conditions)) eqn:He; [exact Hnd |].
  apply NoDup_app; [exact Hnd | repeat constructor; intros [] |].
  intros t Hin [Ht | []]. subst t.
  apply existsb_eqb_In in Hin. congruence.
Qed.

(** X18. [WithCondition] sets the condition of its type and no other: after
    it the first condition of that type is the given one, the first condition
    of any other type is what it was, the types stand where they stood (the
    type is added at the end when it was not there), nothing but the
    conditions is changed, and giving the same condition again changes
    nothing. *)
Theorem WithCondition_sets_the_condition :
  forall (cond : ClusterDeploymentCondition) (cd : ClusterDeployment),
    let cd' := WithCondition cond cd in
    conditionOfType (cdc_Type cond) (cd_Status_Conditions cd') = Some cond /\
    (forall t, String.eqb (cdc_Type cond) t = false ->
               conditionOfType t (cd_Status_Conditions cd') =
               conditionOfType t (cd_Status_Conditions cd)) /\
    map cdc_Type (cd_Status_Conditions cd') =
      (if existsb (String.eqb (cdc_Type cond)) (map cdc_Type (cd_Status_Conditions cd))
       then map cdc_Type (cd_Status_Conditions cd)
       else (map cdc_Type (cd_Status_Conditions cd) ++ [cdc_Type cond])%list) /\
    set_Conditions (cd_Status_Conditions cd) cd' = cd /\
    WithCondition cond cd' = cd'.
Proof.
  intros cond cd cd'. subst cd'. unfold WithCondition. cbn [cd_Status_Conditions set_Conditions].
  split; [apply setCondition_found |].
  split; [intros t Ht; apply setCondition_other; exact Ht |].
  split; [apply setCondition_types |].
  split; [destruct cd; reflexivity |].
  rewrite setCondition_again. reflexivity.
Qed.

(** What one choice does to each field. *)
Lemma optionOf_fields :
  forall (c : Choice) (cd : ClusterDeployment),
    cd_Name (optionOf c cd) = cd_Name cd /\
    cd_Namespace (optionOf c cd) = cd_Namespace cd /\
    cd_Spec_ClusterMetadata (optionOf c cd) = cd_Spec_ClusterMetadata cd /\
    cd_Spec_APIURLOverride (optionOf c cd) = cd_Spec_APIURLOverride cd /\
    cd_Spec_ClusterPoolRef (optionOf c cd) =
      match givesClusterPoolRef c with Some v => v | None => cd_Spec_ClusterPoolRef cd end /\
    cd_Spec_Installed (optionOf c cd) =
      match givesInstalled c with Some v => v | None => cd_Spec_Installed cd end /\
    cd_Status_InstalledTimestamp (optionOf c cd) =
      match givesInstalledTimestamp c with
      | Some v => v
      | None => cd_Status_InstalledTimestamp cd
      end /\
    cd_Status_InstallRestarts (optionOf c cd) =
      match givesInstallRestarts c with Some v => v | None => cd_Status_InstallRestarts cd end /\
    cd_Spec_PowerState (optionOf c cd) =
      match givesPowerState c with Some v => v | None => cd_Spec_PowerState cd end /\
    cd_Spec_HibernateAfter (optionOf c cd) =
      match givesHibernateAfter c with Some v => v | None => cd_Spec_HibernateAfter cd end /\
    cd_Spec_Platform_AWS (optionOf c cd) =
      match givesAWSPlatform c with Some v => v | None => cd_Spec_Platform_AWS cd end.
Proof. intros c cd. destruct c; cbn; repeat split. Qed.

Lemma optionOf_conditions :
  forall (c : Choice) (cd : ClusterDeployment),
    cd_Status_Conditions (optionOf c cd) =
      match c with
      | CWithCondition cond => setCondition cond (cd_Status_Conditions cd)
      | _ => cd_Status_Conditions cd
      end.
Proof. intros c cd. destruct c; reflexivity. Qed.

(** The options applied to an object, as [Build] applies them to the zero
    object. *)
Lemma fold_choices_fields :
  forall (choices : list Choice) (cd0 : ClusterDeployment),
    let cd := fold_left (fun retval o => o retval) (map optionOf choices) cd0 in
    cd_Name cd = cd_Name cd0 /\
    cd_Namespace cd = cd_Namespace cd0 /\
    cd_Spec_ClusterMetadata cd = cd_Spec_ClusterMetadata cd0 /\
    cd_Spec_APIURLOverride cd = cd_Spec_APIURLOverride cd0 /\
    cd_Spec_ClusterPoolRef cd = lastGiven givesClusterPoolRef choices (cd_Spec_ClusterPoolRef cd0) /\
    cd_Spec_Installed cd = lastGiven givesInstalled choices (cd_Spec_Installed cd0) /\
    cd_Status_InstalledTimestamp cd =
      lastGiven givesInstalledTimestamp choices (cd_Status_InstalledTimestamp cd0) /\
    cd_Status_InstallRestarts cd =
      lastGiven givesInstallRestarts choices (cd_Status_InstallRestarts cd0) /\
    cd_Spec_PowerState cd = lastGiven givesPowerState choices (cd_Spec_PowerState cd0) /\
    cd_Spec_HibernateAfter cd = lastGiven givesHibernateAfter choices (cd_Spec_HibernateAfter cd0) /\
    cd_Spec_Platform_AWS cd = lastGiven givesAWSPlatform choices (cd_Spec_Platform_AWS cd0).
Proof.
  induction choices as [| c rest IH]; intros cd0.
  - cbn. repeat split.
  - cbn zeta. cbn [map fold_left]. unfold lastGiven. cbn [fold_left].
    destruct (IH (optionOf c cd0)) as (H1 & H2 & H3 & H4 & H5 & H6 & H7 & H8 & H9 & H10 & H11).
    cbn zeta in H1, H2, H3, H4, H5, H6, H7, H8, H9, H10, H11. unfold lastGiven in *.
    destruct (optionOf_fields c cd0) as (G1 & G2 & G3 & G4 & G5 & G6 & G7 & G8 & G9 & G10 & G11).
    rewrite H1, H2, H3, H4, H5, H6, H7, H8, H9, H10, H11.
    rewrite G1, G2, G3, G4, G5, G6, G7, G8, G9, G10, G11.
    repeat split.
Qed.

Lemma installed_with_timestamp :
  forall (choices : list Choice) (installed : bool) (stamp : option Z),
    match stamp with Some _ => installed = true | None => True end ->
    match lastGiven givesInstalledTimestamp choices stamp with
    | Some _ => lastGiven givesInstalled choices installed = true
    | None => True
    end.
Proof.
  induction choices as [| c rest IH]; intros installed stamp H; [exact H |].
  unfold lastGiven in *. cbn [fold_left]. apply IH.
  destruct c; cbn; try exact H; try reflexivity.
  destruct stamp; [reflexivity | exact I].
Qed.

Lemma fold_choices_conditions :
  forall (choices : list Choice) (cd0 : ClusterDeployment),
    let cd := fold_left (fun retval o => o retval) (map optionOf choices) cd0 in
    map cdc_Type (cd_Status_Conditions cd) =
      typesGiven choices (map cdc_Type (cd_Status_Conditions cd0)) /\
    (NoDup (map cdc_Type (cd_Status_Conditions cd0)) ->
     NoDup (map cdc_Type (cd_Status_Conditions cd))) /\
    (forall t, conditionOfType t (cd_Status_Conditions cd) =
               lastGiven (givesCondition t) choices
                 (conditionOfType t (cd_Status_Conditions cd0))).
Proof.
  induction choices as [| c rest IH]; intros cd0.
  - cbn. repeat split. intros H; exact H.
  - cbn zeta. cbn [map fold_left].
    destruct (IH (optionOf c cd0)) as (Htypes & Hnd & Hlast). cbn zeta in Htypes, Hnd, Hlast.
    rewrite optionOf_conditions in Htypes, Hnd, Hlast.
    split; [| split].
    + rewrite Htypes. destruct c; try reflexivity.
      cbn [typesGiven]. rewrite setCondition_types. reflexivity.
    + intros H0. apply Hnd. destruct c; try exact H0. apply setCondition_NoDup. exact H0.
    + intros t. rewrite Hlast. unfold lastGiven. cbn [fold_left].
      destruct c; try reflexivity. cbn [givesCondition].
      destruct (String.eqb (cdc_Type cond) t) eqn:Ht.
      * apply String.eqb_eq in Ht. subst t. rewrite setCondition_found. reflexivity.
      * rewrite (setCondition_other _ _ _ Ht). reflexivity.
Qed.

(** X19. The conditions [Build] leaves: whatever options are given and in
    whatever order, there is at most one condition of each type; the types
    stand in the order they were first given; and the condition of a type is
    the one given last for it. *)
Theorem Build_one_condition_per_type :
  forall (choices : list Choice),
    let cd := Build (map optionOf choices) in
    NoDup (map cdc_Type (cd_Status_Conditions cd)) /\
    map cdc_Type (cd_Status_Conditions cd) = typesGiven choices [] /\
    (forall t, conditionOfType t (cd_Status_Conditions cd) =
               lastGiven (givesCondition t) choices None).
Proof.
  intros choices cd. subst cd. unfold Build.
  destruct (fold_choices_conditions choices zero) as (Htypes & Hnd & Hlast).
  cbn zeta in Htypes, Hnd, Hlast.
  split; [apply Hnd; constructor | split; [exact Htypes | exact Hlast]].
Qed.

(** X20. The other fields [Build] leaves: each is what the last option for it
    gave, or the zero value when no option was for it, so options for
    different fields may come in any order; [InstalledTimestamp] is also an
    option for the installed flag, so an object with an installed timestamp
    is installed; the name and the namespace stay empty. *)
Theorem Build_last_option_wins :
  forall (choices : list Choice),
    let cd := Build (map optionOf choices) in
    cd_Spec_ClusterPoolRef cd = lastGiven givesClusterPoolRef choices None /\
    cd_Spec_Installed cd = lastGiven givesInstalled choices false /\
    cd_Status_InstalledTimestamp cd = lastGiven givesInstalledTimestamp choices None /\
    cd_Status_InstallRestarts cd = lastGiven givesInstallRestarts choices 0%Z /\
    cd_Spec_PowerState cd = lastGiven givesPowerState choices "" /\
    cd_Spec_HibernateAfter cd = lastGiven givesHibernateAfter choices None /\
    cd_Spec_Platform_AWS cd = lastGiven givesAWSPlatform choices None /\
    match cd_Status_InstalledTimestamp cd with
    | Some _ => cd_Spec_Installed cd = true
    | None => True
    end /\
    cd_Name cd = "" /\ cd_Namespace cd = "".
Proof.
  intros choices cd. subst cd. unfold Build.
  destruct (fold_choices_fields choices zero)
    as (H1 & H2 & _ & _ & H5 & H6 & H7 & H8 & H9 & H10 & H11).
  cbn zeta in H1, H2, H5, H6, H7, H8, H9, H10, H11.
  repeat (split; [assumption |]).
  split; [| split; assumption].
  rewrite H7, H6. apply installed_with_timestamp. exact I.
Qed.

End BuilderFacts.

Section TestBuilderFacts.

Import clusterdeployment.
Import unreachable.

Variables UnreachableCondition ActiveAPIURLOverrideCondition : string.

(** What one option of the tests does to the object. *)
Lemma optionOfStep_fields :
  forall (s : Step) (cd : ClusterDeployment),
    let cd' := optionOfStep UnreachableCondition ActiveAPIURLOverrideCondition s cd in
    cd_Name cd' = cd_Name cd /\ cd_Namespace cd' = cd_Namespace cd /\
    cd_Spec_Installed cd' = cd_Spec_Installed cd /\
    cd_Spec_ClusterMetadata cd' = cd_Spec_ClusterMetadata cd /\
    cd_Spec_APIURLOverride cd' =
      (if isAPIURLOverride s then "some-api-url" else cd_Spec_APIURLOverride cd) /\
    cd_Status_Conditions cd' =
      match conditionOfStep UnreachableCondition ActiveAPIURLOverrideCondition s with
      | Some cond => setCondition cond (cd_Status_Conditions cd)
      | None => cd_Status_Conditions cd
      end.
Proof. intros s cd. destruct s; cbn; repeat split. Qed.

Lemma fold_steps :
  forall (steps : list Step) (cd0 cd1 : ClusterDeployment),
    cd_Status_Conditions cd0 = cd_Status_Conditions cd1 ->
    let cd := fold_left (fun retval o => o retval)
                (map (optionOfStep UnreachableCondition ActiveAPIURLOverrideCondition) steps)
                cd0 in
    cd_Name cd = cd_Name cd0 /\ cd_Namespace cd = cd_Namespace cd0 /\
    cd_Spec_Installed cd = cd_Spec_Installed cd0 /\
    cd_Spec_ClusterMetadata cd = cd_Spec_ClusterMetadata cd0 /\
    cd_Spec_APIURLOverride cd =
      (if existsb isAPIURLOverride steps then "some-api-url" else cd_Spec_APIURLOverride cd0) /\
    cd_Status_Conditions cd =
      cd_Status_Conditions
        (fold_left (fun retval o => o retval)
           (map WithCondition
              (conditionsGiven UnreachableCondition ActiveAPIURLOverrideCondition steps))
           cd1).
Proof.
  induction steps as [| s rest IH]; intros cd0 cd1 Heq cd; subst cd.
  - cbn. repeat split. exact Heq.
  - cbn [map fold_left existsb].
    destruct (optionOfStep_fields s cd0) as (F1 & F2 & F3 & F4 & F5 & F6).
    cbn zeta in F1, F2, F3, F4, F5, F6.
    unfold conditionsGiven. cbn [flat_map].
    fold (conditionsGiven UnreachableCondition ActiveAPIURLOverrideCondition rest).
    destruct (conditionOfStep UnreachableCondition ActiveAPIURLOverrideCondition s)
      as [cond |] eqn:Hcond.
    + cbn [app map fold_left].
      destruct (IH (optionOfStep UnreachableCondition ActiveAPIURLOverrideCondition s cd0)
                   (WithCondition cond cd1)) as (I1 & I2 & I3 & I4 & I5 & I6).
      { rewrite F6. unfold WithCondition. cbn [cd_Status_Conditions set_Conditions].
        rewrite Heq. reflexivity. }
      cbn zeta in I1, I2, I3, I4, I5, I6.
      rewrite I1, I2, I3, I4, I5, I6, F1, F2, F3, F4, F5.
      repeat split. destruct s; try discriminate Hcond; cbn [isAPIURLOverride orb]; reflexivity.
    + cbn [app].
      destruct (IH (optionOfStep UnreachableCondition ActiveAPIURLOverrideCondition s cd0) cd1)
        as (I1 & I2 & I3 & I4 & I5 & I6).
      { rewrite F6. exact Heq. }
      cbn zeta in I1, I2, I3, I4, I5, I6.
      rewrite I1, I2, I3, I4, I5, I6, F1, F2, F3, F4, F5.
      repeat split. destruct s; try discriminate Hcond. cbn [isAPIURLOverride orb].
      destruct (existsb isAPIURLOverride rest); reflexivity.
Qed.

(** X21. What every test case of the unreachable controller starts from.
    The cases pass to [buildClusterDeployment] options of the test file only:
    [withUnreachableCondition], [withActiveAPIURLOverrideCondition] and
    [withAPIURLOverride]. Whatever of these three a case passes, in whatever
    number and order, the object has the name and the namespace of the tests,
    is installed and has its cluster metadata; its API URL override is
    [some-api-url] when [withAPIURLOverride] is among them and empty
    otherwise; it has at most one condition of each type, the condition of a
    type being the one given last for it; and its conditions are those
    [Build] gives for the conditions of the condition options alone. *)
Theorem buildClusterDeployment_base :
  forall (steps : list Step),
    let cd := buildClusterDeployment
                (map (optionOfStep UnreachableCondition ActiveAPIURLOverrideCondition) steps) in
    let conditions := conditionsGiven UnreachableCondition ActiveAPIURLOverrideCondition steps in
    cd_Name cd = testName /\
    cd_Namespace cd = testNamespace /\
    cd_Spec_Installed cd = true /\
    cd_Spec_ClusterMetadata cd = Some tt /\
    cd_Spec_APIURLOverride cd =
      (if existsb isAPIURLOverride steps then "some-api-url" else "") /\
    NoDup (map cdc_Type (cd_Status_Conditions cd)) /\
    (forall t, conditionOfType t (cd_Status_Conditions cd) =
               lastGiven (givesCondition t) (map CWithCondition conditions) None) /\
    cd_Status_Conditions cd = cd_Status_Conditions (Build (map WithCondition conditions)).
Proof.
  intros steps cd conditions. subst cd conditions.
  unfold buildClusterDeployment, Build. cbn [fold_left].
  destruct (fold_steps steps (baseOption zero) zero eq_refl) as (H1 & H2 & H3 & H4 & H5 & H6).
  cbn zeta in H1, H2, H3, H4, H5, H6.
  split; [rewrite H1; reflexivity |].
  split; [rewrite H2; reflexivity |].
  split; [rewrite H3; reflexivity |].
  split; [rewrite H4; reflexivity |].
  split; [rewrite H5; reflexivity |].
  assert (Hmap : map WithCondition
                   (conditionsGiven UnreachableCondition ActiveAPIURLOverrideCondition steps) =
                 map optionOf
                   (map CWithCondition
                      (conditionsGiven UnreachableCondition ActiveAPIURLOverrideCondition steps)))
    by (rewrite map_map; reflexivity).
  destruct (fold_choices_conditions
              (map CWithCondition
                 (conditionsGiven UnreachableCondition ActiveAPIURLOverrideCondition steps))
              zero) as (_ & Hnd & Hlast).
  cbn zeta in Hnd, Hlast. rewrite <- Hmap in Hnd, Hlast.
  split; [rewrite H6; apply Hnd; constructor |].
  split; [intros t; rewrite H6; apply Hlast | exact H6].
Qed.

End TestBuilderFacts.

Section TagSyncWhole.

Context {W : Type}.
Variable awsClient : Client W.

(** X22. [syncTags] that succeeds has asked for the whole difference: the
    additions of its requests, one request after the other, are the tags to
    add in their order, and the removals are the keys of the tags to delete
    in theirs; every request is for the cached zone as a hosted zone. *)
Theorem syncTags_success_sends_the_whole_difference :
  forall (s : Sys W) (hz : HostedZone),
    hostedZone (actuator s) = Some hz ->
    fst (syncTags awsClient s) = Ok tt ->
    let diff := diffTags (expectedTags (actuator s)) [] (currentHostedZoneTags (actuator s)) in
    exists events : list Event,
      trace (snd (syncTags awsClient s)) = (trace s ++ events)%list /\
      concat (map ct_AddTags (tagChanges events)) = fst diff /\
      concat (map ct_RemoveTagKeys (tagChanges events)) = map tag_Key (snd diff) /\
      Forall (fun i => ct_ResourceId i = hz_Id hz /\ ct_ResourceType i = Some "hostedzone")
             (tagChanges events).
Proof.
  intros s hz Hhz Hok diff. subst diff. unfold syncTags in *. run. rewrite Hhz in *.
  destruct (diffTags (expectedTags (actuator s)) [] (currentHostedZoneTags (actuator s)))
    as [toAdd toDelete].
  cbn [fst snd].
  destruct ((length toDelete =? 0)%nat && (length toAdd =? 0)%nat) eqn:Hempty.
  - apply andb_true_iff in Hempty. rewrite !Nat.eqb_eq in Hempty. destruct Hempty as [Hd Ha].
    apply length_zero_iff_nil in Hd. apply length_zero_iff_nil in Ha. subst toAdd toDelete.
    exists []. cbn. rewrite app_nil_r. repeat split. constructor.
  - destruct (changeTagsLoop_run awsClient
                (Nat.max (length toAdd) (length (map tag_Key toDelete)))
                (hz_Id hz) toAdd (map tag_Key toDelete) 0 s)
      as (answers & Hsnd & _ & Hres); [lia |].
    destruct Hres as [(_ & _ & Hdone) | (err & init & _ & Hf)]; [| rewrite Hf in Hok; discriminate].
    set (batch := changeTagsInput (hz_Id hz) toAdd (map tag_Key toDelete)) in *.
    exists (tagEvents (map batch (strides 0 (length answers))) answers).
    split; [rewrite Hsnd; reflexivity |].
    rewrite tagChanges_tagEvents by (rewrite length_map; apply strides_length).
    rewrite !map_map. unfold batch, changeTagsInput. cbn [ct_AddTags ct_RemoveTagKeys].
    split; [| split].
    + erewrite map_ext; [| intros index; apply toAddSegment_firstn].
      rewrite segments_concat. cbn [skipn]. apply firstn_all2. lia.
    + erewrite map_ext; [| intros index; apply keysToDeleteSegment_firstn].
      rewrite segments_concat. cbn [skipn]. apply firstn_all2. lia.
    + apply Forall_map. apply Forall_forall. intros index _. split; reflexivity.
Qed.

End TagSyncWhole.

(** ** Examples of the further properties *)

(** The declared tag [team=x] where the provider holds [team=y]: one request
    adds the tag and removes its key. *)
Lemma syncTags_changed_value_example :
  hostedZone (actuator changedValuePass) = Some exampleHostedZone /\
  exists (events : list Event) (i : ChangeTagsForResourceInput) (added : Tag)
         (removed : option string),
    trace (snd (syncTags scriptedClient changedValuePass)) = events /\
    In i (tagChanges events) /\
    In added (ct_AddTags i) /\ tagContent added = ("team", "x") /\
    In removed (ct_RemoveTagKeys i) /\ StringValue removed = "team".
Proof.
  split; [reflexivity |].
  apply (syncTags_changed_value_in_one_request scriptedClient changedValuePass
           exampleHostedZone teamTag staleTeamTag).
  - reflexivity.
  - right. left. reflexivity.
  - right. left. reflexivity.
  - reflexivity.
  - reflexivity.
  - reflexivity.
  - cbn. lia.
  - cbn. lia.
Defined.

(** A cached zone without tags gets the ownership tag and the declared tag in
    one request. *)
Lemma syncTags_untagged_zone_example :
  currentHostedZoneTags (actuator untaggedPass) = [] /\
  exists (events : list Event) (first : ChangeTagsForResourceInput)
         (others : list ChangeTagsForResourceInput),
    trace (snd (syncTags scriptedClient untaggedPass)) = events /\
    tagChanges events = first :: others /\
    hd_error (ct_AddTags first) = Some ownerTag /\
    Forall (fun i => ct_RemoveTagKeys i = []) (first :: others) /\
    (fst (syncTags scriptedClient untaggedPass) = Ok tt ->
     concat (map ct_AddTags (first :: others)) = [ownerTag; teamTag]).
Proof.
  split; [reflexivity |].
  apply (syncTags_untagged_zone scriptedClient untaggedPass exampleHostedZone); reflexivity.
Defined.

(** A signature the provider rejects: the condition carries the message of
    the error. *)
Lemma SetConditionsForError_authentication_example :
  SetterContract SetDNSZoneConditionWithChangeCheck_model /\
  findCondition
    (conditionsOf
       (snd (SetConditionsForError SetDNSZoneConditionWithChangeCheck_model
               "AccessGranted" "AccessDenied" "AuthenticationSucceeded" "AuthenticationFailed"
               (Some (AwsError "InvalidSignatureException" "Signature expired"))
               freshActuator)))
    AuthenticationFailureCondition =
    Some (mkCondition AuthenticationFailureCondition ConditionTrue "AuthenticationFailed"
            "Signature expired").
Proof.
  split; [exact model_keeps_contract |].
  apply (proj1 (SetConditionsForError_authentication
                  SetDNSZoneConditionWithChangeCheck_model
                  "AccessGranted" "AccessDenied" "AuthenticationSucceeded"
                  "AuthenticationFailed" model_keeps_contract freshActuator)).
  left. reflexivity.
Defined.

(** An actuator from its construction through seven methods. *)
Lemma cached_zone_is_recorded_example :
  NewAWSActuator "us-east-1" exampleZone builtClient = Ok (freshActuator, scriptedClient) /\
  zoneRecorded
    (actuator (runMethods scriptedClient Dotted_model SetDNSZoneConditionWithChangeCheck_model
                 "AccessGranted" "AccessDenied" "AuthenticationSucceeded" "AuthenticationFailed"
                 exampleLife (mkSys freshActuator (world createPass) []))) /\
  sameSpec exampleZone
    (dnsZone
       (actuator (runMethods scriptedClient Dotted_model SetDNSZoneConditionWithChangeCheck_model
                    "AccessGranted" "AccessDenied" "AuthenticationSucceeded"
                    "AuthenticationFailed"
                    exampleLife (mkSys freshActuator (world createPass) [])))).
Proof.
  split; [reflexivity |].
  apply (cached_zone_is_recorded "us-east-1" Dotted_model
           SetDNSZoneConditionWithChangeCheck_model
           "AccessGranted" "AccessDenied" "AuthenticationSucceeded" "AuthenticationFailed"
           exampleZone builtClient freshActuator scriptedClient).
  reflexivity.
Defined.

(** The sweep of two pages and the deletion all name the zone [Z1]. *)
Lemma Delete_addresses_the_cached_zone_example :
  hostedZone (actuator sweepPass) = Some exampleHostedZone /\
  zoneRecorded (actuator sweepPass) /\
  exists events : list Event,
    trace (snd (Delete scriptedClient Dotted_model 5 sweepPass)) = events /\
    Forall (fun z => z = Some "Z1") (zonesAddressed events) /\
    fst (Delete scriptedClient Dotted_model 5 sweepPass) <> Panic.
Proof.
  split; [reflexivity |]. split; [reflexivity |].
  apply (Delete_addresses_the_cached_zone scriptedClient Dotted_model 5 sweepPass
           exampleHostedZone); reflexivity.
Defined.

(** The zone of the status is gone: one fetch, success, no zone cached, the
    identifier still in the status. *)
Lemma Refresh_stale_zone_example :
  Status_AWS (dnsZone (actuator staleZonePass)) = Some (mkAWSDNSZoneStatus (Some "Z1")) /\
  exists tail : list Event,
    trace (snd (Refresh scriptedClient Dotted_model staleZonePass)) =
      EvGetHostedZone (Some "Z1") (inr zoneGoneError) :: tail /\
    tail = [] /\
    fst (Refresh scriptedClient Dotted_model staleZonePass) = Ok tt /\
    actuator (snd (Refresh scriptedClient Dotted_model staleZonePass)) =
      mkAWSActuator None [] resolvedZone.
Proof.
  split; [reflexivity |].
  apply (Refresh_by_recorded_zone scriptedClient Dotted_model staleZonePass
           (mkAWSDNSZoneStatus (Some "Z1")) "Z1"); reflexivity.
Defined.

(** The tag search fails after a page that named a zone: the error is
    returned and no zone is fetched. *)
Lemma Refresh_search_fails_example :
  Status_AWS (dnsZone (actuator searchFailsPass)) = None /\
  exists tail : list Event,
    trace (snd (Refresh scriptedClient Dotted_model searchFailsPass)) =
      EvGetResourcesPages
        (mkGetResourcesInput [Some "route53:hostedzone"] (Some hiveDNSZoneAWSTag) [Some "a/b"])
        [mkGetResourcesOutput [Some "arn:aws:route53:::hostedzone/ZA"]] (Some throttled)
      :: tail /\
    tail = [] /\
    fst (Refresh scriptedClient Dotted_model searchFailsPass) = Fail throttled /\
    actuator (snd (Refresh scriptedClient Dotted_model searchFailsPass)) = freshActuator.
Proof.
  split; [reflexivity |].
  apply (Refresh_by_tag_search scriptedClient Dotted_model searchFailsPass). reflexivity.
Defined.

(** A zone created without tags: the cached tags are the empty list that was
    listed, though the ownership tag and the declared tag were added since. *)
Lemma Create_of_new_zone_example :
  CreateHostedZone scriptedClient
    (mkCreateHostedZoneInput (Some "z.example.com") (Some "token-123")) (world createPass) =
    (inl exampleHostedZone, mkScript [] [] [] [] [] [inl []] [inl tt] [] []) /\
  exists (inputs : list ChangeTagsForResourceInput) (answers : list (result unit)),
    trace (snd (Create scriptedClient 5 createPass)) =
      EvCreateHostedZone (mkCreateHostedZoneInput (Some "z.example.com") (Some "token-123"))
        (inl exampleHostedZone)
      :: EvListTagsForResource (Some "Z1") (inl [])
      :: tagEvents inputs answers /\
    actuator (snd (Create scriptedClient 5 createPass)) =
      mkAWSActuator (Some exampleHostedZone) [] resolvedZone.
Proof.
  split; [reflexivity |].
  apply (Create_of_new_zone scriptedClient 5 createPass exampleHostedZone
           (mkScript [] [] [] [] [] [inl []] [inl tt] [] [])).
  reflexivity.
Defined.

(** The ARN of a hosted zone, as Route53 writes it, and two that are
    skipped. *)
Lemma zoneIDOfARN_example :
  noChar ":" "aws" = true /\
  zoneIDOfARN (Some "arn:aws:route53:::hostedzone/Z1") = Some "Z1" /\
  zoneIDOfARN (Some "arn:aws:route53:::hostedzone") = None /\
  zoneIDOfARN None = None.
Proof.
  split; [reflexivity |].
  apply (zoneIDOfARN_of_hosted_zone "aws" "route53" "" "" "hostedzone" "Z1"); reflexivity.
Defined.

(** Thirteen additions and three removals, in two requests that succeed. *)
Lemma syncTags_whole_difference_example :
  hostedZone (actuator manyTagsPass) = Some exampleHostedZone /\
  fst (syncTags scriptedClient manyTagsPass) = Ok tt /\
  exists events : list Event,
    trace (snd (syncTags scriptedClient manyTagsPass)) = events /\
    concat (map ct_AddTags (tagChanges events)) = expectedTags (actuator manyTagsPass) /\
    concat (map ct_RemoveTagKeys (tagChanges events)) = [Some "old1"; Some "old2"; Some "old3"] /\
    Forall (fun i => ct_ResourceId i = Some "Z1" /\ ct_ResourceType i = Some "hostedzone")
           (tagChanges events).
Proof.
  split; [reflexivity |]. split; [reflexivity |].
  apply (syncTags_success_sends_the_whole_difference scriptedClient manyTagsPass
           exampleHostedZone); reflexivity.
Defined.
